(** * Excel-interviewer: the interview flow controller and its collaborators

    A shallow embedding of the server side of the repository:

    - [server/services/interviewService.ts]  (module [InterviewService]),
    - [server/services/excelProcessor.ts]    (module [ExcelProcessor]),
    - [server/storage.ts]                    (module [Storage]),
    - [server/routes.ts], demo variant       (module [Routes]),
    - the upload middleware it configures    (module [Transport]),
    - the [uuid] column of the sessions      (module [Postgres]),

    followed by the properties of the specification that concern them.

    JavaScript numbers are IEEE-754 binary64 values and are modelled by the
    primitive floats of the kernel, so that [0.15], [0.3] and friends carry
    the rounding error they carry in the program.  Counters that only ever
    hold small integers (indices, the spreadsheet heuristics) are modelled in
    [Z], where binary64 arithmetic is exact. *)

From Stdlib Require Import ZArith Floats Lia Bool Ascii String.
From stdpp Require Import gmap strings list pretty.

Set Warnings "-inexact-float".
Open Scope Z_scope.

(** ** The JavaScript runtime *)

Module JS.

Definition number := float.

(** An integer as a number; exact below [2^53]. *)
Definition number_of_Z (z : Z) : number :=
  match z with
  | Z0 => 0%float
  | Zpos _ => of_uint63 (Uint63.of_Z z)
  | Zneg p => (- of_uint63 (Uint63.of_Z (Zpos p)))%float
  end.

(** [Math.round]: the integer closest to [x], ties towards [+Infinity].
    The value of a finite float is [m * 2^e] exactly, so the rounding is
    computed on integers; NaN, the infinities and the zeros are returned
    as they are, and a negative argument that rounds to zero gives [-0]. *)
Definition Math_round (x : number) : number :=
  match Prim2SF x with
  | S754_finite s m e =>
      if 0 <=? e then x
      else
        let d := 2 ^ (- e) in
        let n := if s then Z.neg m else Z.pos m in
        let r := (2 * n + d) / (2 * d) in
        if (r =? 0) && s then (-0)%float else number_of_Z r
  | _ => x
  end.

(** [x || 0] on numbers: NaN and the zeros are falsy. *)
Definition or_zero (x : number) : number :=
  if is_nan x || is_zero x then 0%float else x.

(** Truthiness of a string that may be [undefined] or [null]. *)
Definition truthy (s : option string) : bool :=
  match s with
  | Some (String _ _) => true
  | _ => false
  end.

(** [s.length > n] *)
Definition longer_than (n : nat) (s : string) : bool :=
  Nat.ltb n (String.length s).

Definition upper_ascii (c : ascii) : ascii :=
  let n := nat_of_ascii c in
  if Nat.leb 97 n && Nat.leb n 122 then ascii_of_nat (n - 32) else c.

(** [s.toUpperCase()], on the ASCII letters. *)
Fixpoint toUpperCase (s : string) : string :=
  match s with
  | EmptyString => EmptyString
  | String c s' => String (upper_ascii c) (toUpperCase s')
  end.

(** [s.includes(needle)] *)
Fixpoint includes (s needle : string) : bool :=
  String.prefix needle s ||
  match s with
  | EmptyString => false
  | String _ s' => includes s' needle
  end.

(** [parts.join(sep)] *)
Fixpoint join (sep : string) (parts : list string) : string :=
  match parts with
  | [] => EmptyString
  | [p] => p
  | p :: rest => p +:+ sep +:+ join sep rest
  end.

(** [array[i]] for an integer [i]: [undefined] outside the bounds. *)
Definition index {A} (l : list A) (i : Z) : option A :=
  if i <? 0 then None else l !! Z.to_nat i.

(** *** [Number(text)]

    The decimal part of the grammar of numeric strings: an optional sign,
    then [Infinity] or digits with an optional fraction.  The empty string
    is [0] and anything else is [NaN].  Exponents, radix prefixes and
    surrounding white space are outside this model; a [decimal] column
    never yields them. *)

Definition digit_of (c : ascii) : option Z :=
  let n := Z.of_nat (nat_of_ascii c) in
  if (48 <=? n) && (n <=? 57) then Some (n - 48) else None.

(** Reads the longest run of digits, continuing the numeral [acc]; the
    result is the numeral, the count of digits read and the rest. *)
Fixpoint read_digits (s : string) (acc : Z) (n : nat) : Z * nat * string :=
  match s with
  | EmptyString => (acc, n, s)
  | String c s' =>
      match digit_of c with
      | Some d => read_digits s' (10 * acc + d) (S n)
      | None => (acc, n, s)
      end
  end.

(** The binary64 value closest to [m / 10^k], by one correctly rounded
    division of the exact numerator by the exact denominator. *)
Definition decimal (m : Z) (k : nat) : number :=
  match m with
  | Zpos p =>
      SF2Prim (SFdiv prec emax (S754_finite false p 0)
                               (S754_finite false (Z.to_pos (10 ^ Z.of_nat k)) 0))
  | _ => 0%float
  end.

Definition unsigned_literal (body : string) : number :=
  if String.eqb body "Infinity" then infinity
  else
    let '(ip, ni, rest) := read_digits body 0 0%nat in
    match rest with
    | EmptyString => if Nat.eqb ni 0 then nan else decimal ip 0
    | String "." rest' =>
        let '(m, nf, rest'') := read_digits rest' ip 0%nat in
        match rest'' with
        | EmptyString => if Nat.eqb (ni + nf) 0 then nan else decimal m nf
        | _ => nan
        end
    | _ => nan
    end.

Definition Number_of_string (s : string) : number :=
  match s with
  | EmptyString => 0%float
  | String "-" body => (- unsigned_literal body)%float
  | String "+" body => unsigned_literal body
  | _ => unsigned_literal s
  end.

(** [Number(v)] for a value that is a string or [null]. *)
Definition Number (v : option string) : number :=
  match v with
  | None => 0%float
  | Some s => Number_of_string s
  end.

End JS.

(** ** The spreadsheet inspector ([ExcelProcessor]) *)

Module ExcelProcessor.
Import JS.

(** A cell object of the spreadsheet library; [cell_f] is its formula. *)
Record CellObject := { cell_f : option string }.

(** A decoded range: first and last row and column, inclusive. *)
Record Range := { s_r : nat; s_c : nat; e_r : nat; e_c : nat }.

(** A worksheet: its [!ref] range when it has one, its cells by (row,
    column), and the records [XLSX.utils.sheet_to_json] yields for it. *)
Record WorkSheet := {
  ws_ref : option Range;
  ws_cells : gmap (nat * nat) CellObject;
  sheet_to_json : list (list (string * string));
}.

Record WorkBook := {
  SheetNames : list string;
  Sheets : gmap string WorkSheet;
}.

Record Details := {
  formulasFound : list string;
  expectedFormulas : list string;
  sheetStructure : nat * list string;
  namedRanges : list string;
  issues : list string;
  recommendations : list string;
}.

(** The three scores are sums of a few small integers per sheet, which
    binary64 adds without error: they are integers here. *)
Record ExcelEvaluationResult := {
  formulaAccuracy : Z;
  structureScore : Z;
  bestPracticesScore : Z;
  details : Details;
}.

(** [decode_range(worksheet['!ref'] || 'A1')] *)
Definition decode_range (worksheet : WorkSheet) : Range :=
  match ws_ref worksheet with
  | Some r => r
  | None => {| s_r := 0; s_c := 0; e_r := 0; e_c := 0 |}
  end.

(** The integers [from, ..., to], as a [for] loop visits them. *)
Definition upto (from to : nat) : list nat := seq from (S to - from).

Definition extractFormulas (worksheet : WorkSheet) : list string :=
  let range := decode_range worksheet in
  row ← upto (s_r range) (e_r range);
  col ← upto (s_c range) (e_c range);
  match ws_cells worksheet !! (row, col) with
  | Some cell => if truthy (cell_f cell) then option_list (cell_f cell) else []
  | None => []
  end.

Record SalesScore := {
  formulaScore : Z;
  sales_structureScore : Z;
  sales_issues : list string;
}.

(** [formulas.some(f => f.toUpperCase().includes(name))] *)
Definition mentions (name : string) (formulas : list string) : bool :=
  existsb (fun f => includes (toUpperCase f) name) formulas.

Definition evaluateSalesAnalysis (worksheet : WorkSheet) : SalesScore :=
  let formulas := extractFormulas worksheet in
  let hasXLOOKUP := mentions "XLOOKUP" formulas in
  let hasSUMIFS := mentions "SUMIFS" formulas in
  let hasINDEX := mentions "INDEX" formulas in
  let hasMATCH := mentions "MATCH" formulas in
  let lookup := hasXLOOKUP || (hasINDEX && hasMATCH) in
  let data := sheet_to_json worksheet in
  {| formulaScore :=
       60 + (if lookup then 15 else 0) + (if hasSUMIFS then 15 else 0);
     sales_structureScore :=
       60 + (if Nat.ltb 0 (length data) then 20 else 0);
     sales_issues :=
       (if lookup then []
        else ["Missing advanced lookup formulas (XLOOKUP or INDEX/MATCH)"]) ++
       (if hasSUMIFS then []
        else ["Missing SUMIFS for conditional aggregation"]) |}.

(** The formulas of every sheet of the workbook, sheet by sheet;
    [None] when a listed sheet is missing from [Sheets] (the access to
    its range throws). *)
Definition sheetFormulas (workbook : WorkBook) : option (list (list string)) :=
  mapM (fun sheetName => extractFormulas <$> Sheets workbook !! sheetName)
       (SheetNames workbook).

Definition evaluateBestPractices (workbook : WorkBook) : option Z :=
  let score := 50 in
  let sheetNames := SheetNames workbook in
  let hasDescriptiveNames :=
    forallb (fun name => longer_than 2 name && negb (includes name "Sheet"))
            sheetNames in
  let score := if hasDescriptiveNames then score + 20 else score in
  let score := if Nat.ltb 1 (length sheetNames) then score + 15 else score in
  perSheet ← sheetFormulas workbook;
  let hasComplexFormulas :=
    existsb (existsb (fun f => longer_than 20 f || includes f "IF(")) perSheet in
  let score := if hasComplexFormulas then score + 15 else score in
  Some (Z.min 100 score).

Definition emptyEvaluation (sheetNames : list string) : ExcelEvaluationResult :=
  {| formulaAccuracy := 0;
     structureScore := 0;
     bestPracticesScore := 0;
     details := {| formulasFound := []; expectedFormulas := [];
                   sheetStructure := (length sheetNames, sheetNames);
                   namedRanges := []; issues := []; recommendations := [] |} |}.

Definition pushIssues (more : list string) (d : Details) : Details :=
  {| formulasFound := formulasFound d; expectedFormulas := expectedFormulas d;
     sheetStructure := sheetStructure d; namedRanges := namedRanges d;
     issues := issues d ++ more; recommendations := recommendations d |}.

Definition pushFormulas (more : list string) (d : Details) : Details :=
  {| formulasFound := formulasFound d ++ more; expectedFormulas := expectedFormulas d;
     sheetStructure := sheetStructure d; namedRanges := namedRanges d;
     issues := issues d; recommendations := recommendations d |}.

(** The check for the expected sheets, before the loop. *)
Definition checkRequiredSheets (expectedSheets sheetNames : list string)
    (evaluation : ExcelEvaluationResult) : ExcelEvaluationResult :=
  let hasRequiredSheets :=
    forallb (fun sheet => bool_decide (sheet ∈ sheetNames)) expectedSheets in
  if hasRequiredSheets then evaluation
  else {| formulaAccuracy := formulaAccuracy evaluation;
          structureScore := structureScore evaluation - 20;
          bestPracticesScore := bestPracticesScore evaluation;
          details := pushIssues ["Missing required sheets"] (details evaluation) |}.

(** One round of the loop over the sheet names. *)
Definition analyzeSheet (workbook : WorkBook) (taskType : option string)
    (evaluation : ExcelEvaluationResult) (sheetName : string)
    : option ExcelEvaluationResult :=
  worksheet ← Sheets workbook !! sheetName;
  let formulas := extractFormulas worksheet in
  let found := pushFormulas formulas (details evaluation) in
  if bool_decide (taskType = Some "sales_analysis") then
    let salesScore := evaluateSalesAnalysis worksheet in
    Some {| formulaAccuracy := formulaAccuracy evaluation + formulaScore salesScore;
            structureScore := structureScore evaluation + sales_structureScore salesScore;
            bestPracticesScore := bestPracticesScore evaluation;
            details := pushIssues (sales_issues salesScore) found |}
  else
    Some {| formulaAccuracy := formulaAccuracy evaluation;
            structureScore := structureScore evaluation;
            bestPracticesScore := bestPracticesScore evaluation;
            details := found |}.

(** The loop over the sheet names. *)
Definition analyzeSheets (workbook : WorkBook) (taskType : option string)
    (evaluation : ExcelEvaluationResult) : option ExcelEvaluationResult :=
  foldl (fun acc sheetName => ev ← acc; analyzeSheet workbook taskType ev sheetName)
        (Some evaluation) (SheetNames workbook).

(** The scores as accumulated, before the final clamping. *)
Definition accumulate (workbook : WorkBook) (expectedSheets : list string)
    (taskType : option string) : option ExcelEvaluationResult :=
  let sheetNames := SheetNames workbook in
  evaluation ← analyzeSheets workbook taskType
                 (checkRequiredSheets expectedSheets sheetNames
                    (emptyEvaluation sheetNames));
  best ← evaluateBestPractices workbook;
  Some {| formulaAccuracy := formulaAccuracy evaluation;
          structureScore := structureScore evaluation;
          bestPracticesScore := best;
          details := details evaluation |}.

(** [Math.max(0, Math.min(100, x))] *)
Definition clamp (x : Z) : Z := Z.max 0 (Z.min 100 x).

(** [evaluateExcelFile] on the workbook [XLSX.readFile] returned, or on
    [None] when reading the file threw; [None] is the error the [catch]
    block throws again. *)
Definition evaluateExcelFile (read : option WorkBook)
    (expectedSheets : list string) (taskType : option string)
    : option ExcelEvaluationResult :=
  workbook ← read;
  evaluation ← accumulate workbook expectedSheets taskType;
  Some {| formulaAccuracy := clamp (formulaAccuracy evaluation);
          structureScore := clamp (structureScore evaluation);
          bestPracticesScore := clamp (bestPracticesScore evaluation);
          details := details evaluation |}.

End ExcelProcessor.

(** ** The data model ([shared/schema.ts]) *)

Module Schema.
Import JS.

Inductive Status := in_progress | completed | abandoned.
Inductive Category := conceptual | practical | explanation | behavioral.
Inductive Sender := ai | user.
Inductive MessageType := text | file_upload | template_download | task.

#[export] Instance Status_eq_dec : EqDecision Status.
Proof. solve_decision. Defined.
#[export] Instance Category_eq_dec : EqDecision Category.
Proof. solve_decision. Defined.
#[export] Instance Sender_eq_dec : EqDecision Sender.
Proof. solve_decision. Defined.
#[export] Instance MessageType_eq_dec : EqDecision MessageType.
Proof. solve_decision. Defined.

(** A row of [interview_sessions]; the scores are [decimal] columns and
    come back as text. *)
Record InterviewSession := {
  id : string;
  userId : string;
  status : Status;
  currentQuestionIndex : Z;
  totalQuestions : Z;
  completedAt : option Z;
  overallScore : option string;
  practicalScore : option string;
  conceptualScore : option string;
  explanationScore : option string;
  behavioralScore : option string;
  strengths : option (list string);
  improvements : option (list string);
  recommendations : option (list string);
}.

(** The [metadata] payloads the controller writes. *)
Inductive Metadata :=
| NoMetadata
| FileMetadata (filePath : string)
| TemplateMetadata (templateType : option string) (timeLimit : option Z)
| CompleteMetadata (interviewComplete : bool) (finalScore : number).

(** A row of [chat_messages]; the table keeps the rows in the order of
    their timestamps, which is the order they were added in. *)
Record ChatMessage := {
  msg_sessionId : string;
  sender : Sender;
  content : string;
  messageType : MessageType;
  metadata : Metadata;
}.

(** What the AI client returns for a conceptual answer. *)
Record ConceptualEvaluation := {
  ce_score : number;
  ce_reasoning : string;
  ce_strengths : list string;
  ce_improvements : list string;
}.

(** What the AI client returns for an explanation. *)
Record ExplanationEvaluation := {
  ee_score : number;
  ee_clarity : number;
  ee_accuracy : number;
  ee_completeness : number;
  ee_feedback : string;
}.

(** The [aiEvaluation] payloads the controller writes. *)
Inductive AiEvaluation :=
| NoEvaluation
| ConceptualPayload (e : ConceptualEvaluation)
| ExplanationPayload (e : ExplanationEvaluation)
| PracticalPayload (formulaAccuracy structureScore bestPracticesScore : Z)
                   (details : ExcelProcessor.Details).

(** A row of [interview_questions]. *)
Record InterviewQuestion := {
  q_id : string;
  q_sessionId : string;
  questionIndex : Z;
  category : Category;
  question : string;
  expectedAnswer : option string;
  userAnswer : option string;
  fileUploaded : bool;
  q_filePath : option string;
  score : option string;
  aiEvaluation : AiEvaluation;
  isCompleted : bool;
}.

(** A row of [excel_evaluations]. *)
Record ExcelEvaluation := {
  questionId : string;
  x_filePath : string;
  x_formulaAccuracy : option string;
  x_structureScore : option string;
  x_bestPracticesScore : option string;
  evaluationDetails : ExcelProcessor.Details;
}.

(** [Partial<InterviewSession>], for the columns the controller updates. *)
Record SessionUpdates := {
  set_status : option Status;
  set_currentQuestionIndex : option Z;
  set_completedAt : option Z;
  set_overallScore : option string;
  set_practicalScore : option string;
  set_conceptualScore : option string;
  set_explanationScore : option string;
  set_behavioralScore : option string;
  set_strengths : option (list string);
  set_improvements : option (list string);
  set_recommendations : option (list string);
}.

(** A column keeps its value unless the update names it. *)
Definition column {A} (new : option A) (old : A) : A := default old new.
Definition nullable {A} (new : option A) (old : option A) : option A :=
  match new with Some v => Some v | None => old end.

Definition applyUpdates (u : SessionUpdates) (s : InterviewSession)
    : InterviewSession :=
  {| id := id s;
     userId := userId s;
     status := column (set_status u) (status s);
     currentQuestionIndex :=
       column (set_currentQuestionIndex u) (currentQuestionIndex s);
     totalQuestions := totalQuestions s;
     completedAt := nullable (set_completedAt u) (completedAt s);
     overallScore := nullable (set_overallScore u) (overallScore s);
     practicalScore := nullable (set_practicalScore u) (practicalScore s);
     conceptualScore := nullable (set_conceptualScore u) (conceptualScore s);
     explanationScore := nullable (set_explanationScore u) (explanationScore s);
     behavioralScore := nullable (set_behavioralScore u) (behavioralScore s);
     strengths := nullable (set_strengths u) (strengths s);
     improvements := nullable (set_improvements u) (improvements s);
     recommendations := nullable (set_recommendations u) (recommendations s) |}.

End Schema.

(** ** Effects: the database, the outside world, and failure *)

Module Effects.
Import JS Schema.

(** The four tables the controller touches. *)
Record Store := {
  interviewSessions : gmap string InterviewSession;
  chatMessages : list ChatMessage;
  interviewQuestions : list InterviewQuestion;
  excelEvaluations : list ExcelEvaluation;
}.

Record FinalReport := {
  report_strengths : list string;
  report_improvements : list string;
  report_recommendations : list string;
}.

(** A call that leaves the process. *)
Inductive Call :=
| EvaluateConceptualAnswer (question userAnswer : string)
                           (expectedAnswer : option string)
| EvaluateExplanation (taskContext userExplanation : string)
| GenerateFinalReport (overall practicalAvg conceptualAvg explanationAvg
                       behavioralAvg : number)
| ReadFile (filePath : string)
| RenameSync (oldPath newPath : string)
| SaveTemplate (templateType : string)
| Download (templateType : string).

(** The state of the process: the database and the calls made so far. *)
Record Machine := {
  store : Store;
  calls : list Call;
}.

(** What the outside answers during one request.  The AI client and the
    spreadsheet reader answer [None] when the call throws; the database
    supplies the primary key of a new row and the clock the current time;
    [Number_toString] is the runtime's [Number.prototype.toString]. *)
Record World := {
  evaluateConceptualAnswer :
    string -> string -> option string -> option ConceptualEvaluation;
  evaluateExplanation : string -> string -> option ExplanationEvaluation;
  generateFinalReport :
    number -> number -> number -> number -> number ->
    list InterviewQuestion -> option FinalReport;
  XLSX_readFile : string -> option ExcelProcessor.WorkBook;
  gen_random_uuid : string;
  Date_now : Z;
  Number_toString : number -> string;
}.

Inductive Outcome (A : Type) :=
| Returned (a : A)
| Thrown (error : string).
Arguments Returned {A} a.
Arguments Thrown {A} error.

(** A computation may change the machine and then return or throw; what
    it changed before throwing stays changed. *)
Definition IO (A : Type) : Type := Machine -> Outcome A * Machine.

Definition ret {A} (a : A) : IO A := fun m => (Returned a, m).
Definition throw {A} (error : string) : IO A := fun m => (Thrown error, m).
Definition bind {A B} (c : IO A) (k : A -> IO B) : IO B :=
  fun m =>
    match c m with
    | (Returned a, m') => k a m'
    | (Thrown error, m') => (Thrown error, m')
    end.

(** [try { c } catch { handler }] *)
Definition try_catch {A} (c : IO A) (handler : string -> IO A) : IO A :=
  fun m =>
    match c m with
    | (Returned a, m') => (Returned a, m')
    | (Thrown error, m') => handler error m'
    end.

Definition update_store (f : Store -> Store) (m : Machine) : Machine :=
  {| store := f (store m); calls := calls m |}.
Definition record (c : Call) (m : Machine) : Machine :=
  {| store := store m; calls := calls m ++ [c] |}.

(** Reads the database. *)
Definition get_store : IO Store := fun m => (Returned (store m), m).
(** Writes to the database. *)
Definition modify (f : Store -> Store) : IO unit :=
  fun m => (Returned tt, update_store f m).
(** Records a call to the outside. *)
Definition call (c : Call) : IO unit := fun m => (Returned tt, record c m).

(** The answer of a call that may throw. *)
Definition answer {A} (error : string) (a : option A) : IO A :=
  match a with
  | Some v => ret v
  | None => throw error
  end.

End Effects.

Declare Scope io_scope.
Delimit Scope io_scope with io.
Notation "'let!' x ':=' c 'in' k" := (Effects.bind c (fun x => k))
  (at level 10, x pattern, c at level 100, k at level 200) : io_scope.
Notation "'do!' c 'in' k" := (Effects.bind c (fun _ => k))
  (at level 10, c at level 100, k at level 200) : io_scope.

(** ** The column type [uuid] of the database

    The keys of the tables are uuids ([shared/schema.ts]).  A text that
    is compared with such a column goes through the input function of
    the type first, and the statement fails when the text is no uuid. *)

Module Postgres.

Definition is_hex (c : ascii) : bool :=
  let n := nat_of_ascii c in
  (Nat.leb 48 n && Nat.leb n 57) || (Nat.leb 65 n && Nat.leb n 70)
  || (Nat.leb 97 n && Nat.leb n 102).

Definition lower_hex (c : ascii) : ascii :=
  let n := nat_of_ascii c in
  if Nat.leb 65 n && Nat.leb n 70 then ascii_of_nat (n + 32) else c.

(** Reads [n] hexadecimal digits; gives them in lower case, and the rest
    of the text. *)
Fixpoint digits (n : nat) (text : string) : option (string * string) :=
  match n with
  | O => Some (EmptyString, text)
  | S n' =>
      match text with
      | String c rest =>
          if is_hex c then
            match digits n' rest with
            | Some (read, rest') => Some (String (lower_hex c) read, rest')
            | None => None
            end
          else None
      | EmptyString => None
      end
  end.

(** Reads [n] groups of four digits; a hyphen may follow each group but
    the last. *)
Fixpoint groups (n : nat) (text : string) : option (string * string) :=
  match n with
  | O => Some (EmptyString, text)
  | S n' =>
      match digits 4 text with
      | Some (group, rest) =>
          let rest :=
            match n', rest with
            | S _, String "-" rest' => rest'
            | _, _ => rest
            end in
          match groups n' rest with
          | Some (read, rest') => Some (group +:+ read, rest')
          | None => None
          end
      | None => None
      end
  end.

(** The 32 digits as the type prints them: groups of 8, 4, 4, 4 and 12. *)
Definition uuid_out (hex : string) : string :=
  substring 0 8 hex +:+ "-" +:+ substring 8 4 hex +:+ "-" +:+ substring 12 4 hex
  +:+ "-" +:+ substring 16 4 hex +:+ "-" +:+ substring 20 12 hex.

(** The uuid a text spells, as the type prints it: the 32 digits may
    stand in a pair of braces, in either case, with a hyphen after any
    group of four.  [None] is the error [invalid input syntax for type
    uuid]. *)
Definition uuid_in (text : string) : option string :=
  let braces := match text with String "{" _ => true | _ => false end in
  let body := match text with String "{" rest => rest | _ => text end in
  match groups 8 body with
  | Some (hex, rest) =>
      if bool_decide (rest = if braces then "}" else EmptyString)
      then Some (uuid_out hex) else None
  | None => None
  end.

End Postgres.

(** ** The persistence gateway ([server/storage.ts])

    The tables live in memory, keyed by the text of their uuids.  Every
    statement succeeds but two: the insert of a session under a key that
    is taken, and the lookup of a session by a text that is no uuid.
    The other statements that take the id of a session are reached, in
    the service and in the routes, only after this lookup has found the
    session. *)

Module Storage.
Import JS Schema Effects.
Local Open Scope io_scope.

Definition withSessions (f : gmap string InterviewSession -> gmap string InterviewSession)
    (s : Store) : Store :=
  {| interviewSessions := f (interviewSessions s);
     chatMessages := chatMessages s;
     interviewQuestions := interviewQuestions s;
     excelEvaluations := excelEvaluations s |}.

Definition withMessages (f : list ChatMessage -> list ChatMessage) (s : Store) : Store :=
  {| interviewSessions := interviewSessions s;
     chatMessages := f (chatMessages s);
     interviewQuestions := interviewQuestions s;
     excelEvaluations := excelEvaluations s |}.

Definition withQuestions (f : list InterviewQuestion -> list InterviewQuestion)
    (s : Store) : Store :=
  {| interviewSessions := interviewSessions s;
     chatMessages := chatMessages s;
     interviewQuestions := f (interviewQuestions s);
     excelEvaluations := excelEvaluations s |}.

Definition withEvaluations (f : list ExcelEvaluation -> list ExcelEvaluation)
    (s : Store) : Store :=
  {| interviewSessions := interviewSessions s;
     chatMessages := chatMessages s;
     interviewQuestions := interviewQuestions s;
     excelEvaluations := f (excelEvaluations s) |}.

(** The insert fails when the key the database drew is taken. *)
Definition createInterviewSession (w : World) (userId : string) (status : Status)
    (currentQuestionIndex totalQuestions : Z) : IO InterviewSession :=
  let newSession :=
    {| id := gen_random_uuid w; userId := userId; status := status;
       currentQuestionIndex := currentQuestionIndex;
       totalQuestions := totalQuestions;
       completedAt := None; overallScore := None; practicalScore := None;
       conceptualScore := None; explanationScore := None;
       behavioralScore := None; strengths := None; improvements := None;
       recommendations := None |} in
  let! s := get_store in
  match interviewSessions s !! gen_random_uuid w with
  | Some _ => throw "duplicate key value violates unique constraint"
  | None =>
      do! modify (withSessions (insert (gen_random_uuid w) newSession)) in
      ret newSession
  end.

(** [WHERE id = $1] on the [uuid] column of the sessions.  The table
    holds a session under the text the database prints for its uuid,
    which is the text the application hands out and gets back: a key of
    the table is found as it stands.  A text that is no key is read as a
    uuid: the statement fails when it spells none, and finds no row when
    it spells one.  Another spelling of the uuid of a row (capitals,
    braces) is not traced back to the row; what is proved of missing
    sessions is stated for ids no row has under any spelling
    ([Reasoning.absent]). *)
Definition getInterviewSession (id : string) : IO (option InterviewSession) :=
  let! s := get_store in
  match interviewSessions s !! id with
  | Some session => ret (Some session)
  | None =>
      match Postgres.uuid_in id with
      | Some _ => ret None
      | None => throw "invalid input syntax for type uuid"
      end
  end.

(** The updated row, or [undefined] when no row has this id. *)
Definition updateInterviewSession (id : string) (updates : SessionUpdates)
    : IO (option InterviewSession) :=
  let! s := get_store in
  match interviewSessions s !! id with
  | Some session =>
      let updated := applyUpdates updates session in
      do! modify (withSessions (insert id updated)) in
      ret (Some updated)
  | None => ret None
  end.

Definition addChatMessage (message : ChatMessage) : IO ChatMessage :=
  do! modify (withMessages (fun rows => rows ++ [message])) in
  ret message.

(** [WHERE session_id = sessionId ORDER BY timestamp] *)
Definition sessionMessages (sessionId : string) (s : Store) : list ChatMessage :=
  filter (fun m => msg_sessionId m = sessionId) (chatMessages s).

Definition getSessionMessages (sessionId : string) : IO (list ChatMessage) :=
  let! s := get_store in
  ret (sessionMessages sessionId s).

(** The new row, with the key the database drew for it. *)
Definition addInterviewQuestion (w : World) (question : InterviewQuestion)
    : IO InterviewQuestion :=
  let newQuestion :=
    {| q_id := gen_random_uuid w; q_sessionId := q_sessionId question;
       questionIndex := questionIndex question; category := category question;
       Schema.question := Schema.question question;
       expectedAnswer := expectedAnswer question;
       userAnswer := userAnswer question; fileUploaded := fileUploaded question;
       q_filePath := q_filePath question; score := score question;
       aiEvaluation := aiEvaluation question;
       isCompleted := isCompleted question |} in
  do! modify (withQuestions (fun rows => rows ++ [newQuestion])) in
  ret newQuestion.

(** [ORDER BY question_index]: rows with equal indices keep the order
    they were added in. *)
Fixpoint insertByIndex (q : InterviewQuestion) (sorted : list InterviewQuestion)
    : list InterviewQuestion :=
  match sorted with
  | [] => [q]
  | q' :: rest =>
      if questionIndex q <? questionIndex q' then q :: sorted
      else q' :: insertByIndex q rest
  end.

Definition orderByIndex (rows : list InterviewQuestion) : list InterviewQuestion :=
  foldl (fun sorted q => insertByIndex q sorted) [] rows.

(** [WHERE session_id = sessionId ORDER BY question_index] *)
Definition sessionQuestions (sessionId : string) (s : Store)
    : list InterviewQuestion :=
  orderByIndex (filter (fun q => q_sessionId q = sessionId) (interviewQuestions s)).

Definition getSessionQuestions (sessionId : string) : IO (list InterviewQuestion) :=
  let! s := get_store in
  ret (sessionQuestions sessionId s).

Definition addExcelEvaluation (evaluation : ExcelEvaluation) : IO ExcelEvaluation :=
  do! modify (withEvaluations (fun rows => rows ++ [evaluation])) in
  ret evaluation.

End Storage.

(** ** The interview flow controller ([InterviewService]) *)

Module InterviewService.
Import JS Schema Effects.
Local Open Scope io_scope.

Record InterviewQuestionTemplate := {
  t_category : Category;
  t_question : string;
  t_expectedAnswer : option string;
  taskType : option string;
  timeLimit : option Z;
}.

Definition QUESTION_TEMPLATES : list InterviewQuestionTemplate :=
  [ {| t_category := conceptual;
       t_question := "What are the key differences between VLOOKUP and XLOOKUP? When would you choose one over the other?";
       t_expectedAnswer := Some "XLOOKUP is more flexible, can search left-to-right and right-to-left, returns arrays, has better error handling, and supports approximate and exact matches more intuitively than VLOOKUP.";
       taskType := None; timeLimit := None |};
    {| t_category := conceptual;
       t_question := "Explain how pivot tables work and when you would use them versus regular formulas for data analysis.";
       t_expectedAnswer := Some "Pivot tables summarize large datasets by grouping and aggregating data dynamically. Use for exploratory analysis, cross-tabulation, and when data structure changes frequently.";
       taskType := None; timeLimit := None |};
    {| t_category := practical;
       t_question := "Complete the data cleanup task. Clean and standardize the messy customer data provided.";
       t_expectedAnswer := None;
       taskType := Some "data_cleanup"; timeLimit := Some 8 |};
    {| t_category := practical;
       t_question := "Create a sales analysis dashboard with monthly summaries, top products by region, and KPI tracking.";
       t_expectedAnswer := None;
       taskType := Some "sales_analysis"; timeLimit := Some 10 |};
    {| t_category := explanation;
       t_question := "Explain your approach to the sales analysis task. What formulas did you use and why?";
       t_expectedAnswer := None;
       taskType := None; timeLimit := None |};
    {| t_category := conceptual;
       t_question := "How would you optimize Excel performance when working with large datasets (100k+ rows)?";
       t_expectedAnswer := Some "Use efficient formulas (avoid volatile functions), limit array formulas, use tables instead of ranges, minimize cross-sheet references, consider Power Query for data transformation.";
       taskType := None; timeLimit := None |};
    {| t_category := behavioral;
       t_question := "Describe a time when you encountered a #REF! error in Excel. How did you troubleshoot and resolve it?";
       t_expectedAnswer := None;
       taskType := None; timeLimit := None |};
    {| t_category := conceptual;
       t_question := "What are dynamic arrays in Excel and how do they differ from traditional array formulas?";
       t_expectedAnswer := Some "Dynamic arrays automatically spill results to adjacent cells, resize automatically, and use the @ operator. They're simpler than Ctrl+Shift+Enter array formulas.";
       taskType := None; timeLimit := None |} ].

(** [QUESTION_TEMPLATES.length] *)
Definition script_length : Z := Z.of_nat (length QUESTION_TEMPLATES).

(** A line feed. *)
Definition nl : string := String (ascii_of_nat 10) EmptyString.

Definition textMessage (sessionId : string) (content : string) : ChatMessage :=
  {| msg_sessionId := sessionId; sender := ai; content := content;
     messageType := text; metadata := NoMetadata |}.

Definition welcome (w : World) : string :=
  "Welcome to your Excel skills assessment! I'm your AI interviewer, and I'll be guiding you through "
  +:+ Number_toString w (number_of_Z script_length)
  +:+ " questions covering conceptual knowledge, practical tasks, and explanations."
  +:+ nl +:+ nl
  +:+ "This interview will take approximately 45 minutes and will cover:" +:+ nl
  +:+ "• Conceptual Excel knowledge (25%)" +:+ nl
  +:+ "• Practical Excel tasks (50%)  " +:+ nl
  +:+ "• Explanations and best practices (15%)" +:+ nl
  +:+ "• Behavioral and problem-solving (10%)" +:+ nl +:+ nl
  +:+ "Let's begin with our first question. Are you ready to start?".

Definition startInterview (w : World) (userId : string) : IO InterviewSession :=
  let! session :=
    Storage.createInterviewSession w userId in_progress (-1) script_length in
  do! Storage.addChatMessage (textMessage (id session) (welcome w)) in
  ret session.

(** [session?.currentQuestionIndex || 0] *)
Definition getCurrentQuestionIndex (sessionId : string) : IO Z :=
  let! session := Storage.getInterviewSession sessionId in
  ret (match session with
       | Some s => currentQuestionIndex s
       | None => 0
       end).

(** [questions[questions.length - 1]?.id || ''] *)
Definition getLatestQuestionId (sessionId : string) : IO string :=
  let! questions := Storage.getSessionQuestions sessionId in
  ret (match last questions with
       | Some q => q_id q
       | None => EmptyString
       end).

Definition calculateAverageScore (questions : list InterviewQuestion) : number :=
  if Nat.eqb (length questions) 0 then 0%float
  else
    let total :=
      foldl (fun sum q => (sum + or_zero (Number (score q)))%float)
            0%float questions in
    Math_round (total / number_of_Z (Z.of_nat (length questions)))%float.

(** The weighted score of a practical task. *)
Definition practicalOverall (evaluation : ExcelProcessor.ExcelEvaluationResult)
    : number :=
  Math_round
    (number_of_Z (ExcelProcessor.formulaAccuracy evaluation) * 0.5 +
     number_of_Z (ExcelProcessor.structureScore evaluation) * 0.3 +
     number_of_Z (ExcelProcessor.bestPracticesScore evaluation) * 0.2)%float.

(** The weighted score of the whole interview. *)
Definition weightedOverall
    (practicalScore conceptualScore explanationScore behavioralScore : number)
    : number :=
  Math_round
    (practicalScore * 0.5 +
     conceptualScore * 0.25 +
     explanationScore * 0.15 +
     behavioralScore * 0.1)%float.

(** The columns every scoring branch fills in; the key is the
    database's to draw. *)
Definition newQuestion (sessionId : string) (questionIndex : Z)
    (t : InterviewQuestionTemplate) (expectedAnswer : option string)
    (userAnswer : string) (score : string) (aiEvaluation : AiEvaluation)
    : InterviewQuestion :=
  {| q_id := EmptyString; q_sessionId := sessionId;
     questionIndex := questionIndex; category := t_category t;
     question := t_question t; expectedAnswer := expectedAnswer;
     userAnswer := Some userAnswer; fileUploaded := false;
     q_filePath := None; score := Some score;
     aiEvaluation := aiEvaluation; isCompleted := true |}.

Definition withFile (filePath : string) (q : InterviewQuestion) : InterviewQuestion :=
  {| q_id := q_id q; q_sessionId := q_sessionId q;
     questionIndex := questionIndex q; category := category q;
     question := question q; expectedAnswer := expectedAnswer q;
     userAnswer := userAnswer q; fileUploaded := true;
     q_filePath := Some filePath; score := score q;
     aiEvaluation := aiEvaluation q; isCompleted := isCompleted q |}.

(** [expectedTemplate.expectedSheets] *)
Definition expectedSheets (question : InterviewQuestionTemplate) : list string :=
  if bool_decide (taskType question = Some "sales_analysis")
  then ["Monthly_Summary"; "Top_Products"; "KPI_Dashboard"]
  else ["Clean_Data"].

Definition evaluatePracticalTask (w : World) (sessionId : string)
    (question : InterviewQuestionTemplate) (filePath userExplanation : string)
    : IO (string * number) :=
  do! call (ReadFile filePath) in
  let! evaluation :=
    answer "Failed to evaluate Excel file"
      (ExcelProcessor.evaluateExcelFile (XLSX_readFile w filePath)
         (expectedSheets question) (taskType question)) in
  let overallScore := practicalOverall evaluation in
  let! currentIndex := getCurrentQuestionIndex sessionId in
  do! Storage.addInterviewQuestion w
        (withFile filePath
           (newQuestion sessionId currentIndex question None userExplanation
              (Number_toString w overallScore)
              (PracticalPayload
                 (ExcelProcessor.formulaAccuracy evaluation)
                 (ExcelProcessor.structureScore evaluation)
                 (ExcelProcessor.bestPracticesScore evaluation)
                 (ExcelProcessor.details evaluation)))) in
  let! latest := getLatestQuestionId sessionId in
  do! Storage.addExcelEvaluation
        {| questionId := latest; x_filePath := filePath;
           x_formulaAccuracy :=
             Some (Number_toString w
                     (number_of_Z (ExcelProcessor.formulaAccuracy evaluation)));
           x_structureScore :=
             Some (Number_toString w
                     (number_of_Z (ExcelProcessor.structureScore evaluation)));
           x_bestPracticesScore :=
             Some (Number_toString w
                     (number_of_Z (ExcelProcessor.bestPracticesScore evaluation)));
           evaluationDetails := ExcelProcessor.details evaluation |} in
  let feedback :=
    if (80 <=? overallScore)%float then "Excellent work on this practical task!"
    else if (60 <=? overallScore)%float then "Good job on this task."
    else "You completed the task, but there are areas for improvement." in
  let found := ExcelProcessor.issues (ExcelProcessor.details evaluation) in
  let feedback :=
    if Nat.ltb 0 (length found)
    then feedback +:+ " Key areas to note: " +:+ join ", " found +:+ "."
    else feedback in
  ret (feedback, overallScore).

Definition ofCategory (c : Category) (questions : list InterviewQuestion)
    : list InterviewQuestion :=
  filter (fun q => category q = c) questions.

Definition completeInterview (w : World) (sessionId : string) : IO unit :=
  let! questions := Storage.getSessionQuestions sessionId in
  let practicalScore := calculateAverageScore (ofCategory practical questions) in
  let conceptualScore := calculateAverageScore (ofCategory conceptual questions) in
  let explanationScore := calculateAverageScore (ofCategory explanation questions) in
  let behavioralScore := calculateAverageScore (ofCategory behavioral questions) in
  let overallScore :=
    weightedOverall practicalScore conceptualScore explanationScore behavioralScore in
  do! call (GenerateFinalReport overallScore practicalScore conceptualScore
              explanationScore behavioralScore) in
  let! report :=
    answer "Failed to generate final report"
      (generateFinalReport w overallScore practicalScore conceptualScore
         explanationScore behavioralScore questions) in
  do! Storage.updateInterviewSession sessionId
        {| set_status := Some completed;
           set_currentQuestionIndex := None;
           set_completedAt := Some (Date_now w);
           set_overallScore := Some (Number_toString w overallScore);
           set_practicalScore := Some (Number_toString w practicalScore);
           set_conceptualScore := Some (Number_toString w conceptualScore);
           set_explanationScore := Some (Number_toString w explanationScore);
           set_behavioralScore := Some (Number_toString w behavioralScore);
           set_strengths := Some (report_strengths report);
           set_improvements := Some (report_improvements report);
           set_recommendations := Some (report_recommendations report) |} in
  do! Storage.addChatMessage
        {| msg_sessionId := sessionId; sender := ai;
           content :=
             "Interview completed! Your overall score is "
             +:+ Number_toString w overallScore
             +:+ "%. Click here to view your detailed results and recommendations.";
           messageType := text;
           metadata := CompleteMetadata true overallScore |} in
  ret tt.

(** The reply to an answer, and the index the script moves to. *)
Definition scoreAnswer (w : World) (sessionId : string) (session : InterviewSession)
    (currentQuestion : InterviewQuestionTemplate) (userMessage : string)
    (filePath : option string) : IO (string * Z) :=
  let nextQuestionIndex := currentQuestionIndex session in
  if bool_decide (t_category currentQuestion = practical) && truthy filePath then
    let! evaluation :=
      evaluatePracticalTask w sessionId currentQuestion
        (default EmptyString filePath) userMessage in
    ret ("Great! I've received your Excel file. " +:+ fst evaluation,
         nextQuestionIndex + 1)
  else if bool_decide (t_category currentQuestion = conceptual) then
    do! call (EvaluateConceptualAnswer (t_question currentQuestion) userMessage
                (t_expectedAnswer currentQuestion)) in
    let! evaluation :=
      answer "Failed to evaluate conceptual answer"
        (evaluateConceptualAnswer w (t_question currentQuestion) userMessage
           (t_expectedAnswer currentQuestion)) in
    do! Storage.addInterviewQuestion w
          (newQuestion sessionId (currentQuestionIndex session) currentQuestion
             (t_expectedAnswer currentQuestion) userMessage
             (Number_toString w (ce_score evaluation))
             (ConceptualPayload evaluation)) in
    let aiResponse :=
      if (70 <=? ce_score evaluation)%float
      then "Excellent answer! " +:+ ce_reasoning evaluation
      else if (50 <=? ce_score evaluation)%float
      then "Good understanding shown. " +:+ ce_reasoning evaluation
      else "I can see you have some knowledge in this area. "
           +:+ ce_reasoning evaluation in
    ret (aiResponse, nextQuestionIndex + 1)
  else if bool_decide (t_category currentQuestion = explanation) then
    do! call (EvaluateExplanation "Sales analysis task explanation" userMessage) in
    let! evaluation :=
      answer "Failed to evaluate explanation"
        (evaluateExplanation w "Sales analysis task explanation" userMessage) in
    do! Storage.addInterviewQuestion w
          (newQuestion sessionId (currentQuestionIndex session) currentQuestion
             None userMessage
             (Number_toString w (ee_score evaluation))
             (ExplanationPayload evaluation)) in
    ret ("Thank you for the explanation. " +:+ ee_feedback evaluation,
         nextQuestionIndex + 1)
  else if bool_decide (t_category currentQuestion = behavioral) then
    do! Storage.addInterviewQuestion w
          (newQuestion sessionId (currentQuestionIndex session) currentQuestion
             None userMessage "80" NoEvaluation) in
    ret ("Thank you for sharing that experience. Problem-solving skills are crucial when working with Excel.",
         nextQuestionIndex + 1)
  else ret (EmptyString, nextQuestionIndex).

(** [nextQuestion.category === 'practical' && nextQuestion.taskType] *)
Definition offersTemplate (nextQuestion : InterviewQuestionTemplate) : bool :=
  bool_decide (t_category nextQuestion = practical) && truthy (taskType nextQuestion).

(** The chat message a turn logs for the user. *)
Definition messageData (sessionId userMessage : string) (filePath : option string)
    : ChatMessage :=
  {| msg_sessionId := sessionId; sender := user; content := userMessage;
     messageType := if truthy filePath then file_upload else text;
     metadata := if truthy filePath
                 then FileMetadata (default EmptyString filePath)
                 else NoMetadata |}.

(** The message that hands out the template of a practical task. *)
Definition templateMessage (sessionId : string)
    (nextQuestion : InterviewQuestionTemplate) : ChatMessage :=
  {| msg_sessionId := sessionId; sender := ai;
     content := "Template file ready for download";
     messageType := template_download;
     metadata := TemplateMetadata (taskType nextQuestion) (timeLimit nextQuestion) |}.

Definition processUserMessage (w : World) (sessionId userMessage : string)
    (filePath : option string)
    : IO (option InterviewSession * list ChatMessage) :=
  let! found := Storage.getInterviewSession sessionId in
  match found with
  | None => throw "Interview session not found"
  | Some session =>
    do! Storage.addChatMessage (messageData sessionId userMessage filePath) in
    if currentQuestionIndex session =? -1 then
      match index QUESTION_TEMPLATES 0 with
      | None => throw "TypeError: Cannot read properties of undefined"
      | Some firstQuestion =>
        let aiResponse :=
          "Great! Let's begin with our first question:" +:+ nl +:+ nl
          +:+ t_question firstQuestion in
        let! updatedSession :=
          Storage.updateInterviewSession sessionId
            {| set_status := None; set_currentQuestionIndex := Some 0;
               set_completedAt := None; set_overallScore := None;
               set_practicalScore := None; set_conceptualScore := None;
               set_explanationScore := None; set_behavioralScore := None;
               set_strengths := None; set_improvements := None;
               set_recommendations := None |} in
        do! Storage.addChatMessage (textMessage sessionId aiResponse) in
        let! messages := Storage.getSessionMessages sessionId in
        ret (updatedSession, messages)
      end
    else
      match index QUESTION_TEMPLATES (currentQuestionIndex session) with
      | None => throw "TypeError: Cannot read properties of undefined"
      | Some currentQuestion =>
        let! scored :=
          scoreAnswer w sessionId session currentQuestion userMessage filePath in
        let '(aiResponse, nextQuestionIndex) := scored in
        let! continued :=
          if script_length <=? nextQuestionIndex then
            do! completeInterview w sessionId in
            ret (aiResponse
                 +:+ " That completes our interview! Let me calculate your final results.",
                 false)
          else
            match index QUESTION_TEMPLATES nextQuestionIndex with
            | None => throw "TypeError: Cannot read properties of undefined"
            | Some nextQuestion =>
              let aiResponse :=
                aiResponse +:+ nl +:+ nl +:+ "Let's move to our next question:"
                +:+ nl +:+ nl +:+ t_question nextQuestion in
              ret (if offersTemplate nextQuestion
                   then aiResponse +:+ nl +:+ nl
                        +:+ "I'll provide you with a template file to work with. Please download it, complete the task, and upload your solution."
                   else aiResponse,
                   true)
            end in
        let '(aiResponse, shouldContinue) := continued in
        let! updatedSession :=
          Storage.updateInterviewSession sessionId
            {| set_status := Some (if shouldContinue then in_progress else completed);
               set_currentQuestionIndex := Some nextQuestionIndex;
               set_completedAt := None; set_overallScore := None;
               set_practicalScore := None; set_conceptualScore := None;
               set_explanationScore := None; set_behavioralScore := None;
               set_strengths := None; set_improvements := None;
               set_recommendations := None |} in
        do! Storage.addChatMessage (textMessage sessionId aiResponse) in
        do! (if shouldContinue && (nextQuestionIndex <? script_length) then
               match index QUESTION_TEMPLATES nextQuestionIndex with
               | None => throw "TypeError: Cannot read properties of undefined"
               | Some nextQuestion =>
                 if offersTemplate nextQuestion then
                   do! Storage.addChatMessage
                         (templateMessage sessionId nextQuestion) in
                   ret tt
                 else ret tt
               end
             else ret tt) in
        let! messages := Storage.getSessionMessages sessionId in
        ret (updatedSession, messages)
      end
  end.

Record Progress := {
  progress_currentQuestion : Z;
  progress_totalQuestions : Z;
  percentage : number;
}.

Record SessionDetails := {
  details_session : InterviewSession;
  details_messages : list ChatMessage;
  details_questions : list InterviewQuestion;
  progress : Progress;
}.

Definition getSessionWithDetails (sessionId : string) : IO (option SessionDetails) :=
  let! found := Storage.getInterviewSession sessionId in
  match found with
  | None => ret None
  | Some session =>
    let! messages := Storage.getSessionMessages sessionId in
    let! questions := Storage.getSessionQuestions sessionId in
    ret (Some
      {| details_session := session;
         details_messages := messages;
         details_questions := questions;
         progress :=
           {| progress_currentQuestion := currentQuestionIndex session + 1;
              progress_totalQuestions := totalQuestions session;
              percentage :=
                Math_round
                  (number_of_Z (currentQuestionIndex session + 1)
                   / number_of_Z (totalQuestions session) * 100)%float |} |})
  end.

End InterviewService.

(** ** The HTTP surface ([registerRoutes], the variant without
       authentication) *)

Module Routes.
Import JS Schema Effects.
Local Open Scope io_scope.

(** What a handler reads of a request: the path parameters, the
    [message] of the body when it has one, and the path of the file the
    upload middleware stored when there is one. *)
Record Request := {
  sessionId : string;
  templateType : string;
  message : option string;
  file : option string;
}.

Inductive Body :=
| MessageBody (message : string)
| DetailsBody (details : option InterviewService.SessionDetails)
| TurnBody (session : option InterviewSession) (messages : list ChatMessage)
| DownloadBody (fileName : string).

Record Response := {
  res_status : Z;
  body : Body;
}.

(** [res.json(body)] *)
Definition json (b : Body) : Response := {| res_status := 200; body := b |}.
(** [res.status(code).json({ message })] *)
Definition status_json (code : Z) (message : string) : Response :=
  {| res_status := code; body := MessageBody message |}.

Definition notFound : Response := status_json 404 "Interview session not found".

(** A turn of the controller with the text of the request; a body
    without [message] makes the insert of the chat message fail, its
    [content] column being [NOT NULL]. *)
Definition turn (w : World) (sessionId : string) (message : option string)
    (filePath : option string) : IO Response :=
  match message with
  | None => throw "null value in column content violates not-null constraint"
  | Some userMessage =>
      let! result :=
        InterviewService.processUserMessage w sessionId userMessage filePath in
      ret (json (TurnBody (fst result) (snd result)))
  end.

(** [GET /api/interviews/:sessionId] *)
Definition getInterview (w : World) (req : Request) : IO Response :=
  try_catch
    (let! session := Storage.getInterviewSession (sessionId req) in
     match session with
     | None => ret notFound
     | Some _ =>
         let! details := InterviewService.getSessionWithDetails (sessionId req) in
         ret (json (DetailsBody details))
     end)
    (fun _ => ret (status_json 500 "Failed to fetch interview")).

(** [POST /api/interviews/:sessionId/message] *)
Definition postMessage (w : World) (req : Request) : IO Response :=
  try_catch
    (let! session := Storage.getInterviewSession (sessionId req) in
     match session with
     | None => ret notFound
     | Some _ => turn w (sessionId req) (message req) None
     end)
    (fun _ => ret (status_json 500 "Failed to process message")).

(** [POST /api/interviews/:sessionId/upload], after the upload
    middleware. *)
Definition postUpload (w : World) (req : Request) : IO Response :=
  try_catch
    (match file req with
     | None => ret (status_json 400 "No file uploaded")
     | Some originalPath =>
         let! session := Storage.getInterviewSession (sessionId req) in
         match session with
         | None => ret notFound
         | Some _ =>
             let newPath := originalPath +:+ ".xlsx" in
             do! call (RenameSync originalPath newPath) in
             turn w (sessionId req) (Some (default EmptyString (message req)))
                  (Some newPath)
         end
     end)
    (fun _ => ret (status_json 500 "Failed to upload file")).

(** [ExcelProcessor.saveTemplate]: the two templates it can write. *)
Definition saveTemplate (templateType : string) : IO unit :=
  if bool_decide (templateType = "sales_analysis")
     || bool_decide (templateType = "data_cleanup")
  then call (SaveTemplate templateType)
  else throw ("Unknown template type: " +:+ templateType).

(** [GET /api/interviews/:sessionId/template/:templateType] *)
Definition getTemplate (w : World) (req : Request) : IO Response :=
  try_catch
    (let! session := Storage.getInterviewSession (sessionId req) in
     match session with
     | None => ret notFound
     | Some _ =>
         do! saveTemplate (templateType req) in
         do! call (Download (templateType req)) in
         ret (json (DownloadBody (templateType req +:+ "_template.xlsx")))
     end)
    (fun _ => ret (status_json 500 "Failed to generate template")).

(** The endpoints that name a session. *)
Inductive Endpoint := GetInterview | PostMessage | PostUpload | GetTemplate.

Definition handle (e : Endpoint) : World -> Request -> IO Response :=
  match e with
  | GetInterview => getInterview
  | PostMessage => postMessage
  | PostUpload => postUpload
  | GetTemplate => getTemplate
  end.

End Routes.

(** ** The transport of an upload ([multer], as [registerRoutes]
       configures it) *)

Module Transport.
Import JS Schema Effects Routes.
Local Open Scope io_scope.

(** The file part of a multipart request: the field it comes in, the type
    it declares, whether the middleware finds it within the size limit
    of [10 * 1024 * 1024] bytes, and the path it is stored under. *)
Record Part := {
  fieldname : string;
  mimetype : string;
  withinLimit : bool;
  path : string;
}.

Definition allowedTypes : list string :=
  ["application/vnd.openxmlformats-officedocument.spreadsheetml.sheet";
   "application/vnd.ms-excel"].

(** [fileFilter]: the error it hands to its callback, if any. *)
Definition fileFilter (mimetype : string) : option string :=
  if bool_decide (mimetype ∈ allowedTypes) then None
  else Some "Only Excel files are allowed".

(** [upload.single('excel')]: the path of the stored file, which the
    handler reads as [req.file], or the error the middleware passes on
    instead of calling the handler.  The field is checked first, then
    the filter runs, then the file is stored unless it is too large. *)
Definition single (part : option Part) : string + option string :=
  match part with
  | None => inr None
  | Some p =>
      if negb (bool_decide (fieldname p = "excel")) then inl "Unexpected field"
      else
        match fileFilter (mimetype p) with
        | Some error => inl error
        | None =>
            if withinLimit p then inr (Some (path p)) else inl "File too large"
        end
  end.

(** What becomes of a request: the response of its handler, or an error
    passed on to the error handling of the application, the handler not
    being called. *)
Inductive Answer :=
| Answered (response : Response)
| PassedOn (error : string).

Definition withUpload (stored : option string) (req : Request) : Request :=
  {| sessionId := sessionId req; templateType := templateType req;
     message := message req; file := stored |}.

(** A route as [registerRoutes] registers it: the upload goes through
    the middleware before its handler, the others go to their handlers. *)
Definition route (e : Endpoint) (w : World) (req : Request) (part : option Part)
    : IO Answer :=
  match e with
  | PostUpload =>
      match single part with
      | inl error => ret (PassedOn error)
      | inr stored =>
          let! response := postUpload w (withUpload stored req) in
          ret (Answered response)
      end
  | _ =>
      let! response := handle e w req in
      ret (Answered response)
  end.

End Transport.

(** ** The specification's wording, as definitions *)

Module Wording.
Import JS Schema.

(** What a row counts for in an average: its parsed score, and [0] when
    the text of the score is not a number. *)
Definition countedScore (q : InterviewQuestion) : number :=
  let parsed := Number (score q) in
  if is_nan parsed then 0%float
  else if is_zero parsed then 0%float
  else parsed.

(** The rounded arithmetic mean of a list of numbers, [0] for none. *)
Definition roundedMean (scores : list number) : number :=
  match scores with
  | [] => 0%float
  | _ => Math_round (foldl PrimFloat.add 0%float scores
                     / number_of_Z (Z.of_nat (length scores)))%float
  end.

(** A capital letter of the alphabet, by its code. *)
Definition capital (c : ascii) : bool :=
  let n := nat_of_ascii c in Nat.leb 65 n && Nat.leb n 90.

(** The same character, or the two cases of one letter. *)
Definition sameLetter (a b : ascii) : bool :=
  Ascii.eqb a b
  || (capital a && Nat.eqb (nat_of_ascii b) (nat_of_ascii a + 32))
  || (capital b && Nat.eqb (nat_of_ascii a) (nat_of_ascii b + 32)).

(** The same word, read without regard to the case of its letters. *)
Fixpoint sameWord (a b : string) : bool :=
  match a, b with
  | EmptyString, EmptyString => true
  | String x a', String y b' => sameLetter x y && sameWord a' b'
  | _, _ => false
  end.

(** One of the formulas contains the name as a substring, in whatever
    case its letters are written. *)
Definition contains (name : string) (formulas : list string) : Prop :=
  exists formula before part after,
    formula ∈ formulas
    /\ formula = before +:+ part +:+ after
    /\ sameWord part name = true.

(** A text of ASCII characters only. *)
Definition plain (text : string) : bool :=
  forallb (fun c => Nat.ltb (nat_of_ascii c) 128) (list_ascii_of_string text).

End Wording.

(** ** Sample data: a world, a store and workbooks to run the model on *)

Module Sample.
Import JS Schema Effects.

(** The integer part of a number. *)
Definition integer_of (x : number) : Z :=
  match Prim2SF x with
  | S754_finite s m e =>
      let magnitude := if 0 <=? e then Z.pos m * 2 ^ e else Z.pos m / 2 ^ (- e) in
      if s then - magnitude else magnitude
  | _ => 0
  end.

(** Prints a number that is an integer. *)
Definition showInteger (x : number) : string := pretty (integer_of x).

Definition cell (formula : string) : ExcelProcessor.CellObject :=
  {| ExcelProcessor.cell_f := Some formula |}.

(** A sheet with its formulas in column A and as many records. *)
Definition sheetOf (formulas : list string) : ExcelProcessor.WorkSheet :=
  {| ExcelProcessor.ws_ref :=
       Some {| ExcelProcessor.s_r := 0; ExcelProcessor.s_c := 0;
               ExcelProcessor.e_r := length formulas; ExcelProcessor.e_c := 0 |};
     ExcelProcessor.ws_cells :=
       list_to_map (imap (fun i f => ((i, 0%nat), cell f)) formulas);
     ExcelProcessor.sheet_to_json := (fun f => [("formula", f)]) <$> formulas |}.

Definition bookOf (sheets : list (string * list string)) : ExcelProcessor.WorkBook :=
  {| ExcelProcessor.SheetNames := fst <$> sheets;
     ExcelProcessor.Sheets := list_to_map (prod_map Datatypes.id sheetOf <$> sheets) |}.

(** Both sheets look a value up with XLOOKUP. *)
Definition twoLookups : ExcelProcessor.WorkBook :=
  bookOf [("Monthly_Summary", ["=XLOOKUP(A2,Raw!A:A,Raw!E:E)"]);
          ("Top_Products", ["=xlookup(B2,Raw!C:C,Raw!E:E)"])].

(** One sheet whose formulas name their functions in mixed and in small
    letters. *)
Definition mixedCase : ExcelProcessor.WorkBook :=
  bookOf [("Monthly_Summary",
           ["=Index(Raw!E:E,3)"; "=Match(B2,Raw!C:C,0)";
            "=sumifs(Raw!E:E,Raw!B:B,A2)"])].

(** One sheet with a lookup and a conditional sum. *)
Definition oneSheet : ExcelProcessor.WorkBook :=
  bookOf [("Monthly_Summary",
           ["=XLOOKUP(A2,Raw!A:A,Raw!E:E)"; "=SUMIFS(Raw!E:E,Raw!B:B,A2)"])].

(** A cleaned sheet under a name the task does not expect. *)
Definition cleanup : ExcelProcessor.WorkBook :=
  bookOf [("Sheet1", ["=PROPER(A2)"])].

Definition world : World :=
  {| evaluateConceptualAnswer := fun _ _ _ =>
       Some {| ce_score := 70%float; ce_reasoning := "Covers the main points.";
               ce_strengths := []; ce_improvements := [] |};
     evaluateExplanation := fun _ _ =>
       Some {| ee_score := 50%float; ee_clarity := 50%float;
               ee_accuracy := 50%float; ee_completeness := 50%float;
               ee_feedback := "Clear enough." |};
     generateFinalReport := fun _ _ _ _ _ _ =>
       Some {| report_strengths := ["Lookups"]; report_improvements := [];
               report_recommendations := [] |};
     XLSX_readFile := fun _ => Some oneSheet;
     gen_random_uuid := "7d9f";
     Date_now := 1700000000000;
     Number_toString := showInteger |}.

(** An answered question with the given score text. *)
Definition answered (sessionId : string) (i : Z) (c : Category)
    (scoreText : option string) : InterviewQuestion :=
  {| q_id := pretty i; q_sessionId := sessionId; questionIndex := i;
     category := c; question := "Q"; expectedAnswer := None;
     userAnswer := Some "A"; fileUploaded := false; q_filePath := None;
     score := scoreText; aiEvaluation := NoEvaluation; isCompleted := true |}.

Definition session (sessionId : string) (i : Z) (st : Status) : InterviewSession :=
  {| id := sessionId; userId := "demo-user"; status := st;
     currentQuestionIndex := i; totalQuestions := 8;
     completedAt := None; overallScore := None; practicalScore := None;
     conceptualScore := None; explanationScore := None;
     behavioralScore := None; strengths := None; improvements := None;
     recommendations := None |}.

Definition emptyStore : Store :=
  {| interviewSessions := ∅; chatMessages := [];
     interviewQuestions := []; excelEvaluations := [] |}.

Definition boot : Machine := {| store := emptyStore; calls := [] |}.

(** A machine whose only session stands at index [i]. *)
Definition at_index (i : Z) (st : Status) : Machine :=
  {| store :=
       {| interviewSessions := {[ "7d9f" := session "7d9f" i st ]};
          chatMessages := []; interviewQuestions := []; excelEvaluations := [] |};
     calls := [] |}.

(** A session at its last question, with one answer per category on
    record: 90 practical, 70 conceptual, 50 explanation, 80 behavioral. *)
Definition scored : Machine :=
  {| store :=
       {| interviewSessions := {[ "7d9f" := session "7d9f" 7 in_progress ]};
          chatMessages := [];
          interviewQuestions :=
            [ answered "7d9f" 0 conceptual (Some "70.00");
              answered "7d9f" 2 practical (Some "90.00");
              answered "7d9f" 4 explanation (Some "50.00");
              answered "7d9f" 6 behavioral (Some "80.00") ];
          excelEvaluations := [] |};
     calls := [] |}.

(** A request for a session that does not exist, without a file. *)
Definition strayRequest : Routes.Request :=
  {| Routes.sessionId := "0000"; Routes.templateType := "sales_analysis";
     Routes.message := Some "Hello?"; Routes.file := None |}.

End Sample.

(** ** Sequences of turns *)

Module Trajectory.
Import Schema Effects.

(** One call of [processUserMessage]: its arguments and what the outside
    answers while it runs. *)
Record Turn := {
  turn_world : World;
  turn_sessionId : string;
  turn_userMessage : string;
  turn_filePath : option string;
}.

(** The machine a turn leaves behind, whether it returned or threw. *)
Definition after (t : Turn) (m : Machine) : Machine :=
  snd (InterviewService.processUserMessage (turn_world t) (turn_sessionId t)
         (turn_userMessage t) (turn_filePath t) m).

(** The machine before the first turn and after each turn. *)
Fixpoint states (turns : list Turn) (m : Machine) : list Machine :=
  m :: match turns with
       | [] => []
       | t :: rest => states rest (after t m)
       end.

(** The only changes of status a session may go through. *)
Definition status_step (before after : Status) : Prop :=
  (before = in_progress /\ after = in_progress)
  \/ (before = in_progress /\ after = completed)
  \/ (before = completed /\ after = completed).

End Trajectory.

(** ** Notions used in the proofs *)

Module Reasoning.
Import JS Schema Effects InterviewService.

(** A computation that leaves the table of sessions as it found it. *)
Definition keeps_sessions {A} (c : IO A) : Prop :=
  forall m, interviewSessions (store (snd (c m))) = interviewSessions (store m).

(** A computation whose results all satisfy [P]. *)
Definition returns_only {A} (P : A -> Prop) (c : IO A) : Prop :=
  forall m a, fst (c m) = Returned a -> P a.

(** What one turn may do to the session it is about: the first turn
    moves the index from [-1] to [0]; a later turn keeps the index or
    adds one to it, and the session is completed exactly when the index
    reaches the length of the script. *)
Definition advance (s s' : InterviewSession) : Prop :=
  totalQuestions s' = totalQuestions s
  /\ ((currentQuestionIndex s = -1 /\ currentQuestionIndex s' = 0
       /\ status s' = status s)
      \/ (0 <= currentQuestionIndex s < script_length
          /\ currentQuestionIndex s <= currentQuestionIndex s'
             <= currentQuestionIndex s + 1
          /\ ((currentQuestionIndex s' < script_length /\ status s' = in_progress)
              \/ (currentQuestionIndex s' = script_length
                  /\ status s' = completed)))).

(** What holds of a session the controller created, after any turns. *)
Definition on_script (s : InterviewSession) : Prop :=
  totalQuestions s = script_length
  /\ ((status s = in_progress /\ -1 <= currentQuestionIndex s < script_length)
      \/ (status s = completed /\ currentQuestionIndex s = script_length)).

(** The two bonuses of the sales analysis as [evaluateSalesAnalysis]
    decides them, over a list of formulas. *)
Definition lookupBonus (formulas : list string) : Z :=
  if ExcelProcessor.mentions "XLOOKUP" formulas
     || (ExcelProcessor.mentions "INDEX" formulas
         && ExcelProcessor.mentions "MATCH" formulas)
  then 15 else 0.

Definition sumifsBonus (formulas : list string) : Z :=
  if ExcelProcessor.mentions "SUMIFS" formulas then 15 else 0.

(** The formula accuracy the sheets add up to: every sheet brings its
    base of 60 and its own bonuses. *)
Definition perSheetTotal (perSheet : list (list string)) : Z :=
  foldr (fun formulas total =>
           60 + lookupBonus formulas + sumifsBonus formulas + total)
        0 perSheet.

(** An evaluation with the three scores and nothing to report. *)
Definition graded (fa st bp : Z) : ExcelProcessor.ExcelEvaluationResult :=
  {| ExcelProcessor.formulaAccuracy := fa; ExcelProcessor.structureScore := st;
     ExcelProcessor.bestPracticesScore := bp;
     ExcelProcessor.details :=
       ExcelProcessor.details (ExcelProcessor.emptyEvaluation []) |}.

(** The answer a session-scoped endpoint gives when the session is
    missing. *)
Definition missingSessionResponse (e : Routes.Endpoint) (req : Routes.Request)
    : Routes.Response :=
  match e, Routes.file req with
  | Routes.PostUpload, None => Routes.status_json 400 "No file uploaded"
  | _, _ => Routes.notFound
  end.

(** No session has the id, however the text spells it. *)
Definition absent (id : string) (m : Machine) : Prop :=
  interviewSessions (store m) !! id = None
  /\ forall key, Postgres.uuid_in id = Some key ->
                 interviewSessions (store m) !! key = None.

(** The request gets as far as the lookup of its session: on the upload
    route, only with a file the transport has stored. *)
Definition reachesLookup (e : Routes.Endpoint) (part : option Transport.Part) : Prop :=
  e <> Routes.PostUpload \/ exists stored, Transport.single part = inr (Some stored).

End Reasoning.

(** ** The HTTP surface behind the login ([server/routes.ts])

    The handlers as they run after the [isAuthenticated] middleware, which
    supplies the id of the user ([req.user.claims.sub]). *)

Module Authenticated.
Import JS Schema Effects Routes.
Local Open Scope io_scope.

(** [!session || session.userId !== userId] *)
Definition hidden (user : string) (session : option InterviewSession) : bool :=
  match session with
  | None => true
  | Some s => negb (bool_decide (userId s = user))
  end.

(** [GET /api/interviews/:sessionId] *)
Definition getInterview (user : string) (w : World) (req : Request) : IO Response :=
  try_catch
    (let! session := Storage.getInterviewSession (sessionId req) in
     if hidden user session then ret notFound
     else
       let! details := InterviewService.getSessionWithDetails (sessionId req) in
       ret (json (DetailsBody details)))
    (fun _ => ret (status_json 500 "Failed to fetch interview")).

(** [POST /api/interviews/:sessionId/message] *)
Definition postMessage (user : string) (w : World) (req : Request) : IO Response :=
  try_catch
    (let! session := Storage.getInterviewSession (sessionId req) in
     if hidden user session then ret notFound
     else turn w (sessionId req) (message req) None)
    (fun _ => ret (status_json 500 "Failed to process message")).

(** [POST /api/interviews/:sessionId/upload], after the upload
    middleware. *)
Definition postUpload (user : string) (w : World) (req : Request) : IO Response :=
  try_catch
    (match file req with
     | None => ret (status_json 400 "No file uploaded")
     | Some originalPath =>
         let! session := Storage.getInterviewSession (sessionId req) in
         if hidden user session then ret notFound
         else
           let newPath := originalPath +:+ ".xlsx" in
           do! call (RenameSync originalPath newPath) in
           turn w (sessionId req) (Some (default EmptyString (message req)))
                (Some newPath)
     end)
    (fun _ => ret (status_json 500 "Failed to upload file")).

(** [GET /api/interviews/:sessionId/template/:templateType] *)
Definition getTemplate (user : string) (w : World) (req : Request) : IO Response :=
  try_catch
    (let! session := Storage.getInterviewSession (sessionId req) in
     if hidden user session then ret notFound
     else
       do! saveTemplate (templateType req) in
       do! call (Download (templateType req)) in
       ret (json (DownloadBody (templateType req +:+ "_template.xlsx"))))
    (fun _ => ret (status_json 500 "Failed to generate template")).

Definition handle (e : Endpoint) (user : string) : World -> Request -> IO Response :=
  match e with
  | GetInterview => getInterview user
  | PostMessage => postMessage user
  | PostUpload => postUpload user
  | GetTemplate => getTemplate user
  end.

End Authenticated.

(** ** What a turn leaves in the tables and in the log of calls *)

Module Ledger.
Import JS Schema Effects InterviewService.

(** The row [addInterviewQuestion] stores: the question with the key the
    database drew. *)
Definition stored (w : World) (q : InterviewQuestion) : InterviewQuestion :=
  {| q_id := gen_random_uuid w; q_sessionId := q_sessionId q;
     questionIndex := questionIndex q; category := category q;
     question := question q; expectedAnswer := expectedAnswer q;
     userAnswer := userAnswer q; fileUploaded := fileUploaded q;
     q_filePath := q_filePath q; score := score q;
     aiEvaluation := aiEvaluation q; isCompleted := isCompleted q |}.

(** The calls scoring an answer makes, by the category of the question. *)
Definition scoringCalls (entry : InterviewQuestionTemplate) (userMessage : string)
    (filePath : option string) : list Call :=
  match t_category entry with
  | practical =>
      if truthy filePath then [ReadFile (default EmptyString filePath)] else []
  | conceptual =>
      [EvaluateConceptualAnswer (t_question entry) userMessage (t_expectedAnswer entry)]
  | explanation => [EvaluateExplanation "Sales analysis task explanation" userMessage]
  | behavioral => []
  end.

(** The calls of a turn on a session at index [i], the request for the
    final report apart. *)
Definition turnCalls (i : Z) (userMessage : string) (filePath : option string)
    : list Call :=
  match index QUESTION_TEMPLATES i with
  | Some entry => scoringCalls entry userMessage filePath
  | None => []
  end.

Definition isReport (c : Call) : bool :=
  match c with
  | GenerateFinalReport _ _ _ _ _ => true
  | _ => false
  end.

(** The overall score [completeInterview] computes from the rows of a
    session. *)
Definition finalScore (questions : list InterviewQuestion) : number :=
  weightedOverall
    (calculateAverageScore (ofCategory practical questions))
    (calculateAverageScore (ofCategory conceptual questions))
    (calculateAverageScore (ofCategory explanation questions))
    (calculateAverageScore (ofCategory behavioral questions)).

(** The tables of [after] extend those of [before]; [rows] bounds the
    number of question rows added. *)
Definition extends (rows : nat) (before after : Machine) : Prop :=
  chatMessages (store before) `prefix_of` chatMessages (store after)
  /\ interviewQuestions (store before) `prefix_of` interviewQuestions (store after)
  /\ excelEvaluations (store before) `prefix_of` excelEvaluations (store after)
  /\ (length (interviewQuestions (store after))
      <= length (interviewQuestions (store before)) + rows)%nat
  /\ (length (excelEvaluations (store after))
      <= length (excelEvaluations (store before)) + rows)%nat.

End Ledger.

(** ** More sample data *)

Module Cases.
Import JS Schema Effects.

(** The AI service is down: every call to it throws. *)
Definition offline : World :=
  {| evaluateConceptualAnswer := fun _ _ _ => None;
     evaluateExplanation := fun _ _ => None;
     generateFinalReport := fun _ _ _ _ _ _ => None;
     XLSX_readFile := XLSX_readFile Sample.world;
     gen_random_uuid := "c41a";
     Date_now := Date_now Sample.world;
     Number_toString := Number_toString Sample.world |}.

(** The AI service scores answers but fails to write the final report. *)
Definition reportless : World :=
  {| evaluateConceptualAnswer := evaluateConceptualAnswer Sample.world;
     evaluateExplanation := evaluateExplanation Sample.world;
     generateFinalReport := fun _ _ _ _ _ _ => None;
     XLSX_readFile := XLSX_readFile Sample.world;
     gen_random_uuid := "c41a";
     Date_now := Date_now Sample.world;
     Number_toString := Number_toString Sample.world |}.

(** Two sessions; the other one has a message on record. *)
Definition twoSessions : Machine :=
  {| store :=
       {| interviewSessions :=
            {[ "7d9f" := Sample.session "7d9f" 1 in_progress;
               "b802" := Sample.session "b802" 0 in_progress ]};
          chatMessages := [InterviewService.messageData "b802" "Hello?" None];
          interviewQuestions := []; excelEvaluations := [] |};
     calls := [] |}.

(** The sales task of the script. *)
Definition salesTask : InterviewService.InterviewQuestionTemplate :=
  {| InterviewService.t_category := practical;
     InterviewService.t_question :=
       "Create a sales analysis dashboard with monthly summaries, top products by region, and KPI tracking.";
     InterviewService.t_expectedAnswer := None;
     InterviewService.taskType := Some "sales_analysis";
     InterviewService.timeLimit := Some 10 |}.

(** A request of the owner of session [7d9f] for the sales template. *)
Definition templateRequest : Routes.Request :=
  {| Routes.sessionId := "7d9f"; Routes.templateType := "sales_analysis";
     Routes.message := None; Routes.file := None |}.

(** A message for session [7d9f]. *)
Definition messageRequest : Routes.Request :=
  {| Routes.sessionId := "7d9f"; Routes.templateType := EmptyString;
     Routes.message := Some "I would use a pivot table."; Routes.file := None |}.

(** A request for a session nobody has, under a well-formed id. *)
Definition absentRequest : Routes.Request :=
  {| Routes.sessionId := "3f2b8c1e-5d47-4a90-b6e1-0c9d8a7f6e5b";
     Routes.templateType := "sales_analysis";
     Routes.message := Some "Hello?"; Routes.file := None |}.

(** A workbook, as the transport stores it. *)
Definition workbookPart : Transport.Part :=
  {| Transport.fieldname := "excel";
     Transport.mimetype :=
       "application/vnd.openxmlformats-officedocument.spreadsheetml.sheet";
     Transport.withinLimit := true;
     Transport.path := "uploads/5c1f0a" |}.

(** A text file in the field of the workbook. *)
Definition textPart : Transport.Part :=
  {| Transport.fieldname := "excel"; Transport.mimetype := "text/plain";
     Transport.withinLimit := true; Transport.path := "uploads/9be2d4" |}.

End Cases.

(** ** Whole interviews *)

Module Course.
Import JS Schema Effects Trajectory.

(** The outside answers every call: the AI service evaluates and
    reports, and every file is a workbook the inspector can evaluate. *)
Definition answers (w : World) : Prop :=
  (forall question userAnswer expectedAnswer,
      is_Some (evaluateConceptualAnswer w question userAnswer expectedAnswer))
  /\ (forall taskContext userExplanation,
         is_Some (evaluateExplanation w taskContext userExplanation))
  /\ (forall overall p c e b questions,
         is_Some (generateFinalReport w overall p c e b questions))
  /\ (forall filePath expectedSheets taskType,
         is_Some (ExcelProcessor.evaluateExcelFile (XLSX_readFile w filePath)
                    expectedSheets taskType)).

(** A turn on the session during which the outside answers, and which
    brings a file. *)
Definition cooperative (sessionId : string) (t : Turn) : Prop :=
  turn_sessionId t = sessionId
  /\ answers (turn_world t)
  /\ truthy (turn_filePath t) = true.

(** The machine after all the turns. *)
Definition finish (turns : list Turn) (m : Machine) : Machine :=
  foldl (fun m t => after t m) m turns.

(** The rows of a session, in the order they were stored in. *)
Definition rowsOf (sessionId : string) (m : Machine) : list InterviewQuestion :=
  filter (fun q => q_sessionId q = sessionId) (interviewQuestions (store m)).

(** What a row says of its place in the script. *)
Definition signature (q : InterviewQuestion) : Z * Category :=
  (questionIndex q, category q).

(** The places of the script: index and category of every entry. *)
Definition scriptRows : list (Z * Category) :=
  imap (fun k entry => (Z.of_nat k, InterviewService.t_category entry))
       InterviewService.QUESTION_TEMPLATES.

End Course.

(** * Properties *)

(** ** Running a computation step by step *)

Section Running.
Import JS Schema Effects.
Context {B : Type}.
Implicit Types (m : Machine).

Lemma run_ret {A} (a : A) (k : A -> IO B) m : bind (ret a) k m = k a m.
Proof. reflexivity. Qed.

Lemma run_throw {A} (error : string) (k : A -> IO B) m :
  bind (throw error) k m = (Thrown error, m).
Proof. reflexivity. Qed.

Lemma run_bind {A A'} (c : IO A) (k1 : A -> IO A') (k2 : A' -> IO B) m :
  bind (bind c k1) k2 m = bind c (fun a => bind (k1 a) k2) m.
Proof. unfold bind. destruct (c m) as [[a|error] m']; reflexivity. Qed.

Lemma run_returned {A} (c : IO A) (k : A -> IO B) m m' (a : A) :
  c m = (Returned a, m') -> bind c k m = k a m'.
Proof. intros Hrun. unfold bind. rewrite Hrun. reflexivity. Qed.

Lemma run_call (c : Call) (k : unit -> IO B) m : bind (call c) k m = k tt (record c m).
Proof. reflexivity. Qed.

Lemma run_modify (f : Store -> Store) (k : unit -> IO B) m :
  bind (modify f) k m = k tt (update_store f m).
Proof. reflexivity. Qed.

Lemma run_answer {A} (error : string) (a : option A) (k : A -> IO B) m :
  bind (answer error a) k m
  = match a with Some v => k v m | None => (Thrown error, m) end.
Proof. destruct a; reflexivity. Qed.

Lemma run_getInterviewSession (sessionId : string)
    (k : option InterviewSession -> IO B) m :
  bind (Storage.getInterviewSession sessionId) k m
  = match interviewSessions (store m) !! sessionId with
    | Some session => k (Some session) m
    | None =>
        match Postgres.uuid_in sessionId with
        | Some _ => k None m
        | None => (Thrown "invalid input syntax for type uuid", m)
        end
    end.
Proof.
  unfold Storage.getInterviewSession, bind, get_store.
  destruct (interviewSessions (store m) !! sessionId); [reflexivity|].
  destruct (Postgres.uuid_in sessionId); reflexivity.
Qed.

Lemma run_updateInterviewSession (sessionId : string) (u : SessionUpdates)
    (k : option InterviewSession -> IO B) m :
  bind (Storage.updateInterviewSession sessionId u) k m
  = match interviewSessions (store m) !! sessionId with
    | Some session =>
        k (Some (applyUpdates u session))
          (update_store
             (Storage.withSessions (insert sessionId (applyUpdates u session))) m)
    | None => k None m
    end.
Proof.
  unfold Storage.updateInterviewSession, bind, get_store. simpl.
  destruct (interviewSessions (store m) !! sessionId); reflexivity.
Qed.

Lemma run_addChatMessage (message : ChatMessage) (k : ChatMessage -> IO B) m :
  bind (Storage.addChatMessage message) k m
  = k message
      (update_store (Storage.withMessages (fun rows => rows ++ [message])) m).
Proof. reflexivity. Qed.

Lemma run_getSessionMessages (sessionId : string)
    (k : list ChatMessage -> IO B) m :
  bind (Storage.getSessionMessages sessionId) k m
  = k (Storage.sessionMessages sessionId (store m)) m.
Proof. reflexivity. Qed.

Lemma run_getSessionQuestions (sessionId : string)
    (k : list InterviewQuestion -> IO B) m :
  bind (Storage.getSessionQuestions sessionId) k m
  = k (Storage.sessionQuestions sessionId (store m)) m.
Proof. reflexivity. Qed.

End Running.

(** Projections of a machine that was written to. *)
Ltac machine_simpl :=
  cbn [Effects.store Effects.calls Effects.update_store Effects.record
       Effects.interviewSessions Effects.chatMessages
       Effects.interviewQuestions Effects.excelEvaluations
       Storage.withSessions Storage.withMessages Storage.withQuestions
       Storage.withEvaluations fst snd] in *.

(** ** Scores *)

Section Scoring.
Import JS Schema Effects InterviewService Wording Reasoning.

Lemma or_zero_counted (q : InterviewQuestion) :
  or_zero (Number (score q)) = countedScore q.
Proof.
  unfold or_zero, countedScore.
  destruct (is_nan (Number (score q))), (is_zero (Number (score q))); reflexivity.
Qed.

Lemma total_counted (questions : list InterviewQuestion) (start : number) :
  foldl (fun sum q => (sum + or_zero (Number (score q)))%float) start questions
  = foldl PrimFloat.add start (countedScore <$> questions).
Proof.
  revert start. induction questions as [|q rest IH]; intros start; simpl.
  - reflexivity.
  - rewrite or_zero_counted. apply IH.
Qed.

(** C3.  The average of a category is the rounded arithmetic mean of the
    scores of its rows, read as binary64 numbers and added from the first
    row on; a row whose score text is not a number (or is missing) counts
    as 0, and a category without rows averages to 0.  Scores 80 and 60
    average to 70; scores 80, NaN and null average to 27. *)
Theorem calculateAverageScore_rounded_mean :
  (forall questions : list InterviewQuestion,
      calculateAverageScore questions = roundedMean (countedScore <$> questions))
  /\ (forall q : InterviewQuestion,
        is_nan (Number (score q)) = true -> countedScore q = 0%float)
  /\ calculateAverageScore
       [Sample.answered "7d9f" 0 conceptual (Some "80");
        Sample.answered "7d9f" 1 conceptual (Some "60")] = 70%float
  /\ calculateAverageScore
       [Sample.answered "7d9f" 0 conceptual (Some "80.00");
        Sample.answered "7d9f" 1 conceptual (Some "NaN");
        Sample.answered "7d9f" 5 conceptual None] = 27%float
  /\ calculateAverageScore [] = 0%float.
Proof.
  split; [|split; [|split; [|split]]].
  - intros questions. unfold calculateAverageScore, roundedMean.
    destruct questions as [|q rest]; [reflexivity|].
    rewrite total_counted, length_fmap. reflexivity.
  - intros q Hnan. unfold countedScore. rewrite Hnan. reflexivity.
  - vm_compute. reflexivity.
  - vm_compute. reflexivity.
  - reflexivity.
Qed.

Lemma calculateAverageScore_rounded_mean_witness :
  is_nan (Number (score (Sample.answered "7d9f" 1 conceptual (Some "n/a")))) = true
  /\ countedScore (Sample.answered "7d9f" 1 conceptual (Some "n/a")) = 0%float.
Proof.
  split; [reflexivity|].
  apply (proj1 (proj2 calculateAverageScore_rounded_mean)). reflexivity.
Defined.

(** C4.  When the spreadsheet inspector returns an evaluation, the
    practical task returns, and persists as the score of its question
    row, [Math.round(fa * 0.5 + st * 0.3 + bp * 0.2)] of the three
    sub-scores, computed in binary64; for 100, 80 and 60 that is 86.
    The task reads the index of its question from the session, so the
    lookup of the session must not fail: [processUserMessage], the only
    caller, has found the session by then. *)
Theorem evaluatePracticalTask_overall :
  (forall (w : World) (sessionId : string) (question : InterviewQuestionTemplate)
          (filePath userExplanation : string) (m : Machine)
          (evaluation : ExcelProcessor.ExcelEvaluationResult),
      ExcelProcessor.evaluateExcelFile (XLSX_readFile w filePath)
        (expectedSheets question) (taskType question) = Some evaluation ->
      (forall error, fst (Storage.getInterviewSession sessionId m) <> Thrown error) ->
      let overall :=
        Math_round
          (number_of_Z (ExcelProcessor.formulaAccuracy evaluation) * 0.5 +
           number_of_Z (ExcelProcessor.structureScore evaluation) * 0.3 +
           number_of_Z (ExcelProcessor.bestPracticesScore evaluation) * 0.2)%float in
      let run :=
        evaluatePracticalTask w sessionId question filePath userExplanation m in
      (exists feedback, fst run = Returned (feedback, overall))
      /\ (exists row,
            last (interviewQuestions (store (snd run))) = Some row
            /\ category row = t_category question
            /\ score row = Some (Number_toString w overall)))
  /\ practicalOverall (graded 100 80 60) = 86%float.
Proof.
  split; [|vm_compute; reflexivity].
  intros w sessionId question filePath userExplanation m evaluation Heval Hlookup
    overall run.
  assert (Hindex : exists currentIndex,
             forall m', store m' = store m ->
               getCurrentQuestionIndex sessionId m' = (Returned currentIndex, m')).
  { unfold getCurrentQuestionIndex, Storage.getInterviewSession, bind, get_store, ret
      in Hlookup |- *.
    destruct (interviewSessions (store m) !! sessionId) as [session|] eqn:Hsession.
    - exists (currentQuestionIndex session). intros m' ->. rewrite Hsession. reflexivity.
    - destruct (Postgres.uuid_in sessionId) as [key|] eqn:Hkey.
      + exists 0. intros m' ->. rewrite Hsession. reflexivity.
      + exfalso. exact (Hlookup _ eq_refl). }
  destruct Hindex as (currentIndex & Hindex).
  subst run. unfold evaluatePracticalTask.
  rewrite run_call, run_answer, Heval. cbv zeta.
  rewrite (run_returned _ _ _ _ _ (Hindex (record (ReadFile filePath) m) eq_refl)).
  unfold bind, Storage.addInterviewQuestion, Storage.addExcelEvaluation,
    getLatestQuestionId, Storage.getSessionQuestions, modify, get_store, ret.
  cbn [fst snd]. split.
  - eexists. reflexivity.
  - eexists. cbn. rewrite last_snoc. split; [reflexivity|].
    split; reflexivity.
Qed.

(** The sales task, answered with the workbook of one sheet: the
    inspector grades it 90, 60 and 85, and the task scores 80. *)
Lemma evaluatePracticalTask_overall_witness :
  let salesTask :=
    {| t_category := practical; t_question := "Create a sales analysis dashboard";
       t_expectedAnswer := None; taskType := Some "sales_analysis";
       timeLimit := Some 10 |} in
  let run :=
    evaluatePracticalTask Sample.world "7d9f" salesTask "upload.xlsx" "Done."
      (Sample.at_index 3 in_progress) in
  ExcelProcessor.evaluateExcelFile (Some Sample.oneSheet) (expectedSheets salesTask)
    (Some "sales_analysis")
  = Some {| ExcelProcessor.formulaAccuracy := 90;
            ExcelProcessor.structureScore := 60;
            ExcelProcessor.bestPracticesScore := 85;
            ExcelProcessor.details :=
              {| ExcelProcessor.formulasFound :=
                   ["=XLOOKUP(A2,Raw!A:A,Raw!E:E)"; "=SUMIFS(Raw!E:E,Raw!B:B,A2)"];
                 ExcelProcessor.expectedFormulas := [];
                 ExcelProcessor.sheetStructure := (1%nat, ["Monthly_Summary"]);
                 ExcelProcessor.namedRanges := [];
                 ExcelProcessor.issues := ["Missing required sheets"];
                 ExcelProcessor.recommendations := [] |} |}
  /\ (exists feedback, fst run = Returned (feedback, 80%float))
  /\ (exists row,
        last (interviewQuestions (store (snd run))) = Some row
        /\ category row = practical
        /\ score row = Some "80").
Proof.
  intros salesTask run.
  assert (Hgraded : ExcelProcessor.evaluateExcelFile (Some Sample.oneSheet)
                      (expectedSheets salesTask) (Some "sales_analysis") = Some _)
    by (vm_compute; reflexivity).
  split; [exact Hgraded|].
  exact (proj1 evaluatePracticalTask_overall Sample.world "7d9f" salesTask
           "upload.xlsx" "Done." (Sample.at_index 3 in_progress) _ Hgraded
           ltac:(intros error Hthrown; vm_compute in Hthrown; discriminate Hthrown)).
Defined.

(** C1.  When the report of the AI client arrives, the completion routine
    returns; the session then carries the averages [p], [c], [e], [b] of
    the four categories and the overall score
    [Math.round(p * 0.5 + c * 0.25 + e * 0.15 + b * 0.1)], computed in
    binary64, and the routine announces that score in its last chat
    message; for 90, 70, 50 and 80 the overall score is 78. *)
Theorem completeInterview_overall :
  (forall (w : World) (sessionId : string) (m : Machine) (session : InterviewSession)
          (report : FinalReport),
      interviewSessions (store m) !! sessionId = Some session ->
      let questions := Storage.sessionQuestions sessionId (store m) in
      let p := calculateAverageScore (ofCategory practical questions) in
      let c := calculateAverageScore (ofCategory conceptual questions) in
      let e := calculateAverageScore (ofCategory explanation questions) in
      let b := calculateAverageScore (ofCategory behavioral questions) in
      let overall := Math_round (p * 0.5 + c * 0.25 + e * 0.15 + b * 0.1)%float in
      generateFinalReport w overall p c e b questions = Some report ->
      let run := completeInterview w sessionId m in
      fst run = Returned tt
      /\ (exists completedSession,
            interviewSessions (store (snd run)) !! sessionId = Some completedSession
            /\ status completedSession = completed
            /\ currentQuestionIndex completedSession = currentQuestionIndex session
            /\ practicalScore completedSession = Some (Number_toString w p)
            /\ conceptualScore completedSession = Some (Number_toString w c)
            /\ explanationScore completedSession = Some (Number_toString w e)
            /\ behavioralScore completedSession = Some (Number_toString w b)
            /\ overallScore completedSession = Some (Number_toString w overall))
      /\ (exists announcement,
            last (chatMessages (store (snd run))) = Some announcement
            /\ metadata announcement = CompleteMetadata true overall))
  /\ weightedOverall 90%float 70%float 50%float 80%float = 78%float.
Proof.
  split; [|vm_compute; reflexivity].
  intros w sessionId m session report Hsession questions p c e b overall Hreport run.
  subst run. unfold completeInterview.
  rewrite run_getSessionQuestions, run_call, run_answer.
  fold questions. fold p c e b. unfold weightedOverall. fold overall.
  rewrite Hreport, run_updateInterviewSession. machine_simpl. rewrite Hsession.
  rewrite run_addChatMessage. unfold ret. machine_simpl.
  split; [reflexivity|]. split.
  - eexists. rewrite lookup_insert_eq. split; [reflexivity|]. cbn. repeat split.
  - eexists. rewrite last_snoc. split; reflexivity.
Qed.

(** The session of [Sample.scored] has one answer per category, scored
    90, 70, 50 and 80: it completes with 78. *)
Lemma completeInterview_overall_witness :
  let run := completeInterview Sample.world "7d9f" Sample.scored in
  let after := store (snd run) in
  fst run = Returned tt
  /\ (exists completedSession,
      interviewSessions after !! "7d9f" = Some completedSession
      /\ status completedSession = completed
      /\ currentQuestionIndex completedSession = 7
      /\ practicalScore completedSession = Some "90"
      /\ conceptualScore completedSession = Some "70"
      /\ explanationScore completedSession = Some "50"
      /\ behavioralScore completedSession = Some "80"
      /\ overallScore completedSession = Some "78")
  /\ (exists announcement,
        last (chatMessages after) = Some announcement
        /\ metadata announcement = CompleteMetadata true 78%float).
Proof.
  exact (proj1 completeInterview_overall Sample.world "7d9f" Sample.scored
           (Sample.session "7d9f" 7 in_progress) _ eq_refl eq_refl).
Defined.

(** Binary64 is not exact arithmetic: the sub-scores 0, 31 and 1 weigh
    9.5 exactly, but [31 * 0.3 + 1 * 0.2] falls just below it and rounds
    to 9; likewise the averages 0, 0, 36 and 1 weigh 5.5 and round to 5. *)
Example weights_round_in_binary64 :
  practicalOverall (graded 0 31 1) = 9%float
  /\ (5 * 0 + 3 * 31 + 2 * 1 + 5) / 10 = 10
  /\ weightedOverall 0%float 0%float 36%float 1%float = 5%float
  /\ (10 * 0 + 5 * 0 + 3 * 36 + 2 * 1 + 10) / 20 = 6.
Proof. repeat split; vm_compute; reflexivity. Qed.

End Scoring.

(** ** Text *)

Section Text.
Import JS Wording.

Lemma append_cons (c : ascii) (a b : string) :
  String c a +:+ b = String c (a +:+ b).
Proof. reflexivity. Qed.

Lemma append_assoc (a b c : string) : (a +:+ b) +:+ c = a +:+ b +:+ c.
Proof.
  induction a as [|x a IH]; [reflexivity|].
  rewrite !append_cons, IH. reflexivity.
Qed.

Lemma prefix_append (x after : string) : String.prefix x (x +:+ after) = true.
Proof.
  induction x as [|c x IH]; [destruct after; reflexivity|].
  rewrite append_cons. cbn [String.prefix].
  destruct (Ascii.ascii_dec c c) as [_|Hne]; [exact IH|contradiction].
Qed.

Lemma includes_prefix (s x : string) :
  String.prefix x s = true -> includes s x = true.
Proof. intros Hprefix. destruct s; cbn [includes]; rewrite Hprefix; reflexivity. Qed.

Lemma includes_refl (x : string) : includes x x = true.
Proof.
  apply includes_prefix. induction x as [|c x IH]; [reflexivity|].
  cbn [String.prefix].
  destruct (Ascii.ascii_dec c c) as [_|Hne]; [exact IH|contradiction].
Qed.

Lemma includes_skip (before s x : string) :
  includes s x = true -> includes (before +:+ s) x = true.
Proof.
  intros Hfound. induction before as [|c before IH]; [exact Hfound|].
  rewrite append_cons. cbn [includes]. rewrite IH. apply orb_true_r.
Qed.

(** Letters in the two cases, and what [toUpperCase] makes of them. *)

Lemma upper_ascii_sameLetter (x : ascii) : sameLetter x (upper_ascii x) = true.
Proof.
  unfold sameLetter, upper_ascii, capital. cbv zeta.
  destruct (Nat.leb 97 (nat_of_ascii x) && Nat.leb (nat_of_ascii x) 122) eqn:Hsmall.
  - apply andb_true_iff in Hsmall as [Hlow%Nat.leb_le Hhigh%Nat.leb_le].
    rewrite nat_ascii_embedding by lia.
    replace (Nat.eqb (nat_of_ascii x) (nat_of_ascii x - 32 + 32)) with true
      by (symmetry; apply Nat.eqb_eq; lia).
    replace (Nat.leb 65 (nat_of_ascii x - 32)) with true
      by (symmetry; apply Nat.leb_le; lia).
    replace (Nat.leb (nat_of_ascii x - 32) 90) with true
      by (symmetry; apply Nat.leb_le; lia).
    apply orb_true_r.
  - rewrite Ascii.eqb_refl. reflexivity.
Qed.

Lemma sameLetter_upper_ascii (x y : ascii) :
  sameLetter x y = true -> upper_ascii y = y -> upper_ascii x = y.
Proof.
  unfold sameLetter, capital. intros Hsame Hupper.
  assert (Hy : ~ (97 <= nat_of_ascii y <= 122)%nat).
  { intros [Hlow Hhigh]. unfold upper_ascii in Hupper. cbv zeta in Hupper.
    rewrite (proj2 (Nat.leb_le _ _) Hlow), (proj2 (Nat.leb_le _ _) Hhigh) in Hupper.
    cbn [andb] in Hupper. apply (f_equal nat_of_ascii) in Hupper.
    rewrite nat_ascii_embedding in Hupper by lia. lia. }
  rewrite !orb_true_iff, !andb_true_iff, !Nat.leb_le, !Nat.eqb_eq, Ascii.eqb_eq in Hsame.
  destruct Hsame as [[-> | ((Hlow & Hhigh) & Hcode)] | ((Hlow & Hhigh) & Hcode)].
  - exact Hupper.
  - lia.
  - unfold upper_ascii. cbv zeta. rewrite Hcode.
    rewrite (proj2 (Nat.leb_le 97 _)), (proj2 (Nat.leb_le _ 122)) by lia.
    cbn [andb]. replace (nat_of_ascii y + 32 - 32)%nat with (nat_of_ascii y) by lia.
    apply ascii_nat_embedding.
Qed.

Lemma toUpperCase_sameWord (part : string) : sameWord part (toUpperCase part) = true.
Proof.
  induction part as [|c part IH]; [reflexivity|].
  cbn [toUpperCase sameWord]. rewrite upper_ascii_sameLetter. exact IH.
Qed.

Lemma sameWord_toUpperCase (part name : string) :
  toUpperCase name = name -> sameWord part name = true -> toUpperCase part = name.
Proof.
  revert name. induction part as [|c part IH]; intros [|d name] Hupper Hsame;
    try discriminate Hsame; [reflexivity|].
  cbn [toUpperCase] in Hupper. injection Hupper as Hd Hname.
  cbn [sameWord] in Hsame. apply andb_true_iff in Hsame as [Hletter Hrest].
  cbn [toUpperCase]. rewrite (sameLetter_upper_ascii c d Hletter Hd), (IH name Hname Hrest).
  reflexivity.
Qed.

Lemma toUpperCase_append (a b : string) :
  toUpperCase (a +:+ b) = toUpperCase a +:+ toUpperCase b.
Proof.
  induction a as [|c a IH]; [reflexivity|].
  rewrite append_cons. cbn [toUpperCase]. rewrite IH, append_cons. reflexivity.
Qed.

Lemma toUpperCase_split (text front back : string) :
  toUpperCase text = front +:+ back ->
  exists before after,
    text = before +:+ after /\ toUpperCase before = front /\ toUpperCase after = back.
Proof.
  revert text. induction front as [|c front IH]; intros text Hupper.
  - exists EmptyString, text. auto.
  - destruct text as [|d text]; [discriminate Hupper|].
    rewrite append_cons in Hupper. cbn [toUpperCase] in Hupper.
    injection Hupper as Hd Hrest.
    destruct (IH text Hrest) as (before & after & -> & Hbefore & Hafter).
    exists (String d before), after. cbn [toUpperCase].
    rewrite Hd, Hbefore, append_cons. auto.
Qed.

Lemma prefix_inv (x s : string) :
  String.prefix x s = true -> exists after, s = x +:+ after.
Proof.
  revert s. induction x as [|c x IH]; intros s Hprefix.
  - exists s. reflexivity.
  - destruct s as [|d s]; [discriminate Hprefix|].
    cbn [String.prefix] in Hprefix.
    destruct (Ascii.ascii_dec c d) as [->|]; [|discriminate Hprefix].
    destruct (IH s Hprefix) as (after & ->). exists after. reflexivity.
Qed.

Lemma includes_inv (s x : string) :
  includes s x = true -> exists before after, s = before +:+ x +:+ after.
Proof.
  induction s as [|c s IH]; cbn [includes]; intros Hfound.
  - rewrite orb_false_r in Hfound. destruct (prefix_inv _ _ Hfound) as (after & Hs).
    exists EmptyString, after. exact Hs.
  - apply orb_true_iff in Hfound as [Hprefix | Hlater].
    + destruct (prefix_inv _ _ Hprefix) as (after & Hs).
      exists EmptyString, after. exact Hs.
    + destruct (IH Hlater) as (before & after & ->).
      exists (String c before), after. reflexivity.
Qed.

End Text.

(** ** Single turns *)

Section Turns.
Import JS Schema Effects InterviewService Reasoning.

Lemma index_bounds {A} (l : list A) (i : Z) (a : A) :
  index l i = Some a -> 0 <= i < Z.of_nat (length l).
Proof.
  unfold index. destruct (i <? 0) eqn:Hneg; [discriminate|].
  apply Z.ltb_ge in Hneg. intros Hlookup. apply lookup_lt_Some in Hlookup. lia.
Qed.

(** The practical entries of the script are its third and fourth. *)
Lemma practical_entries (i : Z) (t : InterviewQuestionTemplate) :
  index QUESTION_TEMPLATES i = Some t -> t_category t = practical ->
  (i = 2 /\ QUESTION_TEMPLATES !! 2%nat = Some t)
  \/ (i = 3 /\ QUESTION_TEMPLATES !! 3%nat = Some t).
Proof.
  intros Hentry Hcategory. pose proof (index_bounds _ _ _ Hentry) as Hrange.
  change (Z.of_nat (length QUESTION_TEMPLATES)) with 8 in Hrange.
  assert (Hcases : i = 0 \/ i = 1 \/ i = 2 \/ i = 3 \/ i = 4 \/ i = 5 \/ i = 6
                   \/ i = 7) by lia.
  destruct Hcases as [->|[->|[->|[->|[->|[->|[->| ->]]]]]]];
    try (vm_compute in Hentry; injection Hentry as <-; discriminate Hcategory).
  - left. split; [reflexivity|exact Hentry].
  - right. split; [reflexivity|exact Hentry].
Qed.

Lemma scoreAnswer_unscored (w : World) (sessionId : string)
    (session : InterviewSession) (task : InterviewQuestionTemplate)
    (userMessage : string) (filePath : option string) (m : Machine) :
  t_category task = practical -> truthy filePath = false ->
  scoreAnswer w sessionId session task userMessage filePath m
  = (Returned (EmptyString, currentQuestionIndex session), m).
Proof.
  intros Hcategory Hfile. unfold scoreAnswer. rewrite Hcategory, Hfile. reflexivity.
Qed.

(** C5.  On a session whose index is -1, a turn returns the session with
    its index set to 0 and its status untouched; it appends the message
    of the user and one AI text message that contains the text of
    question 0; it persists no question row and no spreadsheet
    evaluation, and it makes no call to the AI client or to the
    spreadsheet reader. *)
Theorem first_turn_asks_without_scoring
    (w : World) (sessionId userMessage : string) (filePath : option string)
    (m : Machine) (session : InterviewSession) :
  interviewSessions (store m) !! sessionId = Some session ->
  currentQuestionIndex session = -1 ->
  let run := processUserMessage w sessionId userMessage filePath m in
  exists (firstQuestion : InterviewQuestionTemplate) (started : InterviewSession)
         (reply : ChatMessage),
    QUESTION_TEMPLATES !! 0%nat = Some firstQuestion
    /\ fst run = Returned (Some started,
                           Storage.sessionMessages sessionId (store (snd run)))
    /\ interviewSessions (store (snd run))
       = <[sessionId := started]> (interviewSessions (store m))
    /\ currentQuestionIndex started = 0
    /\ status started = status session
    /\ chatMessages (store (snd run))
       = chatMessages (store m)
         ++ [messageData sessionId userMessage filePath; reply]
    /\ msg_sessionId reply = sessionId
    /\ sender reply = ai
    /\ messageType reply = text
    /\ includes (content reply) (t_question firstQuestion) = true
    /\ interviewQuestions (store (snd run)) = interviewQuestions (store m)
    /\ excelEvaluations (store (snd run)) = excelEvaluations (store m)
    /\ calls (snd run) = calls m.
Proof.
  intros Hsession Hindex run. subst run. unfold processUserMessage.
  rewrite run_getInterviewSession, Hsession, run_addChatMessage, Hindex.
  change (-1 =? -1) with true. cbv iota.
  destruct (index QUESTION_TEMPLATES 0) as [firstQuestion|] eqn:Hfirst;
    [|vm_compute in Hfirst; discriminate Hfirst].
  rewrite run_updateInterviewSession. machine_simpl. rewrite Hsession.
  rewrite run_addChatMessage, run_getSessionMessages. unfold ret. machine_simpl.
  exists firstQuestion. eexists _, _. split; [exact Hfirst|].
  split; [reflexivity|]. split; [reflexivity|]. split; [reflexivity|].
  split; [reflexivity|]. split.
  { rewrite <- app_assoc. reflexivity. }
  split; [reflexivity|]. split; [reflexivity|]. split; [reflexivity|].
  split; [|repeat split].
  cbn [content textMessage]. do 3 apply includes_skip. apply includes_refl.
Qed.

(** A fresh session answers its first turn with question 0 and nothing
    else happens. *)
Lemma first_turn_asks_without_scoring_witness :
  let run :=
    processUserMessage Sample.world "7d9f" "Ready." None
      (Sample.at_index (-1) in_progress) in
  exists started reply,
    fst run = Returned (Some started, [messageData "7d9f" "Ready." None; reply])
    /\ currentQuestionIndex started = 0
    /\ includes (content reply)
         "What are the key differences between VLOOKUP and XLOOKUP?" = true
    /\ interviewQuestions (store (snd run)) = []
    /\ calls (snd run) = [].
Proof.
  intros run.
  destruct (first_turn_asks_without_scoring Sample.world "7d9f" "Ready." None
              (Sample.at_index (-1) in_progress)
              (Sample.session "7d9f" (-1) in_progress) eq_refl eq_refl)
    as (firstQuestion & started & reply & _ & Hrun & _ & Hindex & _ & Hmessages
        & _ & _ & _ & _ & Hquestions & _ & Hcalls).
  fold run in Hrun, Hmessages, Hquestions, Hcalls.
  exists started, reply. rewrite Hrun, Hquestions, Hcalls.
  unfold Storage.sessionMessages. rewrite Hmessages.
  assert (Hreply : reply =
            textMessage "7d9f"
              ("Great! Let's begin with our first question:" +:+ nl +:+ nl
               +:+ "What are the key differences between VLOOKUP and XLOOKUP? When would you choose one over the other?")).
  { apply (f_equal (fun l => default reply (l !! 1%nat))) in Hmessages.
    symmetry. exact Hmessages. }
  rewrite Hreply. split; [reflexivity|]. split; [exact Hindex|].
  split; [vm_compute; reflexivity|]. split; reflexivity.
Defined.

(** C10.  On a session whose index equals its number of questions, the
    eight of the script, a turn appends the message of the user and then
    throws: the script has no entry at that index, and reading the
    category of the missing entry is a type error.  The message stays;
    nothing else changes. *)
Theorem turn_after_completion_throws
    (w : World) (sessionId userMessage : string) (filePath : option string)
    (m : Machine) (session : InterviewSession) :
  interviewSessions (store m) !! sessionId = Some session ->
  currentQuestionIndex session = totalQuestions session ->
  totalQuestions session = script_length ->
  let run := processUserMessage w sessionId userMessage filePath m in
  index QUESTION_TEMPLATES (currentQuestionIndex session) = None
  /\ (exists error, fst run = Thrown error)
  /\ chatMessages (store (snd run))
     = chatMessages (store m) ++ [messageData sessionId userMessage filePath]
  /\ interviewSessions (store (snd run)) = interviewSessions (store m)
  /\ interviewQuestions (store (snd run)) = interviewQuestions (store m)
  /\ excelEvaluations (store (snd run)) = excelEvaluations (store m)
  /\ calls (snd run) = calls m.
Proof.
  intros Hsession Hindex Htotal run. subst run. unfold processUserMessage.
  rewrite run_getInterviewSession, Hsession, run_addChatMessage, Hindex, Htotal.
  change (script_length =? -1) with false. cbv iota.
  change (index QUESTION_TEMPLATES script_length)
    with (@None InterviewQuestionTemplate).
  unfold throw. machine_simpl. split; [reflexivity|].
  split; [eexists; reflexivity|]. repeat split.
Qed.

(** One more message to a completed interview. *)
Lemma turn_after_completion_throws_witness :
  let run :=
    processUserMessage Sample.world "7d9f" "Anything else?" None
      (Sample.at_index 8 completed) in
  index QUESTION_TEMPLATES 8 = None
  /\ (exists error, fst run = Thrown error)
  /\ chatMessages (store (snd run)) = [messageData "7d9f" "Anything else?" None]
  /\ interviewSessions (store (snd run))
     = {[ "7d9f" := Sample.session "7d9f" 8 completed ]}
  /\ interviewQuestions (store (snd run)) = []
  /\ excelEvaluations (store (snd run)) = []
  /\ calls (snd run) = [].
Proof.
  exact (turn_after_completion_throws Sample.world "7d9f" "Anything else?" None
           (Sample.at_index 8 completed) (Sample.session "7d9f" 8 completed)
           eq_refl eq_refl eq_refl).
Defined.

(** C9.  On a session whose current script entry is a practical task, a
    turn without a file path scores nothing: it persists no question
    row and no spreadsheet evaluation and calls nobody, it returns the
    session at the same index, and after the message of the user it
    appends an AI text message that contains the text of the same task
    and a [template_download] message that carries the template type and
    the time limit of that task. *)
Theorem practical_turn_without_file_repeats_task
    (w : World) (sessionId userMessage : string) (filePath : option string)
    (m : Machine) (session : InterviewSession) (task : InterviewQuestionTemplate) :
  interviewSessions (store m) !! sessionId = Some session ->
  index QUESTION_TEMPLATES (currentQuestionIndex session) = Some task ->
  t_category task = practical ->
  truthy filePath = false ->
  let run := processUserMessage w sessionId userMessage filePath m in
  exists (kept : InterviewSession) (reply : ChatMessage),
    fst run = Returned (Some kept,
                        Storage.sessionMessages sessionId (store (snd run)))
    /\ interviewSessions (store (snd run))
       = <[sessionId := kept]> (interviewSessions (store m))
    /\ currentQuestionIndex kept = currentQuestionIndex session
    /\ status kept = in_progress
    /\ interviewQuestions (store (snd run)) = interviewQuestions (store m)
    /\ excelEvaluations (store (snd run)) = excelEvaluations (store m)
    /\ calls (snd run) = calls m
    /\ chatMessages (store (snd run))
       = chatMessages (store m)
         ++ [messageData sessionId userMessage filePath; reply;
             templateMessage sessionId task]
    /\ msg_sessionId reply = sessionId
    /\ sender reply = ai
    /\ messageType reply = text
    /\ includes (content reply) (t_question task) = true
    /\ sender (templateMessage sessionId task) = ai
    /\ messageType (templateMessage sessionId task) = template_download
    /\ metadata (templateMessage sessionId task)
       = TemplateMetadata (taskType task) (timeLimit task).
Proof.
  intros Hsession Hentry Hcategory Hfile run. subst run.
  assert (Hfacts : (currentQuestionIndex session =? -1) = false
                   /\ (script_length <=? currentQuestionIndex session) = false
                   /\ (currentQuestionIndex session <? script_length) = true
                   /\ offersTemplate task = true).
  { destruct (practical_entries _ _ Hentry Hcategory) as [[-> Htask]|[-> Htask]];
      vm_compute in Htask; injection Htask as <-; repeat split. }
  destruct Hfacts as (Hstarted & Hmore & Hbound & Hoffer).
  unfold processUserMessage.
  rewrite run_getInterviewSession, Hsession, run_addChatMessage, Hstarted, Hentry.
  rewrite (run_returned _ _ _ _ _
             (scoreAnswer_unscored _ _ _ _ _ _ _ Hcategory Hfile)).
  cbv beta iota. rewrite Hmore, Hentry, run_ret, Hoffer. cbv beta iota.
  rewrite run_updateInterviewSession. machine_simpl. rewrite Hsession.
  rewrite run_addChatMessage. cbn [andb]. rewrite Hbound.
  cbv beta iota.
  rewrite run_bind, run_addChatMessage, run_ret, run_getSessionMessages.
  unfold ret. machine_simpl.
  eexists _, _. split; [reflexivity|]. split; [reflexivity|].
  split; [reflexivity|]. split; [reflexivity|]. split; [reflexivity|].
  split; [reflexivity|]. split; [reflexivity|]. split.
  { rewrite <- !app_assoc. reflexivity. }
  split; [reflexivity|]. split; [reflexivity|]. split; [reflexivity|].
  split; [|repeat split].
  cbn [content textMessage]. rewrite !append_assoc.
  do 6 apply includes_skip. apply includes_prefix, prefix_append.
Qed.

(** The data cleanup task, answered with text only: the task is asked
    again and its template offered again. *)
Lemma practical_turn_without_file_repeats_task_witness :
  let run :=
    processUserMessage Sample.world "7d9f" "I cleaned the data." None
      (Sample.at_index 2 in_progress) in
  exists reply,
    fst run = Returned (Some (Sample.session "7d9f" 2 in_progress),
                        [messageData "7d9f" "I cleaned the data." None; reply;
                         templateMessage "7d9f"
                           {| t_category := practical;
                              t_question := "Complete the data cleanup task. Clean and standardize the messy customer data provided.";
                              t_expectedAnswer := None;
                              taskType := Some "data_cleanup";
                              timeLimit := Some 8 |}])
    /\ includes (content reply) "Complete the data cleanup task." = true
    /\ interviewQuestions (store (snd run)) = []
    /\ calls (snd run) = [].
Proof.
  intros run.
  destruct (practical_turn_without_file_repeats_task Sample.world "7d9f"
              "I cleaned the data." None (Sample.at_index 2 in_progress)
              (Sample.session "7d9f" 2 in_progress) _ eq_refl eq_refl eq_refl eq_refl)
    as (kept & reply & Hrun & _ & _ & _ & Hquestions & _ & Hcalls & _).
  fold run in Hrun, Hquestions, Hcalls.
  eexists. rewrite Hquestions, Hcalls. split; [vm_compute; reflexivity|].
  split; [vm_compute; reflexivity|]. split; reflexivity.
Defined.

End Turns.

(** ** What a computation leaves untouched *)

Section Frames.
Import JS Schema Effects InterviewService Reasoning.

Lemma keeps_ret {A} (a : A) : keeps_sessions (ret a).
Proof. intros m. reflexivity. Qed.

Lemma keeps_throw {A} (error : string) : keeps_sessions (@throw A error).
Proof. intros m. reflexivity. Qed.

Lemma keeps_bind {A B} (c : IO A) (k : A -> IO B) :
  keeps_sessions c -> (forall a, keeps_sessions (k a)) -> keeps_sessions (bind c k).
Proof.
  intros Hc Hk m. unfold bind. specialize (Hc m).
  destruct (c m) as [[a|error] m']; cbn [snd] in *; [|exact Hc].
  rewrite Hk. exact Hc.
Qed.

Lemma keeps_call (c : Call) : keeps_sessions (call c).
Proof. intros m. reflexivity. Qed.

Lemma keeps_answer {A} (error : string) (a : option A) :
  keeps_sessions (answer error a).
Proof. intros m. destruct a; reflexivity. Qed.

Lemma keeps_getInterviewSession (sessionId : string) :
  keeps_sessions (Storage.getInterviewSession sessionId).
Proof.
  intros m. unfold Storage.getInterviewSession, bind, get_store.
  destruct (interviewSessions (store m) !! sessionId); [reflexivity|].
  destruct (Postgres.uuid_in sessionId); reflexivity.
Qed.

Lemma keeps_addChatMessage (message : ChatMessage) :
  keeps_sessions (Storage.addChatMessage message).
Proof. intros m. reflexivity. Qed.

Lemma keeps_getSessionMessages (sessionId : string) :
  keeps_sessions (Storage.getSessionMessages sessionId).
Proof. intros m. reflexivity. Qed.

Lemma keeps_addInterviewQuestion (w : World) (q : InterviewQuestion) :
  keeps_sessions (Storage.addInterviewQuestion w q).
Proof. intros m. reflexivity. Qed.

Lemma keeps_getSessionQuestions (sessionId : string) :
  keeps_sessions (Storage.getSessionQuestions sessionId).
Proof. intros m. reflexivity. Qed.

Lemma keeps_addExcelEvaluation (evaluation : ExcelEvaluation) :
  keeps_sessions (Storage.addExcelEvaluation evaluation).
Proof. intros m. reflexivity. Qed.

Lemma returns_only_ret {A} (P : A -> Prop) (a : A) : P a -> returns_only P (ret a).
Proof. intros HP m a' Hrun. injection Hrun as <-. exact HP. Qed.

Lemma returns_only_bind {A B} (P : B -> Prop) (c : IO A) (k : A -> IO B) :
  (forall a, returns_only P (k a)) -> returns_only P (bind c k).
Proof.
  intros Hk m b. unfold bind. destruct (c m) as [[a|error] m'].
  - apply Hk.
  - discriminate.
Qed.

End Frames.

Create HintDb frames.
#[local] Hint Resolve keeps_ret keeps_throw keeps_call keeps_answer
  keeps_getInterviewSession keeps_addChatMessage keeps_getSessionMessages
  keeps_addInterviewQuestion keeps_getSessionQuestions keeps_addExcelEvaluation
  : frames.

(** Decomposes a computation along its binds and branches. *)
Ltac frame :=
  repeat first
    [ solve [auto with frames]
    | match goal with
      | |- Reasoning.keeps_sessions (Effects.bind _ _) =>
          apply keeps_bind; [|intros ?]
      | |- Reasoning.keeps_sessions (if ?b then _ else _) => destruct b
      | |- Reasoning.keeps_sessions (match ?o with Some _ => _ | None => _ end) =>
          destruct o
      | |- Reasoning.keeps_sessions (let '(_, _) := ?p in _) => destruct p
      end ].

Section Steps.
Import JS Schema Effects InterviewService Trajectory Reasoning.

Lemma keeps_getCurrentQuestionIndex (sessionId : string) :
  keeps_sessions (getCurrentQuestionIndex sessionId).
Proof. unfold getCurrentQuestionIndex. frame. Qed.

Lemma keeps_getLatestQuestionId (sessionId : string) :
  keeps_sessions (getLatestQuestionId sessionId).
Proof. unfold getLatestQuestionId. frame. Qed.

Lemma keeps_evaluatePracticalTask (w : World) (sessionId : string)
    (question : InterviewQuestionTemplate) (filePath userExplanation : string) :
  keeps_sessions (evaluatePracticalTask w sessionId question filePath userExplanation).
Proof.
  unfold evaluatePracticalTask.
  pose proof keeps_getCurrentQuestionIndex. pose proof keeps_getLatestQuestionId.
  frame.
Qed.

Lemma keeps_scoreAnswer (w : World) (sessionId : string) (session : InterviewSession)
    (currentQuestion : InterviewQuestionTemplate) (userMessage : string)
    (filePath : option string) :
  keeps_sessions
    (scoreAnswer w sessionId session currentQuestion userMessage filePath).
Proof. unfold scoreAnswer. pose proof keeps_evaluatePracticalTask. frame. Qed.

(** Scoring keeps the index or adds one to it. *)
Lemma scoreAnswer_next (w : World) (sessionId : string) (session : InterviewSession)
    (currentQuestion : InterviewQuestionTemplate) (userMessage : string)
    (filePath : option string) :
  returns_only
    (fun scored => snd scored = currentQuestionIndex session
                   \/ snd scored = currentQuestionIndex session + 1)
    (scoreAnswer w sessionId session currentQuestion userMessage filePath).
Proof.
  unfold scoreAnswer.
  repeat first
    [ apply returns_only_bind; intros ?
    | apply returns_only_ret; cbn [snd]; auto
    | match goal with |- returns_only _ (if ?b then _ else _) => destruct b end ].
Qed.

(** [completeInterview] either throws before it writes, or marks the
    session completed without moving its index. *)
Lemma completeInterview_sessions (w : World) (sessionId : string) (m : Machine) :
  let run := completeInterview w sessionId m in
  ((exists error, fst run = Thrown error)
   /\ interviewSessions (store (snd run)) = interviewSessions (store m))
  \/ (fst run = Returned tt
      /\ exists mark : InterviewSession -> InterviewSession,
           (forall s, status (mark s) = completed
                      /\ currentQuestionIndex (mark s) = currentQuestionIndex s
                      /\ totalQuestions (mark s) = totalQuestions s)
           /\ interviewSessions (store (snd run))
              = match interviewSessions (store m) !! sessionId with
                | Some s => <[sessionId := mark s]> (interviewSessions (store m))
                | None => interviewSessions (store m)
                end).
Proof.
  intros run. subst run. unfold completeInterview.
  rewrite run_getSessionQuestions, run_call, run_answer.
  destruct (generateFinalReport w _ _ _ _ _ _) as [report|].
  - right. rewrite run_updateInterviewSession. machine_simpl.
    match goal with |- context [applyUpdates ?u] => set (updates := u) end.
    destruct (interviewSessions (store m) !! sessionId) as [s|];
      rewrite run_addChatMessage; unfold ret; machine_simpl;
      (split; [reflexivity|]); exists (applyUpdates updates);
      (split; [intros ?; repeat split|reflexivity]).
  - left. machine_simpl. split; [eexists|]; reflexivity.
Qed.

Lemma turn_sessions (w : World) (sessionId userMessage : string)
    (filePath : option string) (m m' : Machine)
    (result : Outcome (option InterviewSession * list ChatMessage)) :
  processUserMessage w sessionId userMessage filePath m = (result, m') ->
  interviewSessions (store m') = interviewSessions (store m)
  \/ exists s s',
       interviewSessions (store m) !! sessionId = Some s
       /\ interviewSessions (store m') = <[sessionId := s']> (interviewSessions (store m))
       /\ advance s s'.
Proof.
  unfold processUserMessage. rewrite run_getInterviewSession.
  destruct (interviewSessions (store m) !! sessionId) as [session|] eqn:Hsession;
    [|destruct (Postgres.uuid_in sessionId); intros [= _ <-]; left; reflexivity].
  rewrite run_addChatMessage.
  destruct (currentQuestionIndex session =? -1) eqn:Hstart.
  - apply Z.eqb_eq in Hstart.
    destruct (index QUESTION_TEMPLATES 0) as [firstQuestion|];
      [|intros [= _ <-]; left; reflexivity].
    rewrite run_updateInterviewSession. machine_simpl. rewrite Hsession.
    rewrite run_addChatMessage, run_getSessionMessages. unfold ret.
    intros [= _ <-]. machine_simpl.
    right. eexists _, _. split; [reflexivity|]. split; [reflexivity|].
    split; [reflexivity|]. left. repeat split. exact Hstart.
  - destruct (index QUESTION_TEMPLATES (currentQuestionIndex session))
      as [currentQuestion|] eqn:Hcurrent; [|intros [= _ <-]; left; reflexivity].
    apply index_bounds in Hcurrent. fold script_length in Hcurrent.
    unfold bind at 1.
    pose proof (keeps_scoreAnswer w sessionId session currentQuestion userMessage
                  filePath
                  (update_store
                     (Storage.withMessages
                        (fun rows => rows ++ [messageData sessionId userMessage filePath]))
                     m)) as Hkept.
    pose proof (scoreAnswer_next w sessionId session currentQuestion userMessage
                  filePath
                  (update_store
                     (Storage.withMessages
                        (fun rows => rows ++ [messageData sessionId userMessage filePath]))
                     m)) as Hnext.
    destruct (scoreAnswer _ _ _ _ _ _ _) as [[[aiResponse nextQuestionIndex]|error] m1];
      machine_simpl; [|intros [= _ <-]; left; exact Hkept].
    specialize (Hnext _ eq_refl). cbn [snd] in Hnext.
    assert (Hsession1 : interviewSessions (store m1) !! sessionId = Some session)
      by (rewrite Hkept; exact Hsession).
    destruct (script_length <=? nextQuestionIndex) eqn:Hdone.
    + apply Z.leb_le in Hdone. rewrite run_bind. unfold bind at 1.
      destruct (completeInterview_sessions w sessionId m1)
        as [[[error Hthrown] Hsame]|[Hreturned (mark & Hmark & Hmarked)]];
        destruct (completeInterview w sessionId m1) as [[[]|error'] m2];
        cbn [fst snd] in *; try discriminate.
      * intros [= _ <-]. left. rewrite Hsame. exact Hkept.
      * rewrite Hsession1 in Hmarked. rewrite run_ret. cbv beta iota.
        rewrite run_updateInterviewSession, Hmarked, lookup_insert_eq.
        rewrite run_addChatMessage. cbn [andb]. rewrite run_ret, run_getSessionMessages.
        unfold ret. intros [= _ <-]. machine_simpl.
        rewrite Hmarked, insert_insert_eq, Hkept.
        right. eexists _, _. split; [reflexivity|]. split; [reflexivity|].
        destruct (Hmark session) as (_ & _ & Htotal).
        split; [exact Htotal|]. right. cbn. split; [lia|]. split; [lia|].
        right. split; [lia|reflexivity].
    + apply Z.leb_gt in Hdone.
      destruct (index QUESTION_TEMPLATES nextQuestionIndex) as [nextQuestion|];
        [|intros [= _ <-]; left; exact Hkept].
      rewrite run_ret. cbv beta iota.
      rewrite run_updateInterviewSession, Hsession1.
      rewrite run_addChatMessage. cbn [andb].
      match goal with
      | |- bind ?c ?k ?m0 = _ -> _ =>
          assert (Htail : keeps_sessions (bind c k)) by frame;
          specialize (Htail m0)
      end.
      intros Hrun. rewrite Hrun in Htail. machine_simpl. rewrite Htail, Hkept.
      right. eexists _, _. split; [reflexivity|]. split; [reflexivity|].
      split; [reflexivity|]. right. cbn. split; [lia|]. split; [lia|].
      left. split; [lia|reflexivity].
Qed.


Lemma advance_on_script (s s' : InterviewSession) :
  on_script s -> advance s s' ->
  on_script s'
  /\ currentQuestionIndex s <= currentQuestionIndex s'
  /\ status_step (status s) (status s').
Proof.
  unfold on_script, advance, status_step.
  change script_length with 8.
  intros (Htotal & Hscript) (Htotal' & Hmove). rewrite Htotal', Htotal.
  destruct Hscript as [(Hstatus & Hrange)|(Hstatus & Hend)];
    destruct Hmove as [(Hfrom & Hto & Hsame)|(Hrange' & Hto & [(Hlt & Hst)|(Heq & Hst)])];
    rewrite ?Hsame, ?Hst, ?Hstatus, ?Hto;
    repeat split; try lia; auto 6.
  all: try (left; split; [reflexivity|lia]).
  all: try (right; split; [reflexivity|lia]).
Qed.

Lemma after_on_script (t : Turn) (m : Machine) (sessionId : string)
    (s : InterviewSession) :
  interviewSessions (store m) !! sessionId = Some s -> on_script s ->
  exists s',
    interviewSessions (store (after t m)) !! sessionId = Some s'
    /\ on_script s'
    /\ currentQuestionIndex s <= currentQuestionIndex s'
    /\ status_step (status s) (status s').
Proof.
  intros Hsession Hscript. unfold after.
  destruct (processUserMessage _ _ _ _ m) as [result m'] eqn:Hrun. cbn [snd].
  assert (Hstay : on_script s /\ currentQuestionIndex s <= currentQuestionIndex s
                  /\ status_step (status s) (status s)).
  { split; [exact Hscript|]. split; [lia|]. unfold status_step.
    destruct Hscript as (_ & [(-> & _)|(-> & _)]); auto. }
  destruct (turn_sessions _ _ _ _ _ _ _ Hrun) as [Hsame|(s1 & s2 & Hs1 & Hinsert & Hadvance)].
  - exists s. rewrite Hsame. auto.
  - rewrite Hinsert. destruct (decide (turn_sessionId t = sessionId)) as [<-|Hother].
    + rewrite lookup_insert_eq. exists s2. split; [reflexivity|].
      rewrite Hsession in Hs1. injection Hs1 as <-.
      apply advance_on_script; assumption.
    + rewrite lookup_insert_ne by exact Hother. exists s. auto.
Qed.

Lemma states_on_script (turns : list Turn) :
  forall (m : Machine) (sessionId : string) (s : InterviewSession),
    interviewSessions (store m) !! sessionId = Some s -> on_script s ->
    forall (i : nat) (before next : Machine),
      states turns m !! i = Some before ->
      states turns m !! S i = Some next ->
      exists sb sn,
        interviewSessions (store before) !! sessionId = Some sb
        /\ interviewSessions (store next) !! sessionId = Some sn
        /\ on_script sb /\ on_script sn
        /\ currentQuestionIndex sb <= currentQuestionIndex sn
        /\ status_step (status sb) (status sn).
Proof.
  induction turns as [|t rest IH]; intros m sessionId s Hsession Hscript i before next.
  - destruct i; discriminate.
  - destruct (after_on_script t m sessionId s Hsession Hscript)
      as (s' & Hsession' & Hscript' & Hle & Hstep).
    destruct i as [|i]; cbn [states lookup list_lookup].
    + intros [= <-] Hnext.
      assert (Hnext' : next = after t m) by (destruct rest; injection Hnext as <-; reflexivity).
      subst next. exists s, s'. auto 10.
    + intros Hbefore Hnext. exact (IH _ _ _ Hsession' Hscript' i before next Hbefore Hnext).
Qed.

Lemma startInterview_creates (w : World) (userId : string) (m0 m1 : Machine)
    (session : InterviewSession) :
  startInterview w userId m0 = (Returned session, m1) ->
  currentQuestionIndex session = -1
  /\ status session = in_progress
  /\ totalQuestions session = script_length
  /\ interviewSessions (store m1) !! id session = Some session.
Proof.
  unfold startInterview, Storage.createInterviewSession.
  rewrite run_bind. unfold bind at 1, get_store.
  destruct (interviewSessions (store m0) !! gen_random_uuid w) eqn:Hfresh;
    [rewrite run_throw; discriminate|].
  rewrite run_bind, run_modify, run_ret, run_addChatMessage. unfold ret.
  intros [= <- <-]. machine_simpl. cbn [id currentQuestionIndex status totalQuestions].
  repeat split. apply lookup_insert_eq.
Qed.

(** Starting an interview, when the insert of the session succeeds,
    yields a session at index -1, in progress, with the eight questions of
    the script, and appends exactly one chat message, the welcome. *)
Theorem startInterview_welcomes
    (w : World) (userId : string) (m0 m1 : Machine) (session : InterviewSession) :
  startInterview w userId m0 = (Returned session, m1) ->
  currentQuestionIndex session = -1
  /\ status session = in_progress
  /\ totalQuestions session = 8
  /\ interviewSessions (store m1)
     = <[id session := session]> (interviewSessions (store m0))
  /\ chatMessages (store m1)
     = chatMessages (store m0) ++ [textMessage (id session) (welcome w)]
  /\ interviewQuestions (store m1) = interviewQuestions (store m0)
  /\ calls m1 = calls m0.
Proof.
  unfold startInterview, Storage.createInterviewSession.
  rewrite run_bind. unfold bind at 1, get_store.
  destruct (interviewSessions (store m0) !! gen_random_uuid w) eqn:Hfresh;
    [rewrite run_throw; discriminate|].
  rewrite run_bind, run_modify, run_ret, run_addChatMessage. unfold ret.
  intros [= <- <-]. machine_simpl. repeat split.
Qed.

Lemma startInterview_welcomes_witness :
  let started := startInterview Sample.world "demo-user" Sample.boot in
  fst started = Returned (Sample.session "7d9f" (-1) in_progress)
  /\ interviewSessions (store (snd started))
     = <[ "7d9f" := Sample.session "7d9f" (-1) in_progress ]> ∅
  /\ chatMessages (store (snd started))
     = [textMessage "7d9f" (welcome Sample.world)]
  /\ interviewQuestions (store (snd started)) = []
  /\ calls (snd started) = [].
Proof.
  intros started. split; [reflexivity|].
  exact (proj2 (proj2 (proj2
    (startInterview_welcomes Sample.world "demo-user" Sample.boot (snd started)
       (Sample.session "7d9f" (-1) in_progress) eq_refl)))).
Defined.

(** C2.  A session that [startInterview] created starts at index -1 and
    in progress.  Whatever turns follow, on this session or on others,
    returning or throwing: from each state to the next the index of the
    session does not decrease, it never exceeds the number of questions
    of the session, and the status either stays as it is or goes from
    in progress to completed; it is never abandoned. *)
Theorem index_and_status_only_advance
    (w : World) (userId : string) (m0 m1 : Machine) (session : InterviewSession)
    (turns : list Turn) :
  startInterview w userId m0 = (Returned session, m1) ->
  currentQuestionIndex session = -1
  /\ status session = in_progress
  /\ interviewSessions (store m1) !! id session = Some session
  /\ forall (i : nat) (before next : Machine),
       states turns m1 !! i = Some before ->
       states turns m1 !! S i = Some next ->
       exists sb sn,
         interviewSessions (store before) !! id session = Some sb
         /\ interviewSessions (store next) !! id session = Some sn
         /\ -1 <= currentQuestionIndex sb
         /\ currentQuestionIndex sb <= currentQuestionIndex sn
         /\ currentQuestionIndex sn <= totalQuestions sn
         /\ status_step (status sb) (status sn)
         /\ status sn <> abandoned.
Proof.
  intros Hstart.
  destruct (startInterview_creates _ _ _ _ _ Hstart)
    as (Hindex & Hstatus & Htotal & Hcreated).
  split; [exact Hindex|]. split; [exact Hstatus|]. split; [exact Hcreated|].
  intros i before next Hbefore Hnext.
  assert (Hscript : on_script session).
  { split; [exact Htotal|]. left. split; [exact Hstatus|].
    rewrite Hindex. change script_length with 8. lia. }
  destruct (states_on_script turns _ _ _ Hcreated Hscript i before next Hbefore Hnext)
    as (sb & sn & Hsb & Hsn & Hb & Hn & Hle & Hstep).
  exists sb, sn. split; [exact Hsb|]. split; [exact Hsn|].
  destruct Hb as (Htb & Hb), Hn as (Htn & Hn).
  split; [destruct Hb as [(_ & ?)|(_ & ->)]; [lia|change script_length with 8; lia]|].
  split; [exact Hle|].
  split; [rewrite Htn; destruct Hn as [(_ & ?)|(_ & ->)]; lia|].
  split; [exact Hstep|].
  destruct Hn as [(-> & _)|(-> & _)]; discriminate.
Qed.

(** A whole interview, with one turn too many at each practical task and
    two after the end. *)
Lemma index_and_status_only_advance_witness :
  let started := startInterview Sample.world "demo-user" Sample.boot in
  let turn (filePath : option string) :=
    {| turn_world := Sample.world; turn_sessionId := "7d9f";
       turn_userMessage := "My answer."; turn_filePath := filePath |} in
  let turns :=
    turn <$> [None; None; None; None; Some "cleanup.xlsx"; None; Some "sales.xlsx";
              None; None; None; None; None; None] in
  fst started = Returned (Sample.session "7d9f" (-1) in_progress)
  /\ (fun m => currentQuestionIndex <$> interviewSessions (store m) !! "7d9f")
       <$> states turns (snd started)
     = Some <$> [-1; 0; 1; 2; 2; 3; 3; 4; 5; 6; 7; 8; 8; 8]
  /\ (fun m => status <$> interviewSessions (store m) !! "7d9f")
       <$> states turns (snd started)
     = Some <$> [in_progress; in_progress; in_progress; in_progress; in_progress;
                 in_progress; in_progress; in_progress; in_progress; in_progress;
                 in_progress; completed; completed; completed]
  /\ forall (i : nat) (before next : Machine),
       states turns (snd started) !! i = Some before ->
       states turns (snd started) !! S i = Some next ->
       exists sb sn,
         interviewSessions (store before) !! "7d9f" = Some sb
         /\ interviewSessions (store next) !! "7d9f" = Some sn
         /\ -1 <= currentQuestionIndex sb
         /\ currentQuestionIndex sb <= currentQuestionIndex sn
         /\ currentQuestionIndex sn <= totalQuestions sn
         /\ status_step (status sb) (status sn)
         /\ status sn <> abandoned.
Proof.
  intros started turn turns.
  split; [reflexivity|]. split; [vm_compute; reflexivity|].
  split; [vm_compute; reflexivity|].
  exact (proj2 (proj2 (proj2
    (index_and_status_only_advance Sample.world "demo-user" Sample.boot
       (snd started) (Sample.session "7d9f" (-1) in_progress) turns eq_refl)))).
Defined.

End Steps.

(** ** The spreadsheet inspector *)

Section Inspector.
Import JS ExcelProcessor Wording Reasoning.

Lemma evaluateSalesAnalysis_formulaScore (worksheet : WorkSheet) :
  formulaScore (evaluateSalesAnalysis worksheet)
  = 60 + lookupBonus (extractFormulas worksheet)
    + sumifsBonus (extractFormulas worksheet).
Proof.
  unfold evaluateSalesAnalysis, lookupBonus, sumifsBonus. cbn [formulaScore].
  reflexivity.
Qed.

(** The loop adds, sheet by sheet, the sheet's own total to the formula
    accuracy and the sheet's formulas to the formulas found. *)
Lemma analyzeSheets_sales (workbook : WorkBook) (names : list string) :
  forall (evaluation : ExcelEvaluationResult) (perSheet : list (list string)),
    mapM (fun sheetName => extractFormulas <$> Sheets workbook !! sheetName) names
    = Some perSheet ->
    exists analyzed,
      foldl (fun acc sheetName =>
               ev ← acc; analyzeSheet workbook (Some "sales_analysis") ev sheetName)
            (Some evaluation) names = Some analyzed
      /\ formulaAccuracy analyzed = formulaAccuracy evaluation + perSheetTotal perSheet
      /\ formulasFound (details analyzed)
         = formulasFound (details evaluation) ++ concat perSheet.
Proof.
  induction names as [|name rest IH]; intros evaluation perSheet Hsheets.
  - injection Hsheets as <-. exists evaluation. cbn.
    rewrite Z.add_0_r, app_nil_r. auto.
  - cbn [mapM] in Hsheets. cbn [foldl].
    destruct (Sheets workbook !! name) as [worksheet|] eqn:Hsheet; [|discriminate].
    cbn in Hsheets.
    destruct (mapM _ rest) as [others|] eqn:Hrest; [|discriminate].
    injection Hsheets as <-.
    unfold analyzeSheet at 2. cbn [mbind option_bind]. rewrite Hsheet. cbn [mbind option_bind].
    rewrite bool_decide_eq_true_2 by reflexivity.
    match goal with
    | |- context [foldl _ (Some ?ev) rest] =>
        destruct (IH ev _ eq_refl) as (analyzed & Hfold & Haccuracy & Hformulas)
    end.
    eexists. split; [exact Hfold|]. rewrite Haccuracy, Hformulas.
    cbn [formulaAccuracy details formulasFound pushIssues pushFormulas perSheetTotal
         foldr concat].
    rewrite evaluateSalesAnalysis_formulaScore, <- app_assoc. split; [|reflexivity].
    fold (perSheetTotal others). lia.
Qed.

Lemma checkRequiredSheets_formulas (expectedSheets sheetNames : list string)
    (evaluation : ExcelEvaluationResult) :
  formulaAccuracy (checkRequiredSheets expectedSheets sheetNames evaluation)
  = formulaAccuracy evaluation
  /\ formulasFound (details (checkRequiredSheets expectedSheets sheetNames evaluation))
     = formulasFound (details evaluation).
Proof. unfold checkRequiredSheets. destruct (forallb _ _); split; reflexivity. Qed.

(** The test of the code, [f.toUpperCase().includes(name)] for some
    formula, finds the name exactly when a formula contains it in some
    case; for a name in capitals. *)
Lemma mentions_contains (name : string) (formulas : list string) :
  toUpperCase name = name ->
  mentions name formulas = true <-> contains name formulas.
Proof.
  intros Hname. unfold mentions, contains. rewrite existsb_exists. split.
  - intros (formula & Hin%list_elem_of_In & Hfound).
    destruct (includes_inv _ _ Hfound) as (front & back & Hupper).
    destruct (toUpperCase_split _ _ _ Hupper) as (before & rest & -> & _ & Hrest).
    destruct (toUpperCase_split _ _ _ Hrest) as (part & after & -> & Hpart & _).
    exists (before +:+ part +:+ after), before, part, after.
    split; [exact Hin|]. split; [reflexivity|].
    rewrite <- Hpart. apply toUpperCase_sameWord.
  - intros (formula & before & part & after & Hin & -> & Hsame).
    exists (before +:+ part +:+ after). split; [apply list_elem_of_In; exact Hin|].
    rewrite !toUpperCase_append, (sameWord_toUpperCase _ _ Hname Hsame).
    apply includes_skip, includes_prefix, prefix_append.
Qed.

Lemma bonus_values (formulas : list string) :
  (lookupBonus formulas = 15 \/ lookupBonus formulas = 0)
  /\ (sumifsBonus formulas = 15 \/ sumifsBonus formulas = 0).
Proof.
  unfold lookupBonus, sumifsBonus.
  destruct (mentions "XLOOKUP" formulas || _), (mentions "SUMIFS" formulas); auto.
Qed.

Lemma perSheetTotal_base (perSheet : list (list string)) :
  60 * Z.of_nat (length perSheet) <= perSheetTotal perSheet.
Proof.
  induction perSheet as [|formulas rest IH]; [reflexivity|].
  cbn [perSheetTotal foldr]. fold (perSheetTotal rest). rewrite length_cons.
  destruct (bonus_values formulas) as [[-> | ->] [-> | ->]]; lia.
Qed.

(** After the clamp, the sum over the sheets is what one award of each
    bonus over all the formulas gives: with one sheet its formulas are
    all the formulas, and with more the bases alone pass 100. *)
Lemma perSheetTotal_once (perSheet : list (list string)) :
  clamp (perSheetTotal perSheet)
  = clamp (60 * Z.of_nat (length perSheet)
           + lookupBonus (concat perSheet) + sumifsBonus (concat perSheet)).
Proof.
  destruct perSheet as [|formulas [|more rest]].
  - reflexivity.
  - cbn [perSheetTotal foldr concat length]. rewrite app_nil_r. f_equal. lia.
  - pose proof (perSheetTotal_base (formulas :: more :: rest)) as Hbase.
    rewrite !length_cons in *.
    destruct (bonus_values (concat (formulas :: more :: rest)))
      as [[-> | ->] [-> | ->]]; unfold clamp; lia.
Qed.

Lemma lookupBonus_contains (formulas : list string) :
  lookupBonus formulas = 15
  <-> contains "XLOOKUP" formulas
      \/ (contains "INDEX" formulas /\ contains "MATCH" formulas).
Proof.
  rewrite <- !mentions_contains by reflexivity. unfold lookupBonus.
  destruct (mentions "XLOOKUP" formulas), (mentions "INDEX" formulas),
    (mentions "MATCH" formulas); cbn; intuition discriminate.
Qed.

Lemma sumifsBonus_contains (formulas : list string) :
  sumifsBonus formulas = 15 <-> contains "SUMIFS" formulas.
Proof.
  rewrite <- mentions_contains by reflexivity. unfold sumifsBonus.
  destruct (mentions "SUMIFS" formulas); cbn; intuition discriminate.
Qed.

(** C6.  With task type [sales_analysis], the formula accuracy the
    inspector returns is the base of 60 for every sheet plus two
    bonuses, clamped to [0,100]: 15 when the formulas collected from the
    workbook contain XLOOKUP, or both INDEX and MATCH, as substrings in
    whatever case, and 15 when they contain SUMIFS.  Each bonus counts
    once, over all the collected formulas.  Conversely no bonus is given
    without these names; this is stated for formulas in ASCII, the
    letters the embedded [toUpperCase] converts.

    [evaluateSalesAnalysis] runs once per sheet, on the formulas of that
    sheet.  The returned score does not show it: with one sheet those
    are the collected formulas, and with two or more the bases alone
    reach the cap of 100. *)
Theorem sales_bonus_once_over_collected_formulas
    (workbook : WorkBook) (expectedSheets : list string)
    (perSheet : list (list string)) :
  sheetFormulas workbook = Some perSheet ->
  exists evaluation lookup sumifs,
    evaluateExcelFile (Some workbook) expectedSheets (Some "sales_analysis")
    = Some evaluation
    /\ formulasFound (details evaluation) = concat perSheet
    /\ formulaAccuracy evaluation
       = clamp (60 * Z.of_nat (length (SheetNames workbook)) + lookup + sumifs)
    /\ (lookup = 15 \/ lookup = 0)
    /\ (sumifs = 15 \/ sumifs = 0)
    /\ (contains "XLOOKUP" (concat perSheet)
        \/ (contains "INDEX" (concat perSheet) /\ contains "MATCH" (concat perSheet)) ->
        lookup = 15)
    /\ (contains "SUMIFS" (concat perSheet) -> sumifs = 15)
    /\ (forallb plain (concat perSheet) = true ->
        (lookup = 15 ->
         contains "XLOOKUP" (concat perSheet)
         \/ (contains "INDEX" (concat perSheet) /\ contains "MATCH" (concat perSheet)))
        /\ (sumifs = 15 -> contains "SUMIFS" (concat perSheet))).
Proof.
  intros Hsheets. unfold evaluateExcelFile, accumulate, analyzeSheets.
  cbn [mbind option_bind].
  destruct (analyzeSheets_sales workbook (SheetNames workbook)
              (checkRequiredSheets expectedSheets (SheetNames workbook)
                 (emptyEvaluation (SheetNames workbook)))
              perSheet Hsheets) as (analyzed & Hfold & Haccuracy & Hformulas).
  destruct (checkRequiredSheets_formulas expectedSheets (SheetNames workbook)
              (emptyEvaluation (SheetNames workbook))) as (Hfa & Hff).
  rewrite Hfa in Haccuracy. rewrite Hff in Hformulas. cbn in Haccuracy, Hformulas.
  rewrite Hfold. cbn [mbind option_bind].
  unfold evaluateBestPractices. rewrite Hsheets. cbn [mbind option_bind].
  eexists _, (lookupBonus (concat perSheet)), (sumifsBonus (concat perSheet)).
  split; [reflexivity|]. cbn [formulaAccuracy details].
  split; [exact Hformulas|].
  split.
  { rewrite Haccuracy, Z.add_0_l, perSheetTotal_once.
    rewrite (length_mapM _ _ _ Hsheets). reflexivity. }
  split; [apply bonus_values|]. split; [apply bonus_values|].
  split; [apply lookupBonus_contains|]. split; [apply sumifsBonus_contains|].
  intros _. split; [apply lookupBonus_contains|apply sumifsBonus_contains].
Qed.

(** A sheet that writes Index, Match and sumifs earns both bonuses, 90;
    a sheet without any of the names stays at the base of 60. *)
Lemma sales_bonus_once_over_collected_formulas_witness :
  (exists evaluation,
     evaluateExcelFile (Some Sample.mixedCase)
       ["Monthly_Summary"; "Top_Products"; "KPI_Dashboard"] (Some "sales_analysis")
     = Some evaluation
     /\ formulasFound (details evaluation)
        = ["=Index(Raw!E:E,3)"; "=Match(B2,Raw!C:C,0)"; "=sumifs(Raw!E:E,Raw!B:B,A2)"]
     /\ contains "INDEX" (formulasFound (details evaluation))
     /\ contains "MATCH" (formulasFound (details evaluation))
     /\ contains "SUMIFS" (formulasFound (details evaluation))
     /\ formulaAccuracy evaluation = 90)
  /\ (exists evaluation,
        evaluateExcelFile (Some Sample.cleanup) ["Clean_Data"] (Some "sales_analysis")
        = Some evaluation
        /\ formulasFound (details evaluation) = ["=PROPER(A2)"]
        /\ formulaAccuracy evaluation = 60).
Proof.
  split.
  - destruct (sales_bonus_once_over_collected_formulas Sample.mixedCase
                ["Monthly_Summary"; "Top_Products"; "KPI_Dashboard"]
                [["=Index(Raw!E:E,3)"; "=Match(B2,Raw!C:C,0)";
                  "=sumifs(Raw!E:E,Raw!B:B,A2)"]]
                ltac:(vm_compute; reflexivity))
      as (evaluation & lookup & sumifs & Heval & Hfound & Haccuracy & _ & _
          & Hlookup & Hsumifs & _).
    assert (Hindex : contains "INDEX"
              ["=Index(Raw!E:E,3)"; "=Match(B2,Raw!C:C,0)"; "=sumifs(Raw!E:E,Raw!B:B,A2)"]).
    { exists "=Index(Raw!E:E,3)", "=", "Index", "(Raw!E:E,3)".
      split; [repeat constructor|]. split; reflexivity. }
    assert (Hmatch : contains "MATCH"
              ["=Index(Raw!E:E,3)"; "=Match(B2,Raw!C:C,0)"; "=sumifs(Raw!E:E,Raw!B:B,A2)"]).
    { exists "=Match(B2,Raw!C:C,0)", "=", "Match", "(B2,Raw!C:C,0)".
      split; [repeat constructor|]. split; reflexivity. }
    assert (Hsum : contains "SUMIFS"
              ["=Index(Raw!E:E,3)"; "=Match(B2,Raw!C:C,0)"; "=sumifs(Raw!E:E,Raw!B:B,A2)"]).
    { exists "=sumifs(Raw!E:E,Raw!B:B,A2)", "=", "sumifs", "(Raw!E:E,Raw!B:B,A2)".
      split; [repeat constructor|]. split; reflexivity. }
    exists evaluation. split; [exact Heval|]. split; [exact Hfound|].
    rewrite Hfound. split; [exact Hindex|]. split; [exact Hmatch|].
    split; [exact Hsum|].
    cbn [concat app] in Hlookup, Hsumifs.
    rewrite Haccuracy, (Hlookup (or_intror (conj Hindex Hmatch))), (Hsumifs Hsum).
    reflexivity.
  - destruct (sales_bonus_once_over_collected_formulas Sample.cleanup
                ["Clean_Data"] [["=PROPER(A2)"]] ltac:(vm_compute; reflexivity))
      as (evaluation & lookup & sumifs & Heval & Hfound & Haccuracy
          & Hlookup & Hsumifs & _ & _ & Hconverse).
    destruct (Hconverse ltac:(reflexivity)) as (Hnamed & Hsummed).
    exists evaluation. split; [exact Heval|]. split; [exact Hfound|].
    assert (Hnone : forall name, toUpperCase name = name ->
                      contains name ["=PROPER(A2)"] ->
                      mentions name ["=PROPER(A2)"] = true)
      by (intros name Hname; apply mentions_contains; exact Hname).
    destruct Hlookup as [Hgiven | ->].
    { destruct (Hnamed Hgiven) as [Hfound' | (Hfound' & _)];
        apply Hnone in Hfound'; try reflexivity; discriminate Hfound'. }
    destruct Hsumifs as [Hgiven | ->].
    { pose proof (Hsummed Hgiven) as Hfound'.
      apply Hnone in Hfound'; [discriminate Hfound'|reflexivity]. }
    rewrite Haccuracy. reflexivity.
Defined.

(** The loop runs to its end when every listed sheet is in the workbook. *)
Lemma analyzeSheets_returns (workbook : WorkBook) (taskType : option string)
    (names : list string) :
  forall (evaluation : ExcelEvaluationResult) (perSheet : list (list string)),
    mapM (fun sheetName => extractFormulas <$> Sheets workbook !! sheetName) names
    = Some perSheet ->
    is_Some (foldl (fun acc sheetName =>
                      ev ← acc; analyzeSheet workbook taskType ev sheetName)
                   (Some evaluation) names).
Proof.
  induction names as [|name rest IH]; intros evaluation perSheet Hsheets.
  - eexists. reflexivity.
  - cbn [mapM] in Hsheets. cbn [foldl].
    destruct (Sheets workbook !! name) as [worksheet|] eqn:Hsheet; [|discriminate].
    cbn in Hsheets.
    destruct (mapM _ rest) as [others|] eqn:Hrest; [|discriminate].
    unfold analyzeSheet at 2. cbn [mbind option_bind]. rewrite Hsheet.
    cbn [mbind option_bind].
    destruct (bool_decide (taskType = Some "sales_analysis")); exact (IH _ _ eq_refl).
Qed.

(** C7.  Whatever the workbook, the expected sheets and the task type,
    the three scores the inspector returns lie between 0 and 100; and it
    does return them when the file can be read and every listed sheet is
    in the workbook. *)
Theorem evaluateExcelFile_scores_clamped
    (read : option WorkBook) (expectedSheets : list string)
    (taskType : option string) :
  (forall evaluation : ExcelEvaluationResult,
      evaluateExcelFile read expectedSheets taskType = Some evaluation ->
      0 <= formulaAccuracy evaluation <= 100
      /\ 0 <= structureScore evaluation <= 100
      /\ 0 <= bestPracticesScore evaluation <= 100)
  /\ (forall (workbook : WorkBook) (perSheet : list (list string)),
        read = Some workbook -> sheetFormulas workbook = Some perSheet ->
        is_Some (evaluateExcelFile read expectedSheets taskType)).
Proof.
  split.
  - intros evaluation. unfold evaluateExcelFile.
    destruct read as [workbook|]; [|discriminate]. cbn [mbind option_bind].
    destruct (accumulate workbook expectedSheets taskType) as [raw|]; [|discriminate].
    cbn [mbind option_bind]. intros [= <-].
    cbn [formulaAccuracy structureScore bestPracticesScore]. unfold clamp. lia.
  - intros workbook perSheet -> Hsheets.
    unfold evaluateExcelFile, accumulate, analyzeSheets. cbn [mbind option_bind].
    destruct (analyzeSheets_returns workbook taskType (SheetNames workbook)
                (checkRequiredSheets expectedSheets (SheetNames workbook)
                   (emptyEvaluation (SheetNames workbook)))
                perSheet Hsheets) as (analyzed & Hfold).
    rewrite Hfold. cbn [mbind option_bind].
    unfold evaluateBestPractices. rewrite Hsheets. cbn [mbind option_bind].
    eexists. reflexivity.
Qed.

(** The cleanup workbook accumulates a structure score of -20 and the
    workbook with two lookups a formula accuracy of 150; they are
    returned as 0 and 100. *)
Lemma evaluateExcelFile_scores_clamped_witness :
  (structureScore <$> accumulate Sample.cleanup ["Clean_Data"] (Some "data_cleanup"))
  = Some (-20)
  /\ (formulaAccuracy <$> accumulate Sample.twoLookups
        ["Monthly_Summary"; "Top_Products"; "KPI_Dashboard"] (Some "sales_analysis"))
     = Some 150
  /\ (exists evaluation,
        evaluateExcelFile (Some Sample.cleanup) ["Clean_Data"] (Some "data_cleanup")
        = Some evaluation
        /\ structureScore evaluation = 0
        /\ 0 <= formulaAccuracy evaluation <= 100
        /\ 0 <= structureScore evaluation <= 100
        /\ 0 <= bestPracticesScore evaluation <= 100)
  /\ (exists evaluation,
        evaluateExcelFile (Some Sample.twoLookups)
          ["Monthly_Summary"; "Top_Products"; "KPI_Dashboard"] (Some "sales_analysis")
        = Some evaluation
        /\ formulaAccuracy evaluation = 100
        /\ 0 <= formulaAccuracy evaluation <= 100
        /\ 0 <= structureScore evaluation <= 100
        /\ 0 <= bestPracticesScore evaluation <= 100).
Proof.
  split; [reflexivity|]. split; [reflexivity|]. split.
  - eexists. split; [reflexivity|]. split; [reflexivity|].
    exact (proj1 (evaluateExcelFile_scores_clamped (Some Sample.cleanup)
                    ["Clean_Data"] (Some "data_cleanup")) _ eq_refl).
  - eexists. split; [reflexivity|]. split; [reflexivity|].
    exact (proj1 (evaluateExcelFile_scores_clamped (Some Sample.twoLookups)
                    ["Monthly_Summary"; "Top_Products"; "KPI_Dashboard"]
                    (Some "sales_analysis")) _ eq_refl).
Defined.
End Inspector.

(** ** The HTTP surface *)

Section Surface.
Import JS Schema Effects Routes Transport Reasoning.

(** A handler behind its [try]: what the lookup of a session nobody has
    lets it answer. *)
Lemma lookup_of_absent_session (id : string) (failure : string)
    (found : InterviewSession -> IO Response) (m : Machine) :
  interviewSessions (store m) !! id = None ->
  try_catch
    (Effects.bind (Storage.getInterviewSession id)
       (fun session =>
          match session with
          | None => ret notFound
          | Some s => found s
          end))
    (fun _ => ret (status_json 500 failure)) m
  = (Returned (match Postgres.uuid_in id with
               | Some _ => notFound
               | None => status_json 500 failure
               end), m).
Proof.
  intros Hmissing. unfold try_catch. rewrite run_getInterviewSession, Hmissing.
  destruct (Postgres.uuid_in id); reflexivity.
Qed.

(** C8, as the code has it.  A request for a session nobody has is
    answered without a write to the database and without a call to the
    outside, in one of four ways.  When its id is a uuid, the answer is
    404.  When its id is no uuid, the lookup fails on the [uuid] column
    and the answer is the 500 of the handler.  The upload route differs
    in two ways, both before the lookup: when the transport passes an
    error on (a file in another field, of another type than the two
    spreadsheet types, or too large), the handler is not called; and
    when no file arrives, the answer is 400.  A file the transport has
    stored is neither renamed nor read: it stays under the name the
    transport gave it. *)
Theorem missing_session_is_not_found
    (e : Endpoint) (w : World) (req : Request) (part : option Part) (m : Machine) :
  absent (sessionId req) m ->
  exists answer,
    route e w req part m = (Returned answer, m)
    /\ ((reachesLookup e part
         /\ is_Some (Postgres.uuid_in (sessionId req))
         /\ answer = Answered notFound
         /\ res_status notFound = 404)
        \/ (reachesLookup e part
            /\ Postgres.uuid_in (sessionId req) = None
            /\ exists failure,
                answer = Answered (status_json 500 failure))
        \/ (e = PostUpload
            /\ single part = inr None
            /\ answer = Answered (status_json 400 "No file uploaded"))
        \/ (e = PostUpload
            /\ exists error, single part = inl error /\ answer = PassedOn error)).
Proof.
  intros (Hmissing & _).
  assert (Hlookup : forall failure found,
             exists response,
               try_catch
                 (Effects.bind (Storage.getInterviewSession (sessionId req))
                    (fun session =>
                       match session with
                       | None => ret notFound
                       | Some s => found s
                       end))
                 (fun _ => ret (status_json 500 failure)) m
               = (Returned response, m)
               /\ ((is_Some (Postgres.uuid_in (sessionId req))
                    /\ response = notFound)
                   \/ (Postgres.uuid_in (sessionId req) = None
                       /\ response = status_json 500 failure))).
  { intros failure found. rewrite (lookup_of_absent_session _ _ _ _ Hmissing).
    eexists. split; [reflexivity|].
    destruct (Postgres.uuid_in (sessionId req)); [left|right]; eauto. }
  assert (Hplain : e <> PostUpload ->
             forall response,
               handle e w req m = (Returned response, m) ->
               route e w req part m = (Returned (Answered response), m)).
  { intros Hother response Hrun. unfold route.
    destruct e; try contradiction; rewrite (run_returned _ _ _ _ _ Hrun);
      reflexivity. }
  destruct e.
  - destruct (Hlookup "Failed to fetch interview"
                (fun _ =>
                   Effects.bind (InterviewService.getSessionWithDetails (sessionId req))
                     (fun details => ret (json (DetailsBody details)))))
      as (response & Hrun & Hcases).
    exists (Answered response). split; [apply Hplain; [discriminate|exact Hrun]|].
    destruct Hcases as [(Huuid & ->)|(Huuid & ->)].
    + left. split; [left; discriminate|]. auto.
    + right. left. split; [left; discriminate|]. eauto.
  - destruct (Hlookup "Failed to process message"
                (fun _ => turn w (sessionId req) (message req) None))
      as (response & Hrun & Hcases).
    exists (Answered response). split; [apply Hplain; [discriminate|exact Hrun]|].
    destruct Hcases as [(Huuid & ->)|(Huuid & ->)].
    + left. split; [left; discriminate|]. auto.
    + right. left. split; [left; discriminate|]. eauto.
  - unfold route. destruct (single part) as [error|[stored|]] eqn:Hsingle.
    + exists (PassedOn error). split; [reflexivity|]. do 3 right. eauto.
    + destruct (Hlookup "Failed to upload file"
                  (fun _ =>
                     Effects.bind (call (RenameSync stored (stored +:+ ".xlsx")))
                       (fun _ =>
                          turn w (sessionId req)
                            (Some (default EmptyString (message req)))
                            (Some (stored +:+ ".xlsx")))))
        as (response & Hrun & Hcases).
      exists (Answered response).
      split; [unfold postUpload; cbn [file withUpload sessionId message];
              rewrite (run_returned _ _ _ _ _ Hrun); reflexivity|].
      destruct Hcases as [(Huuid & ->)|(Huuid & ->)].
      * left. split; [right; eauto|]. auto.
      * right. left. split; [right; eauto|]. eauto.
    + exists (Answered (status_json 400 "No file uploaded")).
      split; [reflexivity|]. right. right. left. auto.
  - destruct (Hlookup "Failed to generate template"
                (fun _ =>
                   Effects.bind (saveTemplate (templateType req))
                     (fun _ =>
                        Effects.bind (call (Download (templateType req)))
                          (fun _ =>
                             ret (json (DownloadBody
                                          (templateType req +:+ "_template.xlsx")))))))
      as (response & Hrun & Hcases).
    exists (Answered response). split; [apply Hplain; [discriminate|exact Hrun]|].
    destruct Hcases as [(Huuid & ->)|(Huuid & ->)].
    + left. split; [left; discriminate|]. auto.
    + right. left. split; [left; discriminate|]. eauto.
Qed.

(** The four answers: a well-formed id, an id that is no uuid, an upload
    without a file, and an upload of a text file. *)
Lemma missing_session_is_not_found_witness :
  let m := Sample.at_index 3 in_progress in
  (exists answer,
      route GetInterview Sample.world Cases.absentRequest None m = (Returned answer, m)
      /\ answer = Answered notFound)
  /\ route PostMessage Sample.world Sample.strayRequest None m
     = (Returned (Answered (status_json 500 "Failed to process message")), m)
  /\ route PostUpload Sample.world Cases.absentRequest (Some Cases.workbookPart) m
     = (Returned (Answered notFound), m)
  /\ route PostUpload Sample.world Cases.absentRequest None m
     = (Returned (Answered (status_json 400 "No file uploaded")), m)
  /\ route PostUpload Sample.world Cases.absentRequest (Some Cases.textPart) m
     = (Returned (PassedOn "Only Excel files are allowed"), m).
Proof.
  intros m. split; [|repeat split; vm_compute; reflexivity].
  destruct (missing_session_is_not_found GetInterview Sample.world Cases.absentRequest
              None m)
    as (answer & Hrun & Hcases).
  { split; [reflexivity|]. intros key Hkey. vm_compute in Hkey.
    injection Hkey as <-. reflexivity. }
  exists answer. split; [exact Hrun|].
  destruct Hcases as [(_ & _ & Hanswer & _)|[(_ & Hnone & _)|[(Hupload & _)|(Hupload & _)]]].
  - exact Hanswer.
  - vm_compute in Hnone. discriminate Hnone.
  - discriminate Hupload.
  - discriminate Hupload.
Defined.

(** C8, as stated, fails: an upload without a file, for a session that
    does not exist, is answered 400. *)
Lemma missing_session_upload_without_file :
  ~ (forall (e : Endpoint) (w : World) (req : Request) (m : Machine),
        interviewSessions (store m) !! sessionId req = None ->
        exists response,
          handle e w req m = (Returned response, m)
          /\ res_status response = 404).
Proof.
  intros Hclaim.
  destruct (Hclaim PostUpload Sample.world Sample.strayRequest
              (Sample.at_index 3 in_progress) eq_refl)
    as (response & Hrun & Hstatus).
  injection Hrun as <-. discriminate Hstatus.
Qed.

End Surface.

(** ** What one turn writes *)

(** Evaluates the comparisons of two categories in the goal. *)
Ltac decide_categories :=
  repeat match goal with
    | |- context [bool_decide (?a = ?b)] =>
        let v := eval vm_compute in (bool_decide (a = b)) in
        change (bool_decide (a = b)) with v
    end; cbn [andb]; cbv iota.

Section Ledgers.
Import JS Schema Effects InterviewService Reasoning Ledger.

Lemma run_addInterviewQuestion {B} (w : World) (q : InterviewQuestion)
    (k : InterviewQuestion -> IO B) (m : Machine) :
  bind (Storage.addInterviewQuestion w q) k m
  = k (stored w q)
      (update_store (Storage.withQuestions (fun rows => rows ++ [stored w q])) m).
Proof. reflexivity. Qed.

Lemma run_addExcelEvaluation {B} (evaluation : ExcelEvaluation)
    (k : ExcelEvaluation -> IO B) (m : Machine) :
  bind (Storage.addExcelEvaluation evaluation) k m
  = k evaluation
      (update_store (Storage.withEvaluations (fun rows => rows ++ [evaluation])) m).
Proof. reflexivity. Qed.

Lemma run_getCurrentQuestionIndex {B} (sessionId : string) (k : Z -> IO B)
    (m : Machine) (session : InterviewSession) :
  interviewSessions (store m) !! sessionId = Some session ->
  bind (getCurrentQuestionIndex sessionId) k m = k (currentQuestionIndex session) m.
Proof.
  intros Hsession. unfold getCurrentQuestionIndex.
  rewrite run_bind, run_getInterviewSession, Hsession. reflexivity.
Qed.

Lemma run_getLatestQuestionId {B} (sessionId : string) (k : string -> IO B)
    (m : Machine) :
  bind (getLatestQuestionId sessionId) k m
  = k (match last (Storage.sessionQuestions sessionId (store m)) with
       | Some q => q_id q
       | None => EmptyString
       end) m.
Proof. reflexivity. Qed.

(** Scoring an answer writes no chat message and touches no session.  It
    either throws before it writes anything, or returns the next index
    after adding one question row for the current index, with one
    spreadsheet evaluation when the answer is a file for a practical task;
    or, for a practical task without a file, it returns the same index
    and adds nothing. *)
Lemma scoreAnswer_effect (w : World) (sessionId : string) (session : InterviewSession)
    (entry : InterviewQuestionTemplate) (userMessage : string)
    (filePath : option string) (m m1 : Machine) (scored : Outcome (string * Z)) :
  interviewSessions (store m) !! sessionId = Some session ->
  scoreAnswer w sessionId session entry userMessage filePath m = (scored, m1) ->
  interviewSessions (store m1) = interviewSessions (store m)
  /\ chatMessages (store m1) = chatMessages (store m)
  /\ calls m1 = calls m ++ scoringCalls entry userMessage filePath
  /\ match scored with
     | Thrown _ =>
         interviewQuestions (store m1) = interviewQuestions (store m)
         /\ excelEvaluations (store m1) = excelEvaluations (store m)
     | Returned (_, next) =>
         (next = currentQuestionIndex session
          /\ t_category entry = practical /\ truthy filePath = false
          /\ interviewQuestions (store m1) = interviewQuestions (store m)
          /\ excelEvaluations (store m1) = excelEvaluations (store m))
         \/ (next = currentQuestionIndex session + 1
             /\ exists row,
                 interviewQuestions (store m1) = interviewQuestions (store m) ++ [row]
                 /\ q_id row = gen_random_uuid w
                 /\ q_sessionId row = sessionId
                 /\ questionIndex row = currentQuestionIndex session
                 /\ category row = t_category entry
                 /\ userAnswer row = Some userMessage
                 /\ isCompleted row = true
                 /\ fileUploaded row
                    = (bool_decide (t_category entry = practical) && truthy filePath)
                 /\ ((t_category entry = practical
                      /\ exists evaluation,
                          excelEvaluations (store m1)
                          = excelEvaluations (store m) ++ [evaluation])
                     \/ (t_category entry <> practical
                         /\ excelEvaluations (store m1) = excelEvaluations (store m))))
     end.
Proof.
  intros Hsession. unfold scoreAnswer, scoringCalls.
  destruct (t_category entry) eqn:Hcategory; decide_categories.
  - (* conceptual *)
    rewrite run_call, run_answer.
    destruct (evaluateConceptualAnswer w _ _ _) as [evaluation|];
      [|intros [= <- <-]; machine_simpl; auto].
    rewrite run_addInterviewQuestion. unfold ret. intros [= <- <-]. machine_simpl.
    split; [reflexivity|]. split; [reflexivity|]. split; [reflexivity|].
    right. split; [reflexivity|].
    eexists. split; [reflexivity|]. cbn. rewrite Hcategory.
    repeat (split; [reflexivity|]). right. split; [discriminate|reflexivity].
  - (* practical *)
    destruct (truthy filePath) eqn:Hfile.
    + unfold evaluatePracticalTask. rewrite run_bind, run_call, run_bind, run_answer.
      destruct (ExcelProcessor.evaluateExcelFile _ _ _) as [evaluation|];
        [|intros [= <- <-]; machine_simpl; auto].
      rewrite run_bind, (run_getCurrentQuestionIndex _ _ _ session)
        by (machine_simpl; exact Hsession).
      machine_simpl.
      rewrite run_bind, run_addInterviewQuestion, run_bind, run_getLatestQuestionId,
        run_bind, run_addExcelEvaluation, !run_ret.
      unfold ret. intros [= <- <-]. machine_simpl.
      split; [reflexivity|]. split; [reflexivity|]. split; [reflexivity|].
      right. split; [reflexivity|].
      eexists. split; [reflexivity|]. cbn. rewrite Hcategory.
      repeat (split; [reflexivity|]). left. split; [reflexivity|].
      eexists. reflexivity.
    + unfold ret. intros [= <- <-]. machine_simpl. rewrite app_nil_r.
      split; [reflexivity|]. split; [reflexivity|]. split; [reflexivity|].
      left. auto 10.
  - (* explanation *)
    rewrite run_call, run_answer.
    destruct (evaluateExplanation w _ _) as [evaluation|];
      [|intros [= <- <-]; machine_simpl; auto].
    rewrite run_addInterviewQuestion. unfold ret. intros [= <- <-]. machine_simpl.
    split; [reflexivity|]. split; [reflexivity|]. split; [reflexivity|].
    right. split; [reflexivity|].
    eexists. split; [reflexivity|]. cbn. rewrite Hcategory.
    repeat (split; [reflexivity|]). right. split; [discriminate|reflexivity].
  - (* behavioral *)
    rewrite run_addInterviewQuestion. unfold ret. intros [= <- <-]. machine_simpl.
    rewrite app_nil_r.
    split; [reflexivity|]. split; [reflexivity|]. split; [reflexivity|].
    right. split; [reflexivity|].
    eexists. split; [reflexivity|]. cbn. rewrite Hcategory.
    repeat (split; [reflexivity|]). right. split; [discriminate|reflexivity].
Qed.

(** The completion routine asks for the final report and writes no
    question row and no spreadsheet evaluation.  It throws before it
    writes anything, or it marks the session completed, stores the
    overall score of the rows of the session and appends its
    announcement. *)
Lemma completeInterview_effect (w : World) (sessionId : string) (m m1 : Machine)
    (session : InterviewSession) (outcome : Outcome unit) :
  interviewSessions (store m) !! sessionId = Some session ->
  completeInterview w sessionId m = (outcome, m1) ->
  interviewQuestions (store m1) = interviewQuestions (store m)
  /\ excelEvaluations (store m1) = excelEvaluations (store m)
  /\ (exists report, calls m1 = calls m ++ [report] /\ isReport report = true)
  /\ match outcome with
     | Thrown _ =>
         interviewSessions (store m1) = interviewSessions (store m)
         /\ chatMessages (store m1) = chatMessages (store m)
     | Returned _ =>
         exists marked announcement,
           interviewSessions (store m1)
           = <[sessionId := marked]> (interviewSessions (store m))
           /\ status marked = completed
           /\ currentQuestionIndex marked = currentQuestionIndex session
           /\ totalQuestions marked = totalQuestions session
           /\ overallScore marked
              = Some (Number_toString w
                        (finalScore (Storage.sessionQuestions sessionId (store m))))
           /\ chatMessages (store m1) = chatMessages (store m) ++ [announcement]
           /\ msg_sessionId announcement = sessionId
           /\ sender announcement = ai
           /\ metadata announcement
              = CompleteMetadata true
                  (finalScore (Storage.sessionQuestions sessionId (store m)))
     end.
Proof.
  intros Hsession. unfold completeInterview.
  rewrite run_getSessionQuestions, run_call, run_answer.
  destruct (generateFinalReport w _ _ _ _ _ _) as [report|].
  2: { intros [= <- <-]; machine_simpl. split; [reflexivity|]. split; [reflexivity|].
       split; [eexists; split; reflexivity|]. auto. }
  rewrite run_updateInterviewSession. machine_simpl. rewrite Hsession.
  rewrite run_addChatMessage. unfold ret. intros [= <- <-]. machine_simpl.
  split; [reflexivity|]. split; [reflexivity|].
  split; [eexists; split; reflexivity|].
  eexists _, _. split; [reflexivity|]. cbn. repeat split.
Qed.

(** Everything one turn on an existing session does to the tables and to
    the log of calls. *)
Lemma turn_effect (w : World) (sessionId userMessage : string)
    (filePath : option string) (m m' : Machine) (session : InterviewSession)
    (result : Outcome (option InterviewSession * list ChatMessage)) :
  interviewSessions (store m) !! sessionId = Some session ->
  processUserMessage w sessionId userMessage filePath m = (result, m') ->
  exists rows evaluations replies reports,
    chatMessages (store m')
    = chatMessages (store m) ++ messageData sessionId userMessage filePath :: replies
    /\ interviewQuestions (store m') = interviewQuestions (store m) ++ rows
    /\ excelEvaluations (store m') = excelEvaluations (store m) ++ evaluations
    /\ calls m'
       = calls m ++ turnCalls (currentQuestionIndex session) userMessage filePath
         ++ reports
    /\ (length evaluations <= length rows <= 1)%nat
    /\ (length reports <= 1)%nat
    /\ Forall (fun c => isReport c = true) reports
    /\ Forall (fun row =>
                 q_sessionId row = sessionId
                 /\ questionIndex row = currentQuestionIndex session
                 /\ exists entry,
                     index QUESTION_TEMPLATES (currentQuestionIndex session) = Some entry
                     /\ category row = t_category entry) rows
    /\ Forall (fun reply => msg_sessionId reply = sessionId /\ sender reply = ai) replies
    /\ match result with
       | Thrown _ =>
           replies = [] /\ interviewSessions (store m') = interviewSessions (store m)
       | Returned (returned, messages) =>
           exists kept,
             returned = Some kept
             /\ interviewSessions (store m')
                = <[sessionId := kept]> (interviewSessions (store m))
             /\ messages = Storage.sessionMessages sessionId (store m')
             /\ totalQuestions kept = totalQuestions session
             /\ ((currentQuestionIndex session = -1
                  /\ currentQuestionIndex kept = 0
                  /\ status kept = status session
                  /\ rows = []
                  /\ exists reply, replies = [reply])
                 \/ (0 <= currentQuestionIndex session < script_length
                     /\ currentQuestionIndex kept
                        = currentQuestionIndex session + Z.of_nat (length rows)
                     /\ (rows = [] ->
                         truthy filePath = false
                         /\ exists entry,
                             index QUESTION_TEMPLATES (currentQuestionIndex session)
                             = Some entry
                             /\ t_category entry = practical)
                     /\ ((currentQuestionIndex kept = script_length
                          /\ status kept = completed
                          /\ exists announcement reply,
                              replies = [announcement; reply]
                              /\ metadata announcement
                                 = CompleteMetadata true
                                     (finalScore
                                        (Storage.sessionQuestions sessionId (store m')))
                              /\ overallScore kept
                                 = Some (Number_toString w
                                           (finalScore
                                              (Storage.sessionQuestions sessionId
                                                 (store m'))))
                              /\ messageType reply = text)
                         \/ (currentQuestionIndex kept < script_length
                             /\ status kept = in_progress
                             /\ reports = []
                             /\ exists next reply,
                                 index QUESTION_TEMPLATES (currentQuestionIndex kept)
                                 = Some next
                                 /\ messageType reply = text
                                 /\ includes (content reply) (t_question next) = true
                                 /\ replies
                                    = reply :: (if offersTemplate next
                                                then [templateMessage sessionId next]
                                                else [])))))
       end.
Proof.
  intros Hsession. unfold processUserMessage, turnCalls.
  rewrite run_getInterviewSession, Hsession, run_addChatMessage.
  destruct (currentQuestionIndex session =? -1) eqn:Hstart.
  - apply Z.eqb_eq in Hstart. rewrite Hstart.
    change (index QUESTION_TEMPLATES (-1)) with (@None InterviewQuestionTemplate).
    cbv iota.
    destruct (index QUESTION_TEMPLATES 0) as [firstQuestion|];
      [|intros [= <- <-]; machine_simpl; exists [], [], [], []; rewrite !app_nil_r;
        cbn; repeat split; auto; try lia; try solve [constructor]].
    rewrite run_updateInterviewSession. machine_simpl. rewrite Hsession.
    rewrite run_addChatMessage, run_getSessionMessages. unfold ret.
    intros [= <- <-]. machine_simpl. exists [], []. eexists [_], [].
    rewrite !app_nil_r, <- app_assoc. split; [reflexivity|].
    split; [reflexivity|]. split; [reflexivity|]. split; [reflexivity|].
    split; [cbn; lia|]. split; [cbn; lia|]. split; [constructor|].
    split; [constructor|]. split; [repeat constructor|].
    eexists. split; [reflexivity|]. split; [reflexivity|]. split; [reflexivity|].
    split; [reflexivity|]. left. split; [reflexivity|]. split; [reflexivity|].
    split; [reflexivity|]. split; [reflexivity|]. eexists. reflexivity.
  - apply Z.eqb_neq in Hstart.
    destruct (index QUESTION_TEMPLATES (currentQuestionIndex session))
      as [entry|] eqn:Hentry;
      [|intros [= <- <-]; machine_simpl; exists [], [], [], []; rewrite !app_nil_r;
        cbn; repeat split; auto; try lia; try solve [constructor]].
    pose proof (index_bounds _ _ _ Hentry) as Hrange. fold script_length in Hrange.
    unfold bind at 1.
    destruct (scoreAnswer _ _ _ _ _ _ _) as [scored m1] eqn:Hscored.
    apply scoreAnswer_effect in Hscored; [|machine_simpl; exact Hsession].
    machine_simpl. destruct Hscored as (Hsessions1 & Hchat1 & Hcalls1 & Hscored).
    assert (Hsession1 : interviewSessions (store m1) !! sessionId = Some session)
      by (rewrite Hsessions1; exact Hsession).
    destruct scored as [[aiResponse nextQuestionIndex]|error].
    2: { destruct Hscored as (Hq & He). intros [= <- <-].
         exists [], [], [], []. rewrite !app_nil_r, Hchat1, Hq, He, Hsessions1, Hcalls1.
         cbn; repeat split; auto; try lia; try solve [constructor]. }
    assert (Hledger : exists rows evaluations,
               interviewQuestions (store m1) = interviewQuestions (store m) ++ rows
               /\ excelEvaluations (store m1) = excelEvaluations (store m) ++ evaluations
               /\ (length evaluations <= length rows <= 1)%nat
               /\ nextQuestionIndex
                  = currentQuestionIndex session + Z.of_nat (length rows)
               /\ (rows = [] ->
                   truthy filePath = false
                   /\ exists entry0,
                       Some entry = Some entry0 /\ t_category entry0 = practical)
               /\ Forall (fun row =>
                            q_sessionId row = sessionId
                            /\ questionIndex row = currentQuestionIndex session
                            /\ exists entry0,
                                Some entry = Some entry0
                                /\ category row = t_category entry0) rows).
    { destruct Hscored as [(-> & Hpractical & Hfile & Hq & He)
                          |(-> & row & Hq & _ & Hsid & Hidx & Hcat & _ & _ & _ & Hev)].
      - exists [], []. rewrite !app_nil_r. cbn.
        split; [exact Hq|]. split; [exact He|]. split; [lia|]. split; [lia|].
        split; [|constructor]. intros _. split; [exact Hfile|]. exists entry. auto.
      - destruct Hev as [(_ & evaluation & He)|(_ & He)].
        + exists [row], [evaluation]. cbn.
          split; [exact Hq|]. split; [exact He|]. split; [lia|]. split; [lia|].
          split; [discriminate|].
          constructor; [|constructor]. split; [exact Hsid|]. split; [exact Hidx|].
          exists entry. auto.
        + exists [row], []. rewrite app_nil_r. cbn.
          split; [exact Hq|]. split; [exact He|]. split; [lia|]. split; [lia|].
          split; [discriminate|].
          constructor; [|constructor]. split; [exact Hsid|]. split; [exact Hidx|].
          exists entry. auto. }
    destruct Hledger as (rows & evaluations & Hq1 & He1 & Hlen & Hnext & Hnone & Hrows).
    clear Hscored. cbv beta iota.
    destruct (script_length <=? nextQuestionIndex) eqn:Hdone.
    + apply Z.leb_le in Hdone. rewrite run_bind. unfold bind at 1.
      destruct (completeInterview w sessionId m1) as [outcome m2] eqn:Hcomplete.
      apply (completeInterview_effect _ _ _ _ _ _ Hsession1) in Hcomplete.
      destruct Hcomplete as (Hq2 & He2 & (report & Hcalls2 & Hreport) & Hcomplete).
      destruct outcome as [[]|error].
      2: { destruct Hcomplete as (Hsessions2 & Hchat2). intros [= <- <-].
           exists rows, evaluations, [], [report].
           rewrite Hchat2, Hchat1, Hq2, Hq1, He2, He1, Hsessions2, Hsessions1,
             Hcalls2, Hcalls1, <- app_assoc.
           cbn; repeat split; auto; try lia; try solve [repeat constructor; auto]. }
      destruct Hcomplete as (marked & announcement & Hsessions2 & Hstatus
                             & Hindex & Htotal & Hoverall & Hchat2 & Hsid & Hsender
                             & Hmeta).
      rewrite run_ret. cbv beta iota.
      rewrite run_updateInterviewSession, Hsessions2, lookup_insert_eq.
      rewrite run_addChatMessage. cbn [andb]. rewrite run_ret, run_getSessionMessages.
      unfold ret. intros [= <- <-]. machine_simpl.
      exists rows, evaluations. eexists [announcement; _], [report].
      rewrite Hsessions2, insert_insert_eq, Hsessions1, Hchat2, Hchat1, Hq2, Hq1,
        He2, He1, Hcalls2, Hcalls1. machine_simpl. rewrite <- !app_assoc.
      split; [reflexivity|]. split; [reflexivity|]. split; [reflexivity|].
      split; [reflexivity|].
      split; [exact Hlen|]. split; [cbn; lia|]. split; [repeat constructor; exact Hreport|].
      split; [exact Hrows|].
      split; [repeat constructor; assumption|].
      eexists. split; [reflexivity|]. split; [reflexivity|]. split; [reflexivity|].
      split; [exact Htotal|]. right. split; [exact Hrange|]. cbn.
      split; [exact Hnext|]. split; [exact Hnone|]. left. split; [lia|].
      split; [reflexivity|].
      unfold Storage.sessionQuestions, Storage.orderByIndex in Hmeta, Hoverall.
      eexists _, _. split; [reflexivity|]. rewrite Hq2.
      split; [exact Hmeta|]. split; [exact Hoverall|reflexivity].
    + apply Z.leb_gt in Hdone.
      destruct (index QUESTION_TEMPLATES nextQuestionIndex) as [nextQuestion|] eqn:Hnq.
      2: { intros [= <- <-]. exists rows, evaluations, [], [].
           rewrite Hchat1, Hq1, He1, Hsessions1, Hcalls1, app_nil_r.
           cbn; repeat split; auto; try lia; try solve [constructor]. }
      rewrite run_ret. cbv beta iota.
      rewrite run_updateInterviewSession, Hsession1.
      rewrite run_addChatMessage. cbn [andb].
      apply Z.ltb_lt in Hdone. rewrite Hdone.
      assert (Hquoted : forall aiResponse : string,
                 includes (content (textMessage sessionId
                   (if offersTemplate nextQuestion
                    then (aiResponse +:+ nl +:+ nl +:+ "Let's move to our next question:"
                          +:+ nl +:+ nl +:+ t_question nextQuestion) +:+ nl +:+ nl
                         +:+ "I'll provide you with a template file to work with. Please download it, complete the task, and upload your solution."
                    else aiResponse +:+ nl +:+ nl +:+ "Let's move to our next question:"
                         +:+ nl +:+ nl +:+ t_question nextQuestion)))
                   (t_question nextQuestion) = true).
      { intros a. cbn [content textMessage]. destruct (offersTemplate nextQuestion).
        - rewrite !append_assoc. do 6 apply includes_skip.
          apply includes_prefix, prefix_append.
        - do 6 apply includes_skip. apply includes_refl. }
      apply Z.ltb_lt in Hdone.
      destruct (offersTemplate nextQuestion) eqn:Hoffer.
      * rewrite run_bind, run_addChatMessage, run_ret, run_getSessionMessages.
        unfold ret. intros [= <- <-]. machine_simpl.
        exists rows, evaluations. eexists [_; _], [].
        rewrite Hsessions1, Hchat1, Hq1, He1, Hcalls1, app_nil_r. rewrite <- !app_assoc.
        split; [reflexivity|]. split; [reflexivity|]. split; [reflexivity|].
        split; [reflexivity|].
        split; [exact Hlen|]. split; [cbn; lia|]. split; [constructor|].
        split; [exact Hrows|].
        split; [repeat constructor|].
        eexists. split; [reflexivity|]. split; [reflexivity|]. split; [reflexivity|].
        split; [reflexivity|]. right. split; [exact Hrange|]. cbn.
        split; [exact Hnext|]. split; [exact Hnone|]. right. split; [lia|].
        split; [reflexivity|]. split; [reflexivity|].
        exists nextQuestion. eexists. split; [exact Hnq|]. split; [|split].
        3: { rewrite Hoffer. reflexivity. }
        { reflexivity. }
        { apply (Hquoted aiResponse). }
      * rewrite run_ret, run_getSessionMessages.
        unfold ret. intros [= <- <-]. machine_simpl.
        exists rows, evaluations. eexists [_], [].
        rewrite Hsessions1, Hchat1, Hq1, He1, Hcalls1, app_nil_r. rewrite <- !app_assoc.
        split; [reflexivity|]. split; [reflexivity|]. split; [reflexivity|].
        split; [reflexivity|].
        split; [exact Hlen|]. split; [cbn; lia|]. split; [constructor|].
        split; [exact Hrows|].
        split; [repeat constructor|].
        eexists. split; [reflexivity|]. split; [reflexivity|]. split; [reflexivity|].
        split; [reflexivity|]. right. split; [exact Hrange|]. cbn.
        split; [exact Hnext|]. split; [exact Hnone|]. right. split; [lia|].
        split; [reflexivity|]. split; [reflexivity|].
        exists nextQuestion. eexists. split; [exact Hnq|]. split; [|split].
        3: { rewrite Hoffer. reflexivity. }
        { reflexivity. }
        { apply (Hquoted aiResponse). }
Qed.

End Ledgers.

(** ** The order of the rows of a session *)

Section Ordering.
Import Schema Storage.

Lemma insertByIndex_Permutation (q : InterviewQuestion) (sorted : list InterviewQuestion) :
  insertByIndex q sorted ≡ₚ q :: sorted.
Proof.
  induction sorted as [|q' rest IH]; cbn [insertByIndex]; [reflexivity|].
  destruct (questionIndex q <? questionIndex q'); [reflexivity|].
  rewrite IH. apply Permutation_swap.
Qed.

Lemma orderByIndex_snoc (rows : list InterviewQuestion) (q : InterviewQuestion) :
  orderByIndex (rows ++ [q]) = insertByIndex q (orderByIndex rows).
Proof. unfold orderByIndex. rewrite foldl_app. reflexivity. Qed.

(** Ordering the rows neither drops nor repeats one. *)
Lemma orderByIndex_Permutation (rows : list InterviewQuestion) :
  orderByIndex rows ≡ₚ rows.
Proof.
  induction rows as [|q rows IH] using rev_ind; [reflexivity|].
  rewrite orderByIndex_snoc, insertByIndex_Permutation, IH.
  apply Permutation_cons_append.
Qed.

(** A row whose index is not below any other goes last. *)
Lemma insertByIndex_last (q : InterviewQuestion) (sorted : list InterviewQuestion) :
  Forall (fun q' => questionIndex q' <= questionIndex q) sorted ->
  insertByIndex q sorted = sorted ++ [q].
Proof.
  induction 1 as [|q' rest Hle _ IH]; cbn [insertByIndex]; [reflexivity|].
  destruct (questionIndex q <? questionIndex q') eqn:Hlt;
    [apply Z.ltb_lt in Hlt; lia|].
  rewrite IH. reflexivity.
Qed.

End Ordering.

(** Filtering keeps a list all of whose elements pass. *)
Lemma filter_all_same {A} (P : A -> Prop) `{forall x, Decision (P x)} (l : list A) :
  Forall P l -> filter P l = l.
Proof.
  induction 1 as [|x rest Hx _ IH]; [reflexivity|].
  rewrite filter_cons_True by exact Hx. rewrite IH. reflexivity.
Qed.

(** ** Turns, as the tables and the log of calls show them *)

Section Controller.
Import JS Schema Effects InterviewService Reasoning Ledger Trajectory.

Lemma extends_refl (rows : nat) (m : Machine) : extends rows m m.
Proof. unfold extends. repeat split; try reflexivity; lia. Qed.

Lemma extends_trans (a b : nat) (m1 m2 m3 : Machine) :
  extends a m1 m2 -> extends b m2 m3 -> extends (a + b) m1 m3.
Proof.
  intros (Hc1 & Hq1 & He1 & Hn1 & Hx1) (Hc2 & Hq2 & He2 & Hn2 & Hx2).
  unfold extends. repeat split; try (etrans; eassumption); lia.
Qed.

(** A turn extends the tables, by at most one question row and one
    spreadsheet evaluation; without the session it changes nothing. *)
Lemma turn_extends (t : Turn) (m : Machine) : extends 1 m (after t m).
Proof.
  unfold after.
  destruct (interviewSessions (store m) !! turn_sessionId t) as [session|] eqn:Hsession.
  - destruct (processUserMessage _ _ _ _ m) as [result m'] eqn:Hrun.
    destruct (turn_effect _ _ _ _ _ _ _ _ Hsession Hrun)
      as (rows & evaluations & replies & reports & Hchat & Hq & He & _ & Hlen & _).
    unfold extends. cbn [snd]. rewrite Hchat, Hq, He, !length_app.
    split; [apply prefix_app_r; reflexivity|].
    split; [apply prefix_app_r; reflexivity|].
    split; [apply prefix_app_r; reflexivity|]. lia.
  - unfold processUserMessage. rewrite run_getInterviewSession, Hsession.
    destruct (Postgres.uuid_in (turn_sessionId t)); apply extends_refl.
Qed.

(** X3.  Whatever turns are taken, on any sessions, returning or
    throwing, every later state of the chat log, of the question rows
    and of the spreadsheet evaluations extends the earlier one: nothing
    logged is ever altered, reordered or removed, and [n] turns add at
    most [n] question rows and [n] spreadsheet evaluations. *)
Theorem tables_only_grow (turns : list Turn) :
  forall m : Machine, Forall (extends (length turns) m) (states turns m).
Proof.
  induction turns as [|t rest IH]; intros m; cbn [states length].
  - constructor; [apply extends_refl|constructor].
  - constructor; [apply extends_refl|].
    eapply Forall_impl; [apply IH|]. intros m' Hrest. cbn beta in Hrest.
    exact (extends_trans 1 (length rest) _ _ _ (turn_extends t m) Hrest).
Qed.

(** X4.  A turn on an existing session that throws has logged the
    message of the user and no reply, and has left every session as it
    was; it may have stored the question row of the answer before it
    threw. *)
Theorem failed_turn_keeps_only_the_message
    (w : World) (sessionId userMessage : string) (filePath : option string)
    (m m' : Machine) (session : InterviewSession) (error : string) :
  interviewSessions (store m) !! sessionId = Some session ->
  processUserMessage w sessionId userMessage filePath m = (Thrown error, m') ->
  interviewSessions (store m') = interviewSessions (store m)
  /\ chatMessages (store m')
     = chatMessages (store m) ++ [messageData sessionId userMessage filePath]
  /\ exists rows,
       interviewQuestions (store m') = interviewQuestions (store m) ++ rows
       /\ (length rows <= 1)%nat.
Proof.
  intros Hsession Hrun.
  destruct (turn_effect _ _ _ _ _ _ _ _ Hsession Hrun)
    as (rows & evaluations & replies & reports & Hchat & Hq & _ & _ & Hlen & _ & _
        & _ & _ & -> & Hsessions).
  split; [exact Hsessions|]. split; [exact Hchat|]. exists rows.
  split; [exact Hq|lia].
Qed.

(** With the AI service down, the answer to the first question is lost
    but for the message. *)
Lemma failed_turn_keeps_only_the_message_witness :
  let run :=
    processUserMessage Cases.offline "7d9f" "It searches to the right only." None
      (Sample.at_index 0 in_progress) in
  (exists error, fst run = Thrown error)
  /\ interviewSessions (store (snd run))
     = {[ "7d9f" := Sample.session "7d9f" 0 in_progress ]}
  /\ chatMessages (store (snd run))
     = [messageData "7d9f" "It searches to the right only." None]
  /\ exists rows, interviewQuestions (store (snd run)) = [] ++ rows
                  /\ (length rows <= 1)%nat.
Proof.
  intros run. split; [eexists; reflexivity|].
  exact (failed_turn_keeps_only_the_message Cases.offline "7d9f"
           "It searches to the right only." None (Sample.at_index 0 in_progress)
           (snd run) (Sample.session "7d9f" 0 in_progress)
           "Failed to evaluate conceptual answer" eq_refl
           ltac:(vm_compute; reflexivity)).
Defined.

(** X5.  A turn that returns on a session past the welcome moves the
    index by exactly the number of question rows it stored, none or one;
    a stored row carries the session, the index the session had and the
    category of the script entry at that index; and no row is stored
    only when that entry is a practical task and no file came with the
    message. *)
Theorem returning_turn_counts_rows
    (w : World) (sessionId userMessage : string) (filePath : option string)
    (m m' : Machine) (session : InterviewSession)
    (returned : option InterviewSession) (messages : list ChatMessage) :
  interviewSessions (store m) !! sessionId = Some session ->
  0 <= currentQuestionIndex session ->
  processUserMessage w sessionId userMessage filePath m
  = (Returned (returned, messages), m') ->
  exists kept rows,
    returned = Some kept
    /\ interviewSessions (store m') !! sessionId = Some kept
    /\ messages = Storage.sessionMessages sessionId (store m')
    /\ interviewQuestions (store m') = interviewQuestions (store m) ++ rows
    /\ (length rows <= 1)%nat
    /\ currentQuestionIndex kept
       = currentQuestionIndex session + Z.of_nat (length rows)
    /\ Forall (fun row =>
                 q_sessionId row = sessionId
                 /\ questionIndex row = currentQuestionIndex session
                 /\ exists entry,
                     index QUESTION_TEMPLATES (currentQuestionIndex session) = Some entry
                     /\ category row = t_category entry) rows
    /\ (rows = [] ->
        truthy filePath = false
        /\ exists entry,
            index QUESTION_TEMPLATES (currentQuestionIndex session) = Some entry
            /\ t_category entry = practical).
Proof.
  intros Hsession Hpast Hrun.
  destruct (turn_effect _ _ _ _ _ _ _ _ Hsession Hrun)
    as (rows & evaluations & replies & reports & _ & Hq & _ & _ & Hlen & _ & _
        & Hrows & _ & kept & -> & Hsessions & -> & _ & Hcases).
  exists kept, rows. split; [reflexivity|].
  split; [rewrite Hsessions; apply lookup_insert_eq|]. split; [reflexivity|].
  split; [exact Hq|]. split; [lia|].
  destruct Hcases as [(Hwelcome & _)|(_ & Hindex & Hnone & _)]; [lia|].
  split; [exact Hindex|]. split; [exact Hrows|exact Hnone].
Qed.

(** The second answer of an interview. *)
Lemma returning_turn_counts_rows_witness :
  let run :=
    processUserMessage Sample.world "7d9f" "Rows, then values." None
      (Sample.at_index 1 in_progress) in
  exists kept rows,
    fst run = Returned (Some kept, Storage.sessionMessages "7d9f" (store (snd run)))
    /\ interviewSessions (store (snd run)) !! "7d9f" = Some kept
    /\ interviewQuestions (store (snd run)) = [] ++ rows
    /\ (length rows <= 1)%nat
    /\ currentQuestionIndex kept = 1 + Z.of_nat (length rows).
Proof.
  intros run.
  destruct (returning_turn_counts_rows Sample.world "7d9f" "Rows, then values." None
              (Sample.at_index 1 in_progress) (snd run)
              (Sample.session "7d9f" 1 in_progress)
              (Some (Sample.session "7d9f" 2 in_progress))
              (Storage.sessionMessages "7d9f" (store (snd run)))
              eq_refl ltac:(cbn; lia) ltac:(vm_compute; reflexivity))
    as (kept & rows & Hkept & Hstored & _ & Hrows & Hlen & Hindex & _).
  exists kept, rows. split; [rewrite <- Hkept; reflexivity|].
  split; [exact Hstored|]. split; [exact Hrows|]. split; [exact Hlen|exact Hindex].
Defined.

(** X6.  The turn that answers the last question of the script, when it
    returns, completes the session.  It has stored the row of that answer
    before the final score was computed, so the overall score it keeps
    in the session and announces in the chat is the weighted score of
    the rows of the session with the last answer among them.  The
    announcement is logged before the reply to the answer. *)
Theorem final_score_counts_the_last_answer
    (w : World) (sessionId userMessage : string) (filePath : option string)
    (m m' : Machine) (session : InterviewSession)
    (returned : option InterviewSession) (messages : list ChatMessage) :
  interviewSessions (store m) !! sessionId = Some session ->
  currentQuestionIndex session = script_length - 1 ->
  processUserMessage w sessionId userMessage filePath m
  = (Returned (returned, messages), m') ->
  exists kept row announcement reply,
    returned = Some kept
    /\ status kept = completed
    /\ currentQuestionIndex kept = script_length
    /\ interviewQuestions (store m') = interviewQuestions (store m) ++ [row]
    /\ questionIndex row = script_length - 1
    /\ row ∈ Storage.sessionQuestions sessionId (store m')
    /\ overallScore kept
       = Some (Number_toString w
                 (finalScore (Storage.sessionQuestions sessionId (store m'))))
    /\ chatMessages (store m')
       = chatMessages (store m)
         ++ [messageData sessionId userMessage filePath; announcement; reply]
    /\ metadata announcement
       = CompleteMetadata true
           (finalScore (Storage.sessionQuestions sessionId (store m'))).
Proof.
  intros Hsession Hlast Hrun.
  destruct (turn_effect _ _ _ _ _ _ _ _ Hsession Hrun)
    as (rows & evaluations & replies & reports & Hchat & Hq & _ & _ & Hlen & _ & _
        & Hrows & _ & kept & -> & Hsessions & -> & _ & Hcases).
  rewrite Hlast in Hcases, Hrows. change script_length with 8 in *.
  destruct Hcases as [(Hwelcome & _)|(_ & Hindex & Hnone & Hcases)]; [lia|].
  destruct rows as [|row [|]]; [| |cbn in Hlen; lia].
  { destruct (Hnone eq_refl) as (_ & entry & Hentry & Hcategory).
    vm_compute in Hentry. injection Hentry as <-. discriminate Hcategory. }
  cbn in Hindex.
  destruct Hcases as [(_ & Hstatus & announcement & reply & -> & Hmeta & Hoverall & _)
                     |(Hbelow & _)]; [|lia].
  exists kept, row, announcement, reply. split; [reflexivity|].
  split; [exact Hstatus|]. split; [lia|]. split; [exact Hq|].
  apply Forall_inv in Hrows. destruct Hrows as (Hsid & Hrow & _).
  split; [exact Hrow|]. split; [|split; [exact Hoverall|split; [exact Hchat|exact Hmeta]]].
  unfold Storage.sessionQuestions. rewrite orderByIndex_Permutation, Hq.
  apply list_elem_of_filter. split; [exact Hsid|].
  apply elem_of_app. right. apply list_elem_of_singleton. reflexivity.
Qed.

(** The last answer of the sample interview: with it the conceptual
    average is 70 and the overall score 78. *)
Lemma final_score_counts_the_last_answer_witness :
  let run :=
    processUserMessage Sample.world "7d9f" "Freeze the top row." None Sample.scored in
  exists kept row announcement reply messages,
    fst run = Returned (Some kept, messages)
    /\ status kept = completed
    /\ currentQuestionIndex kept = 8
    /\ interviewQuestions (store (snd run))
       = interviewQuestions (store Sample.scored) ++ [row]
    /\ questionIndex row = 7
    /\ overallScore kept = Some "78"
    /\ chatMessages (store (snd run))
       = [messageData "7d9f" "Freeze the top row." None; announcement; reply]
    /\ metadata announcement = CompleteMetadata true 78%float.
Proof.
  intros run. subst run.
  destruct (processUserMessage Sample.world "7d9f" "Freeze the top row." None
              Sample.scored) as [[[returned messages]|error] m'] eqn:Hrun;
    [|vm_compute in Hrun; discriminate Hrun].
  destruct (final_score_counts_the_last_answer Sample.world "7d9f"
              "Freeze the top row." None Sample.scored m'
              (Sample.session "7d9f" 7 in_progress) returned messages
              eq_refl eq_refl Hrun)
    as (kept & row & announcement & reply & -> & Hstatus & Hindex & Hq & Hrow
        & _ & Hoverall & Hchat & Hmeta).
  exists kept, row, announcement, reply, messages.
  split; [reflexivity|]. split; [exact Hstatus|].
  split; [exact Hindex|]. split; [exact Hq|]. split; [exact Hrow|].
  vm_compute in Hrun. injection Hrun as <- <- <-.
  split; [rewrite Hoverall; vm_compute; reflexivity|].
  split; [exact Hchat|]. rewrite Hmeta. vm_compute. reflexivity.
Defined.

(** X7.  A turn that returns on a session past the welcome and leaves it
    in progress replies, right after the message of the user, with one
    AI text message that quotes the question the session now stands at;
    a template message follows exactly when that question is a practical
    task with a task type, and nothing else is logged. *)
Theorem reply_quotes_the_question_at_hand
    (w : World) (sessionId userMessage : string) (filePath : option string)
    (m m' : Machine) (session kept : InterviewSession)
    (messages : list ChatMessage) :
  interviewSessions (store m) !! sessionId = Some session ->
  0 <= currentQuestionIndex session ->
  processUserMessage w sessionId userMessage filePath m
  = (Returned (Some kept, messages), m') ->
  currentQuestionIndex kept < script_length ->
  exists next reply,
    index QUESTION_TEMPLATES (currentQuestionIndex kept) = Some next
    /\ chatMessages (store m')
       = chatMessages (store m)
         ++ messageData sessionId userMessage filePath
            :: reply :: (if offersTemplate next
                         then [templateMessage sessionId next] else [])
    /\ msg_sessionId reply = sessionId
    /\ sender reply = ai
    /\ messageType reply = text
    /\ includes (content reply) (t_question next) = true.
Proof.
  intros Hsession Hpast Hrun Hbelow.
  destruct (turn_effect _ _ _ _ _ _ _ _ Hsession Hrun)
    as (rows & evaluations & replies & reports & Hchat & _ & _ & _ & _ & _ & _
        & _ & Hreplies & kept' & [= <-] & _ & _ & _ & Hcases).
  destruct Hcases as [(Hwelcome & _)|(_ & _ & _ & Hcases)]; [lia|].
  destruct Hcases as [(Hend & _)
                     |(_ & _ & _ & next & reply & Hnext & Htext & Hquote & ->)]; [lia|].
  exists next, reply. split; [exact Hnext|]. split; [exact Hchat|].
  apply Forall_inv in Hreplies. destruct Hreplies as (Hsid & Hsender).
  split; [exact Hsid|]. split; [exact Hsender|]. split; [exact Htext|exact Hquote].
Qed.

(** After the second answer comes the data clean-up task, with its
    template. *)
Lemma reply_quotes_the_question_at_hand_witness :
  let run :=
    processUserMessage Sample.world "7d9f" "Rows, then values." None
      (Sample.at_index 1 in_progress) in
  exists next reply,
    index QUESTION_TEMPLATES 2 = Some next
    /\ chatMessages (store (snd run))
       = [] ++ messageData "7d9f" "Rows, then values." None
            :: reply :: (if offersTemplate next
                         then [templateMessage "7d9f" next] else [])
    /\ msg_sessionId reply = "7d9f"
    /\ sender reply = ai
    /\ messageType reply = text
    /\ includes (content reply) (t_question next) = true.
Proof.
  intros run.
  exact (reply_quotes_the_question_at_hand Sample.world "7d9f" "Rows, then values."
           None (Sample.at_index 1 in_progress) (snd run)
           (Sample.session "7d9f" 1 in_progress)
           (Sample.session "7d9f" 2 in_progress)
           (Storage.sessionMessages "7d9f" (store (snd run)))
           eq_refl ltac:(cbn; lia) ltac:(vm_compute; reflexivity) eq_refl).
Defined.

(** X8.  The calls a turn on an existing session makes to the outside,
    whether it returns or throws: those of scoring the answer, fixed by
    the category of the current question, then at most one request for
    the final report.  An uploaded file is read only when the current
    question is a practical task, and it is the file of this turn; no
    turn renames a file or writes or sends a template. *)
Theorem turn_calls_only_the_scorer
    (w : World) (sessionId userMessage : string) (filePath : option string)
    (m m' : Machine) (session : InterviewSession)
    (result : Outcome (option InterviewSession * list ChatMessage)) :
  interviewSessions (store m) !! sessionId = Some session ->
  processUserMessage w sessionId userMessage filePath m = (result, m') ->
  exists reports,
    calls m'
    = calls m ++ turnCalls (currentQuestionIndex session) userMessage filePath
      ++ reports
    /\ (length reports <= 1)%nat
    /\ (forall c, c ∈ reports -> isReport c = true)
    /\ (forall c, c ∈ turnCalls (currentQuestionIndex session) userMessage filePath
                      ++ reports ->
          match c with
          | ReadFile path =>
              filePath = Some path
              /\ exists entry,
                  index QUESTION_TEMPLATES (currentQuestionIndex session) = Some entry
                  /\ t_category entry = practical
          | RenameSync _ _ | SaveTemplate _ | Download _ => False
          | _ => True
          end).
Proof.
  intros Hsession Hrun.
  destruct (turn_effect _ _ _ _ _ _ _ _ Hsession Hrun)
    as (rows & evaluations & replies & reports & _ & _ & _ & Hcalls & _ & Hlen
        & Hreports & _).
  exists reports. split; [exact Hcalls|]. split; [exact Hlen|].
  rewrite Forall_forall in Hreports. split; [exact Hreports|].
  intros c [Hscoring|Hreport]%elem_of_app.
  - unfold turnCalls in Hscoring.
    destruct (index QUESTION_TEMPLATES (currentQuestionIndex session))
      as [entry|] eqn:Hentry; [|inversion Hscoring].
    unfold scoringCalls in Hscoring.
    destruct (t_category entry) eqn:Hcategory.
    + apply list_elem_of_singleton in Hscoring as ->. exact I.
    + destruct filePath as [[|a path]|]; cbn in Hscoring; try solve [inversion Hscoring].
      apply list_elem_of_singleton in Hscoring as ->.
      split; [reflexivity|]. exists entry. auto.
    + apply list_elem_of_singleton in Hscoring as ->. exact I.
    + inversion Hscoring.
  - apply Hreports in Hreport. destruct c; try discriminate Hreport; exact I.
Qed.

(** An upload while the first question is open is not read. *)
Lemma turn_calls_only_the_scorer_witness :
  let run :=
    processUserMessage Sample.world "7d9f" "See the attached file."
      (Some "uploads/a1.xlsx") (Sample.at_index 0 in_progress) in
  exists reports,
    calls (snd run) = turnCalls 0 "See the attached file." (Some "uploads/a1.xlsx")
                      ++ reports
    /\ (length reports <= 1)%nat
    /\ ReadFile "uploads/a1.xlsx" ∉ calls (snd run).
Proof.
  intros run.
  destruct (turn_calls_only_the_scorer Sample.world "7d9f" "See the attached file."
              (Some "uploads/a1.xlsx") (Sample.at_index 0 in_progress) (snd run)
              (Sample.session "7d9f" 0 in_progress) (fst run) eq_refl
              ltac:(vm_compute; reflexivity))
    as (reports & Hcalls & Hlen & _ & Honly).
  exists reports. split; [exact Hcalls|]. split; [exact Hlen|].
  rewrite Hcalls. intros Hread. apply Honly in Hread.
  destruct Hread as (_ & entry & Hentry & Hcategory).
  vm_compute in Hentry. injection Hentry as <-. discriminate Hcategory.
Defined.

(** X9.  The transcript a turn returns is the transcript the session had
    before, followed by the message of the user and by the one or two
    messages the AI replied with in this turn; a message of another
    session is never part of it. *)
Theorem turn_returns_the_session_transcript
    (w : World) (sessionId userMessage : string) (filePath : option string)
    (m m' : Machine) (session : InterviewSession)
    (returned : option InterviewSession) (messages : list ChatMessage) :
  interviewSessions (store m) !! sessionId = Some session ->
  processUserMessage w sessionId userMessage filePath m
  = (Returned (returned, messages), m') ->
  exists replies,
    messages
    = Storage.sessionMessages sessionId (store m)
      ++ messageData sessionId userMessage filePath :: replies
    /\ (1 <= length replies <= 2)%nat
    /\ Forall (fun reply => sender reply = ai) replies
    /\ Forall (fun message => msg_sessionId message = sessionId) messages.
Proof.
  intros Hsession Hrun.
  destruct (turn_effect _ _ _ _ _ _ _ _ Hsession Hrun)
    as (rows & evaluations & replies & reports & Hchat & _ & _ & _ & _ & _ & _
        & _ & Hreplies & kept & _ & _ & -> & _ & Hcases).
  exists replies.
  assert (Hown : Forall (fun message => msg_sessionId message = sessionId)
                   (messageData sessionId userMessage filePath :: replies)).
  { constructor; [reflexivity|]. eapply Forall_impl; [exact Hreplies|].
    intros reply (Hsid & _). exact Hsid. }
  unfold Storage.sessionMessages. rewrite Hchat, filter_app.
  rewrite (filter_all_same _ _ Hown).
  split; [reflexivity|]. split; [|split].
  - destruct Hcases as [(_ & _ & _ & _ & reply & ->)|(_ & _ & _ & Hcases)];
      [cbn; lia|].
    destruct Hcases as [(_ & _ & announcement & reply & -> & _)
                       |(_ & _ & _ & next & reply & _ & _ & _ & ->)]; [cbn; lia|].
    destruct (offersTemplate next); cbn; lia.
  - eapply Forall_impl; [exact Hreplies|]. intros reply (_ & Hsender). exact Hsender.
  - apply Forall_app. split; [|exact Hown].
    apply Forall_forall. intros message [Hsid _]%list_elem_of_filter. exact Hsid.
Qed.

(** An answer in one session while another session has a message on
    record. *)
Lemma turn_returns_the_session_transcript_witness :
  let run :=
    processUserMessage Sample.world "7d9f" "Rows, then values." None Cases.twoSessions in
  exists messages replies,
    fst run = Returned (Some (Sample.session "7d9f" 2 in_progress), messages)
    /\ messages = [] ++ messageData "7d9f" "Rows, then values." None :: replies
    /\ (1 <= length replies <= 2)%nat
    /\ chatMessages (store (snd run))
       = messageData "b802" "Hello?" None :: messages.
Proof.
  intros run.
  destruct (turn_returns_the_session_transcript Sample.world "7d9f"
              "Rows, then values." None Cases.twoSessions (snd run)
              (Sample.session "7d9f" 1 in_progress)
              (Some (Sample.session "7d9f" 2 in_progress))
              (Storage.sessionMessages "7d9f" (store (snd run)))
              eq_refl ltac:(vm_compute; reflexivity))
    as (replies & Hmessages & Hlen & _).
  exists (Storage.sessionMessages "7d9f" (store (snd run))), replies.
  split; [reflexivity|]. split; [exact Hmessages|]. split; [exact Hlen|].
  reflexivity.
Defined.

End Controller.

(** ** Single answers *)

Section Answers.
Import JS Schema Effects InterviewService Reasoning Ledger.

(** The behavioral entry of the script is its seventh. *)
Lemma behavioral_entry (i : Z) (t : InterviewQuestionTemplate) :
  index QUESTION_TEMPLATES i = Some t -> t_category t = behavioral -> i = 6.
Proof.
  intros Hentry Hcategory. pose proof (index_bounds _ _ _ Hentry) as Hrange.
  change (Z.of_nat (length QUESTION_TEMPLATES)) with 8 in Hrange.
  assert (Hcases : i = 0 \/ i = 1 \/ i = 2 \/ i = 3 \/ i = 4 \/ i = 5 \/ i = 6
                   \/ i = 7) by lia.
  destruct Hcases as [->|[->|[->|[->|[->|[->|[->| ->]]]]]]];
    try (vm_compute in Hentry; injection Hentry as <-; discriminate Hcategory).
  reflexivity.
Qed.

(** X10.  The answer to a behavioral question is not evaluated: whatever
    the text, and whether or not the AI service answers, the turn
    returns, makes no call to the outside, stores one row with the score
    [80] and moves the session to the next question. *)
Theorem behavioral_answer_always_scores_80
    (w : World) (sessionId userMessage : string) (filePath : option string)
    (m : Machine) (session : InterviewSession) (entry : InterviewQuestionTemplate) :
  interviewSessions (store m) !! sessionId = Some session ->
  index QUESTION_TEMPLATES (currentQuestionIndex session) = Some entry ->
  t_category entry = behavioral ->
  let run := processUserMessage w sessionId userMessage filePath m in
  exists kept row,
    fst run = Returned (Some kept, Storage.sessionMessages sessionId (store (snd run)))
    /\ interviewSessions (store (snd run)) !! sessionId = Some kept
    /\ currentQuestionIndex kept = currentQuestionIndex session + 1
    /\ status kept = in_progress
    /\ interviewQuestions (store (snd run)) = interviewQuestions (store m) ++ [row]
    /\ score row = Some "80"
    /\ userAnswer row = Some userMessage
    /\ aiEvaluation row = NoEvaluation
    /\ excelEvaluations (store (snd run)) = excelEvaluations (store m)
    /\ calls (snd run) = calls m.
Proof.
  intros Hsession Hentry Hcategory run. subst run.
  pose proof (behavioral_entry _ _ Hentry Hcategory) as Hsix.
  unfold processUserMessage.
  rewrite run_getInterviewSession, Hsession, run_addChatMessage, Hentry, Hsix.
  change (6 =? -1) with false. cbv iota.
  unfold scoreAnswer. rewrite Hcategory. decide_categories.
  rewrite run_bind, run_addInterviewQuestion, !run_ret. cbv beta iota.
  rewrite Hsix. change (script_length <=? 6 + 1) with false. cbv iota.
  match goal with
  | |- context [index QUESTION_TEMPLATES (6 + 1)] =>
      let v := eval vm_compute in (index QUESTION_TEMPLATES (6 + 1)) in
      change (index QUESTION_TEMPLATES (6 + 1)) with v
  end.
  cbv iota. rewrite run_ret. cbv beta iota.
  rewrite run_updateInterviewSession. machine_simpl. rewrite Hsession.
  rewrite run_addChatMessage. cbn [andb].
  change (6 + 1 <? script_length) with true. cbv iota.
  match goal with
  | |- context [offersTemplate ?t] =>
      let v := eval vm_compute in (offersTemplate t) in
      change (offersTemplate t) with v
  end.
  cbv iota. rewrite run_ret, run_getSessionMessages. unfold ret. machine_simpl.
  eexists _, _. split; [reflexivity|].
  split; [apply lookup_insert_eq|]. cbn.
  repeat (split; [reflexivity|]). reflexivity.
Qed.

(** The seventh question, answered with the AI service down. *)
Lemma behavioral_answer_always_scores_80_witness :
  let run :=
    processUserMessage Cases.offline "7d9f" "No comment." None
      (Sample.at_index 6 in_progress) in
  exists kept row,
    fst run = Returned (Some kept, Storage.sessionMessages "7d9f" (store (snd run)))
    /\ interviewSessions (store (snd run)) !! "7d9f" = Some kept
    /\ currentQuestionIndex kept = 6 + 1
    /\ status kept = in_progress
    /\ interviewQuestions (store (snd run)) = [] ++ [row]
    /\ score row = Some "80"
    /\ userAnswer row = Some "No comment."
    /\ aiEvaluation row = NoEvaluation
    /\ excelEvaluations (store (snd run)) = []
    /\ calls (snd run) = [].
Proof.
  exact (behavioral_answer_always_scores_80 Cases.offline "7d9f" "No comment." None
           (Sample.at_index 6 in_progress) (Sample.session "7d9f" 6 in_progress)
           _ eq_refl eq_refl eq_refl).
Defined.

(** X11.  When the request for the final report fails on the answer to
    the last question, the turn throws after it has stored the row of
    that answer: the session stays in progress at the last question, no
    reply is logged, and the row is in the table, so that answering
    again stores the answer a second time. *)
Theorem report_failure_keeps_the_row
    (w : World) (sessionId userMessage : string) (filePath : option string)
    (m : Machine) (session : InterviewSession) (entry : InterviewQuestionTemplate)
    (evaluation : ConceptualEvaluation) :
  interviewSessions (store m) !! sessionId = Some session ->
  currentQuestionIndex session = script_length - 1 ->
  index QUESTION_TEMPLATES (script_length - 1) = Some entry ->
  evaluateConceptualAnswer w (t_question entry) userMessage (t_expectedAnswer entry)
  = Some evaluation ->
  (forall overall p c e b questions,
      generateFinalReport w overall p c e b questions = None) ->
  let run := processUserMessage w sessionId userMessage filePath m in
  (exists error, fst run = Thrown error)
  /\ interviewSessions (store (snd run)) = interviewSessions (store m)
  /\ chatMessages (store (snd run))
     = chatMessages (store m) ++ [messageData sessionId userMessage filePath]
  /\ exists row,
      interviewQuestions (store (snd run)) = interviewQuestions (store m) ++ [row]
      /\ q_sessionId row = sessionId
      /\ questionIndex row = script_length - 1
      /\ userAnswer row = Some userMessage
      /\ score row = Some (Number_toString w (ce_score evaluation)).
Proof.
  intros Hsession Hlast Hentry Hanswer Hreport run. subst run.
  assert (Hcategory : t_category entry = conceptual)
    by (vm_compute in Hentry; injection Hentry as <-; reflexivity).
  unfold processUserMessage.
  rewrite run_getInterviewSession, Hsession, run_addChatMessage, Hlast, Hentry.
  change (script_length - 1 =? -1) with false. cbv iota.
  unfold scoreAnswer. rewrite Hcategory. decide_categories.
  rewrite run_bind, run_call, run_bind, run_answer, Hanswer.
  rewrite run_bind, run_addInterviewQuestion, !run_ret. cbv beta iota.
  rewrite Hlast. change (script_length <=? script_length - 1 + 1) with true.
  cbv iota. unfold completeInterview.
  rewrite !run_bind, run_getSessionQuestions, !run_bind, run_call, !run_bind,
    run_answer, Hreport.
  machine_simpl. split; [eexists; reflexivity|]. split; [reflexivity|].
  split; [reflexivity|]. eexists. split; [reflexivity|]. cbn.
  repeat (split; [reflexivity|]). reflexivity.
Qed.

(** The last answer gets its 70, and then the report fails. *)
Lemma report_failure_keeps_the_row_witness :
  let run :=
    processUserMessage Cases.reportless "7d9f" "Freeze the top row." None Sample.scored in
  (exists error, fst run = Thrown error)
  /\ interviewSessions (store (snd run)) = interviewSessions (store Sample.scored)
  /\ chatMessages (store (snd run))
     = [] ++ [messageData "7d9f" "Freeze the top row." None]
  /\ exists row,
      interviewQuestions (store (snd run))
      = interviewQuestions (store Sample.scored) ++ [row]
      /\ q_sessionId row = "7d9f"
      /\ questionIndex row = script_length - 1
      /\ userAnswer row = Some "Freeze the top row."
      /\ score row = Some "70".
Proof.
  exact (report_failure_keeps_the_row Cases.reportless "7d9f" "Freeze the top row."
           None Sample.scored (Sample.session "7d9f" 7 in_progress) _ _
           eq_refl eq_refl eq_refl eq_refl (fun _ _ _ _ _ _ => eq_refl)).
Defined.

(** X12.  Scoring an uploaded workbook stores one question row and one
    spreadsheet evaluation.  When every row the session has so far
    stands at a lower index than the session, the evaluation points to
    the row just stored; both carry the path of the file, and the row
    carries the weighted score of the workbook. *)
Theorem practical_evaluation_points_to_its_row
    (w : World) (sessionId : string) (question : InterviewQuestionTemplate)
    (filePath userExplanation : string) (m : Machine) (session : InterviewSession)
    (evaluation : ExcelProcessor.ExcelEvaluationResult) :
  interviewSessions (store m) !! sessionId = Some session ->
  ExcelProcessor.evaluateExcelFile (XLSX_readFile w filePath)
    (expectedSheets question) (taskType question) = Some evaluation ->
  Forall (fun q => q_sessionId q = sessionId ->
                   questionIndex q < currentQuestionIndex session)
         (interviewQuestions (store m)) ->
  let run := evaluatePracticalTask w sessionId question filePath userExplanation m in
  exists feedback row linked,
    fst run = Returned (feedback, practicalOverall evaluation)
    /\ interviewQuestions (store (snd run)) = interviewQuestions (store m) ++ [row]
    /\ excelEvaluations (store (snd run)) = excelEvaluations (store m) ++ [linked]
    /\ questionId linked = q_id row
    /\ x_filePath linked = filePath
    /\ q_filePath row = Some filePath
    /\ fileUploaded row = true
    /\ q_sessionId row = sessionId
    /\ questionIndex row = currentQuestionIndex session
    /\ score row = Some (Number_toString w (practicalOverall evaluation)).
Proof.
  intros Hsession Hevaluation Hlower run. subst run.
  unfold evaluatePracticalTask.
  rewrite run_call, run_answer, Hevaluation. cbv zeta.
  rewrite (run_getCurrentQuestionIndex _ _ _ session)
    by (machine_simpl; exact Hsession).
  rewrite run_addInterviewQuestion, run_getLatestQuestionId. machine_simpl.
  match goal with
  | |- context [Storage.sessionQuestions sessionId (Storage.withQuestions ?f ?s)] =>
      assert (Hlatest : last (Storage.sessionQuestions sessionId (Storage.withQuestions f s))
                        = Some (stored w
                                  (withFile filePath
                                     (newQuestion sessionId (currentQuestionIndex session)
                                        question None userExplanation
                                        (Number_toString w (practicalOverall evaluation))
                                        (PracticalPayload
                                           (ExcelProcessor.formulaAccuracy evaluation)
                                           (ExcelProcessor.structureScore evaluation)
                                           (ExcelProcessor.bestPracticesScore evaluation)
                                           (ExcelProcessor.details evaluation))))))
  end.
  { unfold Storage.sessionQuestions. machine_simpl.
    rewrite filter_app, filter_cons_True, filter_nil by reflexivity.
    rewrite orderByIndex_snoc, insertByIndex_last; [apply last_snoc|].
    rewrite orderByIndex_Permutation. apply Forall_forall.
    intros q [Hsid Hq]%list_elem_of_filter. rewrite Forall_forall in Hlower.
    cbn. specialize (Hlower q Hq Hsid). lia. }
  rewrite Hlatest, run_addExcelEvaluation. unfold ret. machine_simpl.
  eexists _, _, _. split; [reflexivity|]. split; [reflexivity|].
  split; [reflexivity|]. cbn. repeat (split; [reflexivity|]). reflexivity.
Qed.

(** The sample workbook, uploaded for the sales task. *)
Lemma practical_evaluation_points_to_its_row_witness :
  let run :=
    evaluatePracticalTask Sample.world "7d9f"
      Cases.salesTask "uploads/b2.xlsx" "Lookups, then sums." (Sample.at_index 3 in_progress) in
  exists feedback row linked,
    fst run = Returned (feedback, 80%float)
    /\ interviewQuestions (store (snd run)) = [] ++ [row]
    /\ excelEvaluations (store (snd run)) = [] ++ [linked]
    /\ questionId linked = q_id row
    /\ x_filePath linked = "uploads/b2.xlsx"
    /\ q_filePath row = Some "uploads/b2.xlsx"
    /\ fileUploaded row = true
    /\ q_sessionId row = "7d9f"
    /\ questionIndex row = 3
    /\ score row = Some "80".
Proof.
  intros run.
  destruct (practical_evaluation_points_to_its_row Sample.world "7d9f"
              Cases.salesTask "uploads/b2.xlsx" "Lookups, then sums." (Sample.at_index 3 in_progress)
              (Sample.session "7d9f" 3 in_progress) _ eq_refl eq_refl
              (Forall_nil_2 _))
    as (feedback & row & linked & Hrun & Hq & He & Hlink & Hpath & Hfile & Hup & Hsid
        & Hindex & Hscore).
  exists feedback, row, linked. subst run.
  split; [rewrite Hrun; vm_compute; reflexivity|].
  split; [exact Hq|]. split; [exact He|]. split; [exact Hlink|].
  split; [exact Hpath|]. split; [exact Hfile|]. split; [exact Hup|].
  split; [exact Hsid|]. split; [exact Hindex|].
  rewrite Hscore. vm_compute. reflexivity.
Defined.

End Answers.

(** ** The inspector, sheet by sheet *)

Section Sheets.
Import JS ExcelProcessor Wording Reasoning.

Lemma elem_of_upto (i from to : nat) : i ∈ upto from to <-> (from <= i <= to)%nat.
Proof. unfold upto. rewrite elem_of_seq. lia. Qed.

(** X13.  The formulas the inspector finds in a sheet are exactly the
    non-empty formulas of the cells inside the range the sheet declares;
    a sheet that declares no range is searched in its first cell only.
    A formula outside the declared range is not seen. *)
Theorem formulas_found_are_those_in_range (worksheet : WorkSheet) (formula : string) :
  formula ∈ extractFormulas worksheet
  <-> exists (row col : nat) (cell : CellObject),
        (s_r (decode_range worksheet) <= row <= e_r (decode_range worksheet))%nat
        /\ (s_c (decode_range worksheet) <= col <= e_c (decode_range worksheet))%nat
        /\ ws_cells worksheet !! (row, col) = Some cell
        /\ cell_f cell = Some formula
        /\ formula <> EmptyString.
Proof.
  unfold extractFormulas. rewrite list_elem_of_bind. split.
  - intros (row & Hcols & Hrow%elem_of_upto).
    apply list_elem_of_bind in Hcols as (col & Hcell & Hcol%elem_of_upto).
    destruct (ws_cells worksheet !! (row, col)) as [cell|] eqn:Hlookup;
      [|inversion Hcell].
    destruct (cell_f cell) as [[|a f]|] eqn:Hf; cbn in Hcell; try solve [inversion Hcell].
    apply list_elem_of_singleton in Hcell as ->.
    exists row, col, cell. repeat split; try lia; auto.
  - intros (row & col & cell & Hrow & Hcol & Hlookup & Hf & Hnonempty).
    exists row. split; [|apply elem_of_upto; exact Hrow].
    apply list_elem_of_bind. exists col. split; [|apply elem_of_upto; exact Hcol].
    rewrite Hlookup, Hf. destruct formula as [|a f]; [congruence|].
    cbn. apply list_elem_of_singleton. reflexivity.
Qed.

Lemma foldl_analyzeSheet_None (workbook : WorkBook) (taskType : option string)
    (names : list string) :
  foldl (fun acc sheetName => ev ← acc; analyzeSheet workbook taskType ev sheetName)
        None names = None.
Proof. induction names as [|name rest IH]; [reflexivity|exact IH]. Qed.

(** The loop returns exactly when every listed sheet is there. *)
Lemma analyzeSheets_is_Some (workbook : WorkBook) (taskType : option string)
    (names : list string) :
  forall evaluation,
    is_Some (foldl (fun acc sheetName =>
                      ev ← acc; analyzeSheet workbook taskType ev sheetName)
                   (Some evaluation) names)
    <-> Forall (fun name => is_Some (Sheets workbook !! name)) names.
Proof.
  induction names as [|name rest IH]; intros evaluation; cbn [foldl].
  - split; [constructor|]. intros _. eexists. reflexivity.
  - cbn [mbind option_bind]. unfold analyzeSheet at 2.
    destruct (Sheets workbook !! name) as [worksheet|] eqn:Hsheet;
      cbn [mbind option_bind].
    + destruct (bool_decide (taskType = Some "sales_analysis"));
        rewrite IH, Forall_cons; rewrite Hsheet; intuition eauto.
    + rewrite foldl_analyzeSheet_None, Forall_cons, Hsheet.
      split; [intros []; discriminate|intros [[] _]; discriminate].
Qed.

Lemma sheetFormulas_is_Some (workbook : WorkBook) :
  is_Some (sheetFormulas workbook)
  <-> Forall (fun name => is_Some (Sheets workbook !! name)) (SheetNames workbook).
Proof.
  unfold sheetFormulas. rewrite mapM_is_Some. apply Forall_iff. intros name.
  unfold compose. destruct (Sheets workbook !! name); cbn.
  - split; intros _; eauto.
  - split; intros []; discriminate.
Qed.

(** With another task type than the sales analysis, the loop leaves the
    scores as they are. *)
Lemma analyzeSheets_other (workbook : WorkBook) (taskType : option string)
    (names : list string) :
  taskType <> Some "sales_analysis" ->
  forall evaluation analyzed,
    foldl (fun acc sheetName => ev ← acc; analyzeSheet workbook taskType ev sheetName)
          (Some evaluation) names = Some analyzed ->
    formulaAccuracy analyzed = formulaAccuracy evaluation
    /\ structureScore analyzed = structureScore evaluation.
Proof.
  intros Hother. induction names as [|name rest IH]; intros evaluation analyzed;
    cbn [foldl].
  - intros [= <-]. auto.
  - cbn [mbind option_bind]. unfold analyzeSheet at 2.
    destruct (Sheets workbook !! name) as [worksheet|]; cbn [mbind option_bind];
      [|rewrite foldl_analyzeSheet_None; discriminate].
    rewrite bool_decide_eq_false_2 by exact Hother.
    intros Hrest. apply IH in Hrest. exact Hrest.
Qed.

(** With the sales analysis, every sheet adds between 60 and 90 to the
    formula accuracy and between 60 and 80 to the structure score. *)
Lemma analyzeSheets_sales_bounds (workbook : WorkBook) (names : list string) :
  forall evaluation analyzed,
    foldl (fun acc sheetName =>
             ev ← acc; analyzeSheet workbook (Some "sales_analysis") ev sheetName)
          (Some evaluation) names = Some analyzed ->
    formulaAccuracy evaluation + 60 * Z.of_nat (length names)
    <= formulaAccuracy analyzed
    <= formulaAccuracy evaluation + 90 * Z.of_nat (length names)
    /\ structureScore evaluation + 60 * Z.of_nat (length names)
       <= structureScore analyzed
       <= structureScore evaluation + 80 * Z.of_nat (length names).
Proof.
  induction names as [|name rest IH]; intros evaluation analyzed; cbn [foldl].
  - intros [= <-]. cbn. lia.
  - cbn [mbind option_bind]. unfold analyzeSheet at 2.
    destruct (Sheets workbook !! name) as [worksheet|]; cbn [mbind option_bind];
      [|rewrite foldl_analyzeSheet_None; discriminate].
    rewrite bool_decide_eq_true_2 by reflexivity.
    intros Hrest. apply IH in Hrest. cbn [formulaAccuracy structureScore] in Hrest.
    unfold evaluateSalesAnalysis in Hrest.
    cbn [formulaScore sales_structureScore] in Hrest.
    rewrite length_cons.
    repeat match type of Hrest with
           | context [if ?b then _ else _] => destruct b
           end; lia.
Qed.

(** The scores of the naming and formula conventions. *)
Lemma evaluateBestPractices_values (workbook : WorkBook) (best : Z) :
  evaluateBestPractices workbook = Some best ->
  best ∈ [50; 65; 70; 80; 85; 100].
Proof.
  unfold evaluateBestPractices.
  destruct (sheetFormulas workbook) as [perSheet|]; [|discriminate].
  cbn [mbind option_bind].
  destruct (forallb _ _), (Nat.ltb _ _), (existsb _ _); intros [= <-];
    vm_compute; repeat constructor.
Qed.

(** A workbook that holds the sheets it lists can be evaluated. *)
Lemma evaluateExcelFile_readable (workbook : WorkBook) (expectedSheets : list string)
    (taskType : option string) :
  Forall (fun name => is_Some (Sheets workbook !! name)) (SheetNames workbook) ->
  is_Some (evaluateExcelFile (Some workbook) expectedSheets taskType).
Proof.
  intros Hsheets. unfold evaluateExcelFile, accumulate, analyzeSheets.
  cbn [mbind option_bind].
  destruct (proj2 (analyzeSheets_is_Some workbook taskType (SheetNames workbook)
                     (checkRequiredSheets expectedSheets (SheetNames workbook)
                        (emptyEvaluation (SheetNames workbook)))) Hsheets)
    as [analyzed ->].
  cbn [mbind option_bind]. unfold evaluateBestPractices.
  destruct (proj2 (sheetFormulas_is_Some workbook) Hsheets) as [perSheet ->].
  cbn [mbind option_bind]. eauto.
Qed.

(** X14.  The inspector fails on a file exactly when the file cannot be
    read or the workbook lists a sheet it does not hold; the expected
    sheets and the task type have no part in it. *)
Theorem evaluation_fails_only_on_unreadable_workbooks
    (read : option WorkBook) (expectedSheets : list string)
    (taskType : option string) :
  is_Some (evaluateExcelFile read expectedSheets taskType)
  <-> exists workbook,
        read = Some workbook
        /\ Forall (fun name => is_Some (Sheets workbook !! name)) (SheetNames workbook).
Proof.
  split.
  - unfold evaluateExcelFile, accumulate, analyzeSheets.
    destruct read as [workbook|]; cbn [mbind option_bind];
      [|intros []; discriminate].
    intros Hsome. exists workbook. split; [reflexivity|].
    apply (analyzeSheets_is_Some workbook taskType (SheetNames workbook)
             (checkRequiredSheets expectedSheets (SheetNames workbook)
                (emptyEvaluation (SheetNames workbook)))).
    destruct (foldl _ _ _); [eauto|destruct Hsome; discriminate].
  - intros (workbook & -> & Hsheets). apply evaluateExcelFile_readable. exact Hsheets.
Qed.

(** X15.  For a task other than the sales analysis, the data clean-up
    task of the script among them, the inspector gives every workbook a
    formula accuracy of 0 and a structure score of 0, whatever the
    workbook holds: only the naming and formula conventions count, and
    the weighted score of the task lies between 10 and 20 out of 100. *)
Theorem other_tasks_score_conventions_only
    (read : option WorkBook) (expectedSheets : list string)
    (taskType : option string) (evaluation : ExcelEvaluationResult) :
  taskType <> Some "sales_analysis" ->
  evaluateExcelFile read expectedSheets taskType = Some evaluation ->
  formulaAccuracy evaluation = 0
  /\ structureScore evaluation = 0
  /\ 50 <= bestPracticesScore evaluation <= 100
  /\ InterviewService.practicalOverall evaluation
     ∈ [10; 13; 14; 16; 17; 20]%float.
Proof.
  intros Hother. unfold evaluateExcelFile, accumulate, analyzeSheets.
  destruct read as [workbook|]; [|discriminate]. cbn [mbind option_bind].
  destruct (foldl _ _ _) as [analyzed|] eqn:Hloop; [|discriminate].
  cbn [mbind option_bind].
  destruct (evaluateBestPractices workbook) as [best|] eqn:Hbest; [|discriminate].
  cbn [mbind option_bind]. intros [= <-].
  apply (analyzeSheets_other _ _ _ Hother) in Hloop. destruct Hloop as (-> & ->).
  apply evaluateBestPractices_values in Hbest.
  unfold InterviewService.practicalOverall. cbn [formulaAccuracy structureScore
    bestPracticesScore].
  unfold checkRequiredSheets. destruct (forallb _ _);
    cbn [formulaAccuracy structureScore emptyEvaluation];
    (split; [reflexivity|]); (split; [reflexivity|]);
    repeat (apply elem_of_cons in Hbest as [->|Hbest];
            [split; [vm_compute; split; discriminate|vm_compute; repeat constructor]|]);
    inversion Hbest.
Qed.

(** A cleaned sheet under the expected name, with a long formula. *)
Lemma other_tasks_score_conventions_only_witness :
  exists evaluation,
    evaluateExcelFile (Some Sample.cleanup) ["Clean_Data"] (Some "data_cleanup")
    = Some evaluation
    /\ formulaAccuracy evaluation = 0
    /\ structureScore evaluation = 0
    /\ 50 <= bestPracticesScore evaluation <= 100
    /\ InterviewService.practicalOverall evaluation
       ∈ [10; 13; 14; 16; 17; 20]%float.
Proof.
  destruct (evaluateExcelFile (Some Sample.cleanup) ["Clean_Data"]
              (Some "data_cleanup")) as [evaluation|] eqn:Hrun;
    [|vm_compute in Hrun; discriminate Hrun].
  exists evaluation. split; [reflexivity|].
  exact (other_tasks_score_conventions_only (Some Sample.cleanup) ["Clean_Data"]
           (Some "data_cleanup") evaluation ltac:(discriminate) Hrun).
Defined.

(** X16.  For the sales analysis, the formula accuracy is full exactly
    when the workbook has two sheets or more, whatever the sheets hold;
    so is then the structure score.  A workbook of one sheet reaches at
    most 90 and 80. *)
Theorem sales_accuracy_is_full_iff_two_sheets
    (workbook : WorkBook) (expectedSheets : list string)
    (evaluation : ExcelEvaluationResult) :
  evaluateExcelFile (Some workbook) expectedSheets (Some "sales_analysis")
  = Some evaluation ->
  (formulaAccuracy evaluation = 100 <-> (2 <= length (SheetNames workbook))%nat)
  /\ ((2 <= length (SheetNames workbook))%nat -> structureScore evaluation = 100)
  /\ (length (SheetNames workbook) = 1%nat ->
      60 <= formulaAccuracy evaluation <= 90
      /\ 40 <= structureScore evaluation <= 80).
Proof.
  unfold evaluateExcelFile, accumulate, analyzeSheets. cbn [mbind option_bind].
  destruct (foldl _ _ _) as [analyzed|] eqn:Hloop; [|discriminate].
  cbn [mbind option_bind].
  destruct (evaluateBestPractices workbook) as [best|]; [|discriminate].
  cbn [mbind option_bind]. intros [= <-].
  apply analyzeSheets_sales_bounds in Hloop.
  cbn [formulaAccuracy structureScore]. unfold clamp.
  revert Hloop. unfold checkRequiredSheets.
  destruct (forallb _ _); cbn [formulaAccuracy structureScore emptyEvaluation];
    intros Hloop; repeat split; intros; lia.
Qed.

(** Two sheets with one lookup each. *)
Lemma sales_accuracy_is_full_iff_two_sheets_witness :
  exists evaluation,
    evaluateExcelFile (Some Sample.twoLookups)
      ["Monthly_Summary"; "Top_Products"; "KPI_Dashboard"] (Some "sales_analysis")
    = Some evaluation
    /\ formulaAccuracy evaluation = 100
    /\ structureScore evaluation = 100.
Proof.
  destruct (evaluateExcelFile (Some Sample.twoLookups)
              ["Monthly_Summary"; "Top_Products"; "KPI_Dashboard"]
              (Some "sales_analysis")) as [evaluation|] eqn:Hrun;
    [|vm_compute in Hrun; discriminate Hrun].
  exists evaluation. split; [reflexivity|].
  destruct (sales_accuracy_is_full_iff_two_sheets Sample.twoLookups
              ["Monthly_Summary"; "Top_Products"; "KPI_Dashboard"] evaluation Hrun)
    as (Haccuracy & Hstructure & _).
  assert (Htwo : (2 <= length (SheetNames Sample.twoLookups))%nat)
    by (vm_compute; repeat constructor).
  split; [apply Haccuracy; exact Htwo|apply Hstructure; exact Htwo].
Defined.

End Sheets.

(** ** The scores the inspector can give *)

Section Values.
Import JS ExcelProcessor Wording Reasoning.

(** The three scores of an evaluation take few values: a workbook of one
    sheet gets the scores of that sheet, less 20 for a missing expected
    sheet, and a larger workbook gets the full scores. *)
Lemma evaluateExcelFile_values (read : option WorkBook) (expectedSheets : list string)
    (taskType : option string) (evaluation : ExcelEvaluationResult) :
  evaluateExcelFile read expectedSheets taskType = Some evaluation ->
  formulaAccuracy evaluation ∈ [0; 60; 75; 90; 100]
  /\ structureScore evaluation ∈ [0; 40; 60; 80; 100]
  /\ bestPracticesScore evaluation ∈ [50; 65; 70; 80; 85; 100].
Proof.
  unfold evaluateExcelFile, accumulate, analyzeSheets.
  destruct read as [workbook|]; [|discriminate]. cbn [mbind option_bind].
  destruct (foldl _ _ _) as [analyzed|] eqn:Hloop; [|discriminate].
  cbn [mbind option_bind].
  destruct (evaluateBestPractices workbook) as [best|] eqn:Hbest; [|discriminate].
  cbn [mbind option_bind]. intros [= <-]. cbn [formulaAccuracy structureScore
    bestPracticesScore].
  apply evaluateBestPractices_values in Hbest.
  assert (Hclamped : clamp best = best).
  { repeat (apply elem_of_cons in Hbest as [->|Hbest]; [reflexivity|]).
    inversion Hbest. }
  rewrite Hclamped. split; [|split; [|exact Hbest]].
  - destruct (decide (taskType = Some "sales_analysis")) as [->|Hother].
    + destruct (SheetNames workbook) as [|name [|second rest]] eqn:Hnames.
      * cbn in Hloop. injection Hloop as <-.
        unfold checkRequiredSheets. destruct (forallb _ _); vm_compute; repeat constructor.
      * cbn [foldl mbind option_bind] in Hloop. unfold analyzeSheet in Hloop.
        destruct (Sheets workbook !! name) as [worksheet|]; [|discriminate].
        cbn [mbind option_bind] in Hloop.
        rewrite bool_decide_eq_true_2 in Hloop by reflexivity.
        injection Hloop as <-. cbn [formulaAccuracy].
        unfold checkRequiredSheets.
        repeat match goal with
               | |- context [if ?b then _ else _] => destruct b
               end; vm_compute; repeat constructor.
      * apply analyzeSheets_sales_bounds in Hloop. rewrite !length_cons in Hloop.
        destruct Hloop as (Hformula & _).
        assert (Hfull : clamp (formulaAccuracy analyzed) = 100).
        { revert Hformula. unfold clamp, checkRequiredSheets.
          destruct (forallb _ _); cbn [formulaAccuracy emptyEvaluation]; lia. }
        rewrite Hfull. repeat constructor.
    + apply (analyzeSheets_other _ _ _ Hother) in Hloop. destruct Hloop as (-> & _).
      unfold checkRequiredSheets. destruct (forallb _ _); vm_compute; repeat constructor.
  - destruct (decide (taskType = Some "sales_analysis")) as [->|Hother].
    + destruct (SheetNames workbook) as [|name [|second rest]] eqn:Hnames.
      * cbn in Hloop. injection Hloop as <-.
        unfold checkRequiredSheets. destruct (forallb _ _); vm_compute; repeat constructor.
      * cbn [foldl mbind option_bind] in Hloop. unfold analyzeSheet in Hloop.
        destruct (Sheets workbook !! name) as [worksheet|]; [|discriminate].
        cbn [mbind option_bind] in Hloop.
        rewrite bool_decide_eq_true_2 in Hloop by reflexivity.
        injection Hloop as <-. cbn [structureScore].
        unfold checkRequiredSheets.
        repeat match goal with
               | |- context [if ?b then _ else _] => destruct b
               end; vm_compute; repeat constructor.
      * apply analyzeSheets_sales_bounds in Hloop. rewrite !length_cons in Hloop.
        destruct Hloop as (_ & Hstructure).
        assert (Hfull : clamp (structureScore analyzed) = 100).
        { revert Hstructure. unfold clamp, checkRequiredSheets.
          destruct (forallb _ _); cbn [structureScore emptyEvaluation]; lia. }
        rewrite Hfull. repeat constructor.
    + apply (analyzeSheets_other _ _ _ Hother) in Hloop. destruct Hloop as (_ & ->).
      unfold checkRequiredSheets. destruct (forallb _ _); vm_compute; repeat constructor.
Qed.

(** X17.  On every evaluation the inspector can return, the weighted
    score of the practical task, computed in binary64, is the weighted
    sum [0.5 * formulaAccuracy + 0.3 * structureScore + 0.2 *
    bestPracticesScore] of exact arithmetic rounded to the nearest
    integer, ties upwards: the rounding errors of binary64 never show on
    the scores the inspector gives. *)
Theorem practical_score_is_exactly_rounded
    (read : option WorkBook) (expectedSheets : list string)
    (taskType : option string) (evaluation : ExcelEvaluationResult) :
  evaluateExcelFile read expectedSheets taskType = Some evaluation ->
  InterviewService.practicalOverall evaluation
  = number_of_Z ((5 * formulaAccuracy evaluation + 3 * structureScore evaluation
                  + 2 * bestPracticesScore evaluation + 5) / 10).
Proof.
  intros Hevaluation. apply evaluateExcelFile_values in Hevaluation.
  destruct Hevaluation as (Hformula & Hstructure & Hbest).
  unfold InterviewService.practicalOverall.
  repeat (apply elem_of_cons in Hformula as [->|Hformula]);
    [| | | | |inversion Hformula];
    (repeat (apply elem_of_cons in Hstructure as [->|Hstructure]);
     [| | | | |inversion Hstructure]);
    (repeat (apply elem_of_cons in Hbest as [->|Hbest]);
     [| | | | | |inversion Hbest]);
    vm_compute; reflexivity.
Qed.

(** One sheet with a lookup and a conditional sum: 90, 60 and 85 weigh
    80. *)
Lemma practical_score_is_exactly_rounded_witness :
  exists evaluation,
    evaluateExcelFile (Some Sample.oneSheet)
      ["Monthly_Summary"; "Top_Products"; "KPI_Dashboard"] (Some "sales_analysis")
    = Some evaluation
    /\ formulaAccuracy evaluation = 90
    /\ structureScore evaluation = 60
    /\ bestPracticesScore evaluation = 85
    /\ InterviewService.practicalOverall evaluation = 80%float.
Proof.
  destruct (evaluateExcelFile (Some Sample.oneSheet)
              ["Monthly_Summary"; "Top_Products"; "KPI_Dashboard"]
              (Some "sales_analysis")) as [evaluation|] eqn:Hrun;
    [|vm_compute in Hrun; discriminate Hrun].
  exists evaluation. split; [reflexivity|].
  pose proof (practical_score_is_exactly_rounded (Some Sample.oneSheet)
                ["Monthly_Summary"; "Top_Products"; "KPI_Dashboard"]
                (Some "sales_analysis") evaluation Hrun) as Hexact.
  vm_compute in Hrun. injection Hrun as <-.
  split; [reflexivity|]. split; [reflexivity|]. split; [reflexivity|].
  rewrite Hexact. vm_compute. reflexivity.
Defined.

End Values.

(** ** The endpoints, on sessions that exist *)

Section Endpoints.
Import JS Schema Effects Routes Reasoning.



(** X19.  For a session that exists, the template endpoint answers 200
    exactly when the template type is one of the two the inspector can
    write, after writing the template and sending it under the name of
    its type; to any other type it answers 500 without a call to the
    outside.  It never writes to the database. *)
Theorem template_is_sent_for_known_types
    (w : World) (req : Request) (m : Machine) (session : InterviewSession) :
  interviewSessions (store m) !! sessionId req = Some session ->
  let run := getTemplate w req m in
  store (snd run) = store m
  /\ (((templateType req ∈ ["sales_analysis"; "data_cleanup"])
        /\ fst run
          = Returned (json (DownloadBody (templateType req +:+ "_template.xlsx")))
       /\ calls (snd run)
          = calls m ++ [SaveTemplate (templateType req); Download (templateType req)])
      \/ ((templateType req ∉ ["sales_analysis"; "data_cleanup"])
          /\ fst run = Returned (status_json 500 "Failed to generate template")
          /\ calls (snd run) = calls m)).
Proof.
  intros Hsession run. subst run. unfold getTemplate, try_catch.
  rewrite run_getInterviewSession, Hsession. unfold saveTemplate.
  destruct (bool_decide (templateType req = "sales_analysis")) eqn:Hsales;
    [|destruct (bool_decide (templateType req = "data_cleanup")) eqn:Hcleanup];
    cbn [orb].
  - apply bool_decide_eq_true in Hsales. rewrite !run_call. cbn.
    split; [reflexivity|]. left. rewrite <- app_assoc.
    split; [rewrite Hsales; repeat constructor|]. split; reflexivity.
  - apply bool_decide_eq_true in Hcleanup. rewrite !run_call. cbn.
    split; [reflexivity|]. left. rewrite <- app_assoc.
    split; [rewrite Hcleanup; repeat constructor|]. split; reflexivity.
  - apply bool_decide_eq_false in Hsales, Hcleanup. rewrite run_throw. cbn.
    split; [reflexivity|]. right. split; [|split; reflexivity].
    intros Hknown. apply elem_of_cons in Hknown as [?|Hknown]; [congruence|].
    apply elem_of_cons in Hknown as [?|Hknown]; [congruence|]. inversion Hknown.
Qed.

Lemma template_is_sent_for_known_types_witness :
  let run := getTemplate Sample.world Cases.templateRequest
               (Sample.at_index 3 in_progress) in
  fst run = Returned (json (DownloadBody "sales_analysis_template.xlsx"))
  /\ calls (snd run) = [SaveTemplate "sales_analysis"; Download "sales_analysis"]
  /\ store (snd run) = store (Sample.at_index 3 in_progress).
Proof.
  intros run.
  destruct (template_is_sent_for_known_types Sample.world Cases.templateRequest
              (Sample.at_index 3 in_progress) (Sample.session "7d9f" 3 in_progress)
              eq_refl) as (Hstore & Hcases).
  split; [reflexivity|]. split; [reflexivity|exact Hstore].
Defined.

(** X20.  Reading a session changes nothing and calls nobody.  The
    progress it reports counts the question the index points to as the
    current one, so for a completed interview of the script it reports
    question 9 of 8 and 113 percent. *)
Theorem completed_interview_reports_113_percent
    (w : World) (req : Request) (m : Machine) (session : InterviewSession) :
  interviewSessions (store m) !! sessionId req = Some session ->
  on_script session ->
  exists details,
    getInterview w req m = (Returned (json (DetailsBody (Some details))), m)
    /\ InterviewService.details_session details = session
    /\ InterviewService.progress_currentQuestion (InterviewService.progress details)
       = currentQuestionIndex session + 1
    /\ InterviewService.progress_totalQuestions (InterviewService.progress details) = 8
    /\ (status session = completed ->
        InterviewService.progress_currentQuestion (InterviewService.progress details) = 9
        /\ InterviewService.percentage (InterviewService.progress details) = 113%float).
Proof.
  intros Hsession (Htotal & Hscript). unfold getInterview, try_catch.
  rewrite run_getInterviewSession, Hsession.
  unfold InterviewService.getSessionWithDetails.
  rewrite run_bind, run_getInterviewSession, Hsession.
  rewrite run_bind, run_getSessionMessages, run_bind, run_getSessionQuestions, !run_ret.
  unfold ret. eexists. split; [reflexivity|]. cbn.
  split; [reflexivity|]. split; [reflexivity|]. split; [exact Htotal|].
  intros Hcompleted.
  destruct Hscript as [(Hprogress & _)|(_ & Hindex)]; [congruence|].
  rewrite Hindex, Htotal. split; [reflexivity|]. vm_compute. reflexivity.
Qed.

Lemma completed_interview_reports_113_percent_witness :
  exists details,
    getInterview Sample.world Cases.messageRequest (Sample.at_index 8 completed)
    = (Returned (json (DetailsBody (Some details))), Sample.at_index 8 completed)
    /\ InterviewService.progress_currentQuestion (InterviewService.progress details) = 9
    /\ InterviewService.progress_totalQuestions (InterviewService.progress details) = 8
    /\ InterviewService.percentage (InterviewService.progress details) = 113%float.
Proof.
  destruct (completed_interview_reports_113_percent Sample.world Cases.messageRequest
              (Sample.at_index 8 completed) (Sample.session "7d9f" 8 completed)
              eq_refl (conj eq_refl (or_intror (conj eq_refl eq_refl))))
    as (details & Hrun & _ & _ & Htotal & Hcompleted).
  exists details. split; [exact Hrun|].
  destruct (Hcompleted eq_refl) as (Hcurrent & Hpercentage).
  split; [exact Hcurrent|]. split; [exact Htotal|exact Hpercentage].
Defined.

End Endpoints.

(** ** The endpoints behind the login *)

Section Owners.
Import JS Schema Effects Routes Reasoning.

(** X21.  Behind the login, a session of another user is treated as a
    session that does not exist: each of the four handlers gives the
    answer it gives for a missing session, reads and writes nothing of
    the session, and makes no call to the outside. *)
Theorem session_of_another_user_is_hidden
    (e : Endpoint) (user : string) (w : World) (req : Request) (m : Machine)
    (session : InterviewSession) :
  interviewSessions (store m) !! sessionId req = Some session ->
  userId session <> user ->
  Authenticated.handle e user w req m = (Returned (missingSessionResponse e req), m).
Proof.
  intros Hsession Hother.
  assert (Hhidden : Authenticated.hidden user (Some session) = true).
  { cbn. rewrite bool_decide_eq_false_2 by exact Hother. reflexivity. }
  destruct e; cbn [Authenticated.handle missingSessionResponse];
    unfold Authenticated.getInterview, Authenticated.postMessage,
      Authenticated.postUpload, Authenticated.getTemplate, try_catch;
    try destruct (file req) as [originalPath|];
    try rewrite run_getInterviewSession, Hsession, Hhidden; reflexivity.
Qed.

Lemma session_of_another_user_is_hidden_witness :
  Authenticated.handle PostMessage "mallory" Cases.offline Cases.messageRequest
    (Sample.at_index 3 in_progress)
  = (Returned notFound, Sample.at_index 3 in_progress).
Proof.
  exact (session_of_another_user_is_hidden PostMessage "mallory" Cases.offline
           Cases.messageRequest (Sample.at_index 3 in_progress)
           (Sample.session "7d9f" 3 in_progress) eq_refl ltac:(discriminate)).
Defined.



End Owners.

(** ** Interviews in which everything goes well *)

Section Courses.
Import JS Schema Effects InterviewService Reasoning Ledger Trajectory Course.

Lemma index_is_Some {A} (l : list A) (i : Z) :
  0 <= i < Z.of_nat (length l) -> is_Some (index l i).
Proof.
  intros Hrange. unfold index. destruct (i <? 0) eqn:Hneg;
    [apply Z.ltb_lt in Hneg; lia|].
  apply lookup_lt_is_Some. lia.
Qed.

(** Scoring returns when the outside answers. *)
Lemma scoreAnswer_returns (w : World) (sessionId : string) (session : InterviewSession)
    (entry : InterviewQuestionTemplate) (userMessage : string)
    (filePath : option string) (m : Machine) :
  answers w ->
  interviewSessions (store m) !! sessionId = Some session ->
  exists scored m1,
    scoreAnswer w sessionId session entry userMessage filePath m = (Returned scored, m1).
Proof.
  intros (Hconceptual & Hexplanation & _ & Hfile) Hsession. unfold scoreAnswer.
  destruct (t_category entry) eqn:Hcategory; decide_categories.
  - rewrite run_call, run_answer.
    destruct (Hconceptual (t_question entry) userMessage (t_expectedAnswer entry))
      as [evaluation ->].
    rewrite run_addInterviewQuestion. unfold ret. eauto.
  - destruct (truthy filePath).
    + unfold evaluatePracticalTask. rewrite run_bind, run_call, run_bind, run_answer.
      destruct (Hfile (default EmptyString filePath) (expectedSheets entry)
                  (taskType entry)) as [evaluation ->].
      rewrite run_bind, (run_getCurrentQuestionIndex _ _ _ session)
        by (machine_simpl; exact Hsession).
      rewrite run_bind, run_addInterviewQuestion,
        run_bind, run_getLatestQuestionId, run_bind, run_addExcelEvaluation, !run_ret.
      unfold ret. eauto.
    + unfold ret. eauto.
  - rewrite run_call, run_answer.
    destruct (Hexplanation "Sales analysis task explanation" userMessage)
      as [evaluation ->].
    rewrite run_addInterviewQuestion. unfold ret. eauto.
  - rewrite run_addInterviewQuestion. unfold ret. eauto.
Qed.

(** So does the completion of a session that exists. *)
Lemma completeInterview_returns (w : World) (sessionId : string) (m : Machine) :
  answers w ->
  exists m1, completeInterview w sessionId m = (Returned tt, m1).
Proof.
  intros (_ & _ & Hreport & _). unfold completeInterview.
  rewrite run_getSessionQuestions, run_call, run_answer.
  match goal with
  | |- context [generateFinalReport w ?o ?p ?c ?e ?b ?q] =>
      destruct (Hreport o p c e b q) as [report ->]
  end.
  rewrite run_updateInterviewSession.
  destruct (interviewSessions _ !! sessionId);
    rewrite ?run_modify, run_addChatMessage; unfold ret; eauto.
Qed.

(** A turn on a session of the script that is not over returns when the
    outside answers. *)
Lemma turn_returns (w : World) (sessionId userMessage : string)
    (filePath : option string) (m : Machine) (session : InterviewSession) :
  answers w ->
  interviewSessions (store m) !! sessionId = Some session ->
  -1 <= currentQuestionIndex session < script_length ->
  exists result m',
    processUserMessage w sessionId userMessage filePath m = (Returned result, m').
Proof.
  intros Hanswers Hsession Hrange. unfold processUserMessage.
  rewrite run_getInterviewSession, Hsession, run_addChatMessage.
  destruct (currentQuestionIndex session =? -1) eqn:Hstart.
  - change (index QUESTION_TEMPLATES 0) with (head QUESTION_TEMPLATES). cbn [head QUESTION_TEMPLATES].
    rewrite run_updateInterviewSession. machine_simpl. rewrite Hsession.
    rewrite run_addChatMessage, run_getSessionMessages. unfold ret. eauto.
  - apply Z.eqb_neq in Hstart.
    destruct (index_is_Some QUESTION_TEMPLATES (currentQuestionIndex session))
      as [entry Hentry]; [fold script_length; lia|].
    rewrite Hentry.
    match goal with
    | |- context [scoreAnswer w sessionId session entry userMessage filePath] =>
        destruct (scoreAnswer_returns w sessionId session entry userMessage filePath
                    (update_store
                       (Storage.withMessages
                          (fun rows => rows ++ [messageData sessionId userMessage filePath]))
                       m) Hanswers Hsession)
          as ([aiResponse nextQuestionIndex] & m1 & Hscored)
    end.
    rewrite (run_returned _ _ _ _ _ Hscored).
    pose proof Hscored as Heffect.
    apply scoreAnswer_effect in Heffect; [|machine_simpl; exact Hsession].
    machine_simpl. destruct Heffect as (Hsessions1 & _ & _ & Hnext).
    assert (Hstep : currentQuestionIndex session <= nextQuestionIndex
                    <= currentQuestionIndex session + 1).
    { destruct Hnext as [(-> & _)|(-> & _)]; lia. }
    assert (Hsession1 : interviewSessions (store m1) !! sessionId = Some session)
      by (rewrite Hsessions1; exact Hsession).
    destruct (script_length <=? nextQuestionIndex) eqn:Hdone.
    + destruct (completeInterview_returns w sessionId m1 Hanswers) as (m2 & Hcomplete).
      rewrite run_bind, (run_returned _ _ _ _ _ Hcomplete), run_ret. cbv beta iota.
      rewrite run_updateInterviewSession.
      destruct (interviewSessions (store m2) !! sessionId);
        rewrite ?run_modify, run_addChatMessage; cbn [andb];
        rewrite run_ret, run_getSessionMessages; unfold ret; eauto.
    + apply Z.leb_gt in Hdone.
      destruct (index_is_Some QUESTION_TEMPLATES nextQuestionIndex)
        as [nextQuestion Hnq]; [fold script_length; lia|].
      rewrite Hnq, run_ret. cbv beta iota.
      rewrite run_updateInterviewSession, Hsession1, run_addChatMessage. cbn [andb].
      apply Z.ltb_lt in Hdone. rewrite Hdone.
      destruct (offersTemplate nextQuestion);
        rewrite ?run_bind, ?run_addChatMessage, run_ret, run_getSessionMessages;
        unfold ret; eauto.
Qed.

Lemma rowsOf_snoc (sessionId : string) (m m' : Machine) (row : InterviewQuestion) :
  interviewQuestions (store m') = interviewQuestions (store m) ++ [row] ->
  q_sessionId row = sessionId ->
  rowsOf sessionId m' = rowsOf sessionId m ++ [row].
Proof.
  intros Hrows Hsid. unfold rowsOf.
  rewrite Hrows, filter_app, filter_cons_True, filter_nil by exact Hsid. reflexivity.
Qed.

(** The place of an entry of the script. *)
Lemma scriptRows_drop (i : Z) (entry : InterviewQuestionTemplate) :
  index QUESTION_TEMPLATES i = Some entry ->
  drop (Z.to_nat i) scriptRows
  = (i, t_category entry) :: drop (S (Z.to_nat i)) scriptRows.
Proof.
  intros Hentry. pose proof (index_bounds _ _ _ Hentry) as Hrange.
  unfold index in Hentry. destruct (i <? 0); [discriminate|].
  apply drop_S. unfold scriptRows. rewrite list_lookup_imap, Hentry. cbn.
  rewrite Z2Nat.id by lia. reflexivity.
Qed.

(** The welcome turn, when the outside answers: the session moves to the
    first question and no row is stored. *)
Lemma turn_opens (t : Turn) (sessionId : string) (m : Machine)
    (session : InterviewSession) :
  turn_sessionId t = sessionId ->
  interviewSessions (store m) !! sessionId = Some session ->
  currentQuestionIndex session = -1 ->
  exists kept,
    interviewSessions (store (after t m)) !! sessionId = Some kept
    /\ currentQuestionIndex kept = 0
    /\ status kept = status session
    /\ rowsOf sessionId (after t m) = rowsOf sessionId m.
Proof.
  intros <- Hsession Hstart. unfold after, processUserMessage.
  rewrite run_getInterviewSession, Hsession, run_addChatMessage, Hstart.
  change (-1 =? -1) with true. cbv iota.
  change (index QUESTION_TEMPLATES 0) with (head QUESTION_TEMPLATES).
  cbn [head QUESTION_TEMPLATES].
  rewrite run_updateInterviewSession. machine_simpl. rewrite Hsession.
  rewrite run_addChatMessage, run_getSessionMessages. unfold ret. machine_simpl.
  eexists. split; [apply lookup_insert_eq|]. split; [reflexivity|].
  split; reflexivity.
Qed.

(** A cooperative turn on a session at a question of the script stores
    the row of that question and moves the session on; it completes the
    session, with an overall score, when the question was the last. *)
Lemma turn_advances (t : Turn) (sessionId : string) (m : Machine)
    (session : InterviewSession) :
  cooperative sessionId t ->
  interviewSessions (store m) !! sessionId = Some session ->
  0 <= currentQuestionIndex session < script_length ->
  exists kept row entry,
    interviewSessions (store (after t m)) !! sessionId = Some kept
    /\ currentQuestionIndex kept = currentQuestionIndex session + 1
    /\ status kept = (if currentQuestionIndex kept =? script_length
                      then completed else in_progress)
    /\ (status kept = completed -> is_Some (overallScore kept))
    /\ rowsOf sessionId (after t m) = rowsOf sessionId m ++ [row]
    /\ index QUESTION_TEMPLATES (currentQuestionIndex session) = Some entry
    /\ signature row = (currentQuestionIndex session, t_category entry).
Proof.
  intros (<- & Hanswers & Hfile) Hsession Hrange. unfold after.
  destruct (turn_returns (turn_world t) (turn_sessionId t) (turn_userMessage t)
              (turn_filePath t) m session Hanswers Hsession ltac:(lia))
    as ([returned messages] & m' & Hrun).
  rewrite Hrun. cbn [snd].
  destruct (turn_effect _ _ _ _ _ _ _ _ Hsession Hrun)
    as (rows & evaluations & replies & reports & _ & Hq & _ & _ & Hlen & _ & _
        & Hrows & _ & kept & _ & Hsessions & _ & _ & Hcases).
  destruct Hcases as [(Hwelcome & _)|(_ & Hindex & Hnone & Hcases)]; [lia|].
  destruct rows as [|row [|]]; [| |cbn in Hlen; lia].
  { destruct (Hnone eq_refl) as (Hnofile & _). congruence. }
  apply Forall_inv in Hrows. destruct Hrows as (Hsid & Hrow & entry & Hentry & Hcategory).
  cbn in Hindex. exists kept, row, entry.
  split; [rewrite Hsessions; apply lookup_insert_eq|]. split; [lia|].
  split; [|split; [|split; [|split]]].
  - destruct Hcases as [(Hend & -> & _)|(Hbelow & -> & _)].
    + rewrite Hend, Z.eqb_refl. reflexivity.
    + destruct (currentQuestionIndex kept =? script_length) eqn:Heq;
        [apply Z.eqb_eq in Heq; lia|reflexivity].
  - destruct Hcases as [(_ & _ & announcement & reply & _ & _ & -> & _)
                       |(_ & -> & _)]; [eauto|discriminate].
  - apply rowsOf_snoc; assumption.
  - exact Hentry.
  - unfold signature. rewrite Hrow, Hcategory. reflexivity.
Qed.

(** Cooperative turns from a question of the script on, no more than
    there are questions left. *)
Lemma cooperative_turns_advance (sessionId : string) (turns : list Turn) :
  forall (m : Machine) (session : InterviewSession),
    interviewSessions (store m) !! sessionId = Some session ->
    0 <= currentQuestionIndex session < script_length ->
    status session = in_progress ->
    currentQuestionIndex session + Z.of_nat (length turns) <= script_length ->
    Forall (cooperative sessionId) turns ->
    exists kept,
      interviewSessions (store (finish turns m)) !! sessionId = Some kept
      /\ currentQuestionIndex kept
         = currentQuestionIndex session + Z.of_nat (length turns)
      /\ status kept = (if currentQuestionIndex kept =? script_length
                        then completed else in_progress)
      /\ (status kept = completed -> is_Some (overallScore kept))
      /\ signature <$> rowsOf sessionId (finish turns m)
         = (signature <$> rowsOf sessionId m)
           ++ take (length turns)
                   (drop (Z.to_nat (currentQuestionIndex session)) scriptRows).
Proof.
  induction turns as [|t rest IH]; intros m session Hsession Hpast Hstatus Hleft Hturns.
  - exists session. cbn [finish foldl length take]. rewrite app_nil_r.
    split; [exact Hsession|]. split; [cbn; lia|].
    split; [|split; [congruence|reflexivity]].
    rewrite Hstatus.
    destruct (currentQuestionIndex session =? script_length) eqn:Heq;
      [apply Z.eqb_eq in Heq; lia|reflexivity].
  - apply Forall_cons in Hturns as (Ht & Hrest). cbn [length] in Hleft.
    destruct (turn_advances t sessionId m session Ht Hsession ltac:(lia))
      as (kept & row & entry & Hkept & Hindex & Hkstatus & Hscore & Hrows & Hentry
          & Hsignature).
    cbn [finish foldl]. fold (finish rest (after t m)).
    rewrite (scriptRows_drop _ _ Hentry). cbn [length take].
    destruct rest as [|t' rest'].
    + cbn [finish foldl length take]. exists kept.
      split; [exact Hkept|]. split; [cbn; lia|]. split; [exact Hkstatus|].
      split; [exact Hscore|]. rewrite Hrows, fmap_app. cbn [fmap list_fmap].
      rewrite Hsignature. reflexivity.
    + assert (Hbelow : currentQuestionIndex kept < script_length)
        by (cbn [length] in Hleft; lia).
      assert (Hprogress : status kept = in_progress).
      { rewrite Hkstatus.
        destruct (currentQuestionIndex kept =? script_length) eqn:Heq;
          [apply Z.eqb_eq in Heq; lia|reflexivity]. }
      destruct (IH (after t m) kept Hkept ltac:(lia) Hprogress
                  ltac:(cbn [length] in Hleft |- *; lia) Hrest)
        as (final & Hfinal & Hfindex & Hfstatus & Hfscore & Hfrows).
      exists final. split; [exact Hfinal|]. split; [lia|].
      split; [exact Hfstatus|]. split; [exact Hfscore|].
      rewrite Hfrows, Hrows, fmap_app. cbn [fmap list_fmap].
      rewrite Hsignature, <- app_assoc, Hindex.
      replace (Z.to_nat (currentQuestionIndex session + 1))
        with (S (Z.to_nat (currentQuestionIndex session))) by lia.
      reflexivity.
Qed.

(** X23.  An interview in which everything goes well: on a session that
    was just started, nine turns during which the outside answers every
    call, each bringing a file, complete the interview.  The first turn
    opens the script; each of the eight that follow stores the row of
    one question, so that the rows of the session are, in the order they
    were stored in, one for every entry of the script with the index and
    the category of that entry; the session ends completed, at the index
    after the last question, with an overall score. *)
Theorem cooperative_interview_completes_in_nine_turns
    (sessionId : string) (turns : list Turn) (m : Machine)
    (session : InterviewSession) :
  interviewSessions (store m) !! sessionId = Some session ->
  currentQuestionIndex session = -1 ->
  status session = in_progress ->
  rowsOf sessionId m = [] ->
  length turns = 9%nat ->
  Forall (cooperative sessionId) turns ->
  exists kept,
    interviewSessions (store (finish turns m)) !! sessionId = Some kept
    /\ status kept = completed
    /\ currentQuestionIndex kept = script_length
    /\ is_Some (overallScore kept)
    /\ signature <$> rowsOf sessionId (finish turns m) = scriptRows.
Proof.
  intros Hsession Hstart Hstatus Hfresh Hnine Hturns.
  destruct turns as [|t rest]; [discriminate Hnine|].
  apply Forall_cons in Hturns as ((Hsid & _) & Hrest).
  destruct (turn_opens t sessionId m session Hsid Hsession Hstart)
    as (opened & Hopened & Hzero & Hsame & Hrows).
  cbn [finish foldl]. fold (finish rest (after t m)).
  injection Hnine as Height.
  destruct (cooperative_turns_advance sessionId rest (after t m) opened Hopened)
    as (kept & Hkept & Hindex & Hkstatus & Hscore & Hkrows);
    [rewrite Hzero; change script_length with 8; lia|congruence
    |rewrite Hzero, Height; change script_length with 8; lia|exact Hrest|].
  rewrite Hzero, Height in Hindex. change (0 + Z.of_nat 8) with script_length in Hindex.
  rewrite Hindex, Z.eqb_refl in Hkstatus.
  exists kept. split; [exact Hkept|]. split; [exact Hkstatus|].
  split; [exact Hindex|]. split; [exact (Hscore Hkstatus)|].
  rewrite Hkrows, Hrows, Hfresh, Hzero, Height. reflexivity.
Qed.

(** The sample world answers every call. *)
Lemma sample_world_answers : answers Sample.world.
Proof.
  split; [intros; eexists; reflexivity|].
  split; [intros; eexists; reflexivity|].
  split; [intros; eexists; reflexivity|].
  intros filePath expectedSheets taskType.
  apply evaluateExcelFile_readable.
  constructor; [eexists; reflexivity|constructor].
Qed.

(** Nine answers with the sample workbook attached. *)
Lemma cooperative_interview_completes_in_nine_turns_witness :
  let turns :=
    replicate 9 {| turn_world := Sample.world; turn_sessionId := "7d9f";
                   turn_userMessage := "My answer.";
                   turn_filePath := Some "uploads/a1.xlsx" |} in
  exists kept,
    interviewSessions (store (finish turns (Sample.at_index (-1) in_progress))) !! "7d9f"
    = Some kept
    /\ status kept = completed
    /\ currentQuestionIndex kept = script_length
    /\ is_Some (overallScore kept)
    /\ signature <$> rowsOf "7d9f" (finish turns (Sample.at_index (-1) in_progress))
       = scriptRows.
Proof.
  intros turns.
  apply (cooperative_interview_completes_in_nine_turns "7d9f" turns
           (Sample.at_index (-1) in_progress)
           (Sample.session "7d9f" (-1) in_progress) eq_refl eq_refl eq_refl eq_refl
           eq_refl).
  assert (Hturn : cooperative "7d9f"
                    {| turn_world := Sample.world; turn_sessionId := "7d9f";
                       turn_userMessage := "My answer.";
                       turn_filePath := Some "uploads/a1.xlsx" |})
    by (split; [reflexivity|split; [exact sample_world_answers|reflexivity]]).
  subst turns. cbn [replicate]. repeat (constructor; [exact Hturn|]). constructor.
Defined.

End Courses.
